(** * Tcm_Agent: the tongue-diagnosis assistant of [main.py]

    A shallow embedding of the reference table [TONGUE_DATABASE], of the
    class [UserHealthManager] and of the tool functions built on them,
    followed by the properties of the specification that they decide.

    Python values are modelled as follows.
    - [str] is a sequence of Unicode code points, [list N]; literals are
      written in UTF-8 and decoded by [u].
    - [int] is [Z]; a JSON number is a rational [Q].
    - a [dict] whose iteration order is observed ([TONGUE_DATABASE],
      [constitution_trends]) is an association list in insertion order;
      the [users] dictionary, only ever looked up by key, is a [gmap].
    - the object state [self.users] and the global [current_user_id] are
      threaded explicitly; the values drawn from the clock and from
      [uuid.uuid4] are inputs of the operation that draws them. *)

From Stdlib Require Import ZArith NArith QArith List String Ascii Bool Lia.
From Stdlib Require Import Permutation Sorted DecimalString.
From stdpp Require Import base option list gmap.

Close Scope Q_scope.
Open Scope Z_scope.
Open Scope list_scope.

(** ** Strings *)

Abbreviation str := (list N).

Module PyStr.

(** Decoder of UTF-8 literals: [need] continuation bytes are still
    expected for the code point accumulated in [acc]. *)
Fixpoint utf8_go (need : nat) (acc : N) (bs : list N) : str :=
  match bs with
  | [] => []
  | b :: bs' =>
      match need with
      | O =>
          if (b <? 128)%N then b :: utf8_go 0 0%N bs'
          else if (b <? 224)%N then utf8_go 1 (b - 192)%N bs'
          else if (b <? 240)%N then utf8_go 2 (b - 224)%N bs'
          else utf8_go 3 (b - 240)%N bs'
      | S O => (acc * 64 + (b - 128))%N :: utf8_go 0 0%N bs'
      | S n => utf8_go n (acc * 64 + (b - 128))%N bs'
      end
  end.

Definition u (s : string) : str :=
  utf8_go 0 0%N (List.map N_of_ascii (list_ascii_of_string s)).

(** [a == b] *)
Definition eqb (a b : str) : bool := bool_decide (a = b).

(** [s.startswith(p)] *)
Fixpoint startswith (p s : str) : bool :=
  match p, s with
  | [], _ => true
  | _ :: _, [] => false
  | a :: p', b :: s' => (a =? b)%N && startswith p' s'
  end.

(** [sub in s]: [sub] occurs in [s] as a contiguous run. *)
Fixpoint contains (sub s : str) : bool :=
  startswith sub s ||
  match s with
  | [] => false
  | _ :: s' => contains sub s'
  end.

(** [sep.join(l)] *)
Fixpoint join (sep : str) (l : list str) : str :=
  match l with
  | [] => []
  | [x] => x
  | x :: l' => x ++ sep ++ join sep l'
  end.

(** [s.split(sep)] for a separator of one character. *)
Fixpoint split (sep : N) (s : str) : list str :=
  match s with
  | [] => [[]]
  | c :: s' =>
      if (c =? sep)%N then [] :: split sep s'
      else match split sep s' with
           | [] => [[c]]
           | w :: ws => (c :: w) :: ws
           end
  end.

(** [c.isspace()], the characters removed by [str.strip()]. *)
Definition isspace (c : N) : bool :=
  ((9 <=? c) && (c <=? 13) || (28 <=? c) && (c <=? 32) ||
   (c =? 133) || (c =? 160) || (c =? 5760) ||
   (8192 <=? c) && (c <=? 8202) || (c =? 8232) || (c =? 8233) ||
   (c =? 8239) || (c =? 8287) || (c =? 12288))%N.

Fixpoint lstrip (s : str) : str :=
  match s with
  | [] => []
  | c :: s' => if isspace c then lstrip s' else s
  end.

Definition rstrip (s : str) : str := rev (lstrip (rev s)).

(** [s.strip()] *)
Definition strip (s : str) : str := rstrip (lstrip s).

(** [a < b]: lexicographic order on code points. *)
Fixpoint ltb (a b : str) : bool :=
  match a, b with
  | _, [] => false
  | [], _ :: _ => true
  | x :: a', y :: b' => (x <? y)%N || ((x =? y)%N && ltb a' b')
  end.

(** [s[:n]] for [n >= 0]. *)
Definition take (n : nat) (s : str) : str := firstn n s.

End PyStr.

Abbreviation u := PyStr.u.

Definition nl : str := [10%N].

(** ** Dictionaries in insertion order *)

Module Dict.
Section Dict.
Context {V : Type}.

(** [d.get(k)] *)
Fixpoint get (k : str) (d : list (str * V)) : option V :=
  match d with
  | [] => None
  | (k', v) :: d' => if PyStr.eqb k' k then Some v else get k d'
  end.

(** [d[k] = v]: an existing key keeps its place, a new key goes last. *)
Fixpoint set (k : str) (v : V) (d : list (str * V)) : list (str * V) :=
  match d with
  | [] => [(k, v)]
  | (k', v') :: d' =>
      if PyStr.eqb k' k then (k', v) :: d' else (k', v') :: set k v d'
  end.

(** [list(d.keys())] *)
Definition keys (d : list (str * V)) : list str := List.map fst d.

(** [k in d] *)
Definition mem (k : str) (d : list (str * V)) : bool :=
  match get k d with Some _ => true | None => false end.
End Dict.
End Dict.

(** ** The reference table *)

(** One entry of [TONGUE_DATABASE]. The keys of the entry are, in order,
    "體質", "症狀", "建議", "食療", "禁忌" and "中醫理論". *)
Record profile := {
  info_constitution : str;
  info_symptoms : list str;
  info_advice : str;
  info_remedies : list str;
  info_taboos : list str;
  info_theory : str
}.

Definition TONGUE_DATABASE : list (str * profile) :=
  [ (u "舌頭有紅點",
     {| info_constitution := u "內熱過盛";
        info_symptoms := [u "口乾"; u "煩躁"; u "失眠"];
        info_advice := u "清熱降火，避免辛辣食物";
        info_remedies := [u "菊花茶"; u "蓮子心茶"; u "綠豆湯"];
        info_taboos := [u "辛辣"; u "油炸"; u "燒烤"];
        info_theory := u "舌起紅點多為心火上炎或胃熱熾盛之象" |});
    (u "舌尖及側邊發紅",
     {| info_constitution := u "肝氣鬱結";
        info_symptoms := [u "情緒不穩"; u "脅痛"; u "月經不調"];
        info_advice := u "疏肝理氣，保持心情愉快";
        info_remedies := [u "玫瑰花茶"; u "陳皮茶"; u "柴胡疏肝散"];
        info_taboos := [u "過度勞累"; u "情緒激動"];
        info_theory := u "舌邊尖紅為肝膽火旺，情志不遂所致" |});
    (u "舌頭有齒痕",
     {| info_constitution := u "脾虛濕重";
        info_symptoms := [u "疲勞"; u "腹脹"; u "大便溏薄"];
        info_advice := u "健脾祛濕，適量運動";
        info_remedies := [u "四神湯"; u "薏仁水"; u "茯苓餅"];
        info_taboos := [u "生冷食物"; u "甜膩食物"];
        info_theory := u "舌邊有齒痕乃脾氣虛弱，舌體胖嫩所致" |});
    (u "舌頭有溝痕",
     {| info_constitution := u "脾胃虛弱";
        info_symptoms := [u "食慾不振"; u "消化不良"; u "面色萎黃"];
        info_advice := u "健脾養胃，規律飲食";
        info_remedies := [u "山藥粥"; u "蓮子湯"; u "白朮茶"];
        info_taboos := [u "過飽過餓"; u "冰冷飲品"];
        info_theory := u "舌有裂紋多為陰虛或脾胃氣虛，津液不足" |});
    (u "舌苔黃厚",
     {| info_constitution := u "濕熱體質";
        info_symptoms := [u "口苦"; u "小便黃"; u "大便黏膩"];
        info_advice := u "清熱利濕，飲食清淡";
        info_remedies := [u "茵陳蒿茶"; u "綠豆薏仁湯"; u "冬瓜湯"];
        info_taboos := [u "油膩食物"; u "酒類"; u "甜食"];
        info_theory := u "苔黃而厚為胃腸積熱，濕熱內蘊之象" |});
    (u "舌苔白厚",
     {| info_constitution := u "寒濕體質";
        info_symptoms := [u "畏寒"; u "腹脹"; u "大便溏薄"];
        info_advice := u "溫陽化濕，避免生冷";
        info_remedies := [u "生薑茶"; u "肉桂茶"; u "附子理中湯"];
        info_taboos := [u "生冷食物"; u "寒涼水果"];
        info_theory := u "苔白而厚為寒濕內盛，脾陽不振之證" |});
    (u "淡紅色舌且舌苔淺白",
     {| info_constitution := u "健康舌相";
        info_symptoms := [u "無明顯不適"];
        info_advice := u "保持現狀，預防為主";
        info_remedies := [u "均衡飲食"; u "適量運動"];
        info_taboos := [u "過度進補"];
        info_theory := u "舌淡紅苔薄白為正常舌象，氣血調和之徵" |}) ].

(** ** Errors and state *)

Inductive exn := KeyError | IndexError | ValueError.

Inductive result (A : Type) :=
  | Ok (a : A)
  | Raise (e : exn).
Arguments Ok {A} a.
Arguments Raise {A} e.

(** ** The user-record store *)

(** One element of ["tongue_records"]. *)
Record tongue_record := {
  record_id : str;
  date : str;
  tongue_type : str;
  constitution : str;
  symptoms : list str;
  weather_info : str
}.

(** One value of [self.users]. *)
Record user_doc := {
  name : str;
  age : Z;
  gender : str;
  created_at : str;
  tongue_records : list tongue_record;
  constitution_trends : list (str * Z);
  preferences : list (str * str)
}.

Abbreviation users_t := (gmap str user_doc).

(** What one call of [add_tongue_record] draws from outside: the clock
    read by [create_user] when the user is new
    ([datetime.now().isoformat()]), the clock read for ["date"], the
    clock read for ["weather_info"] (already formatted by
    [strftime('%Y-%m-%d %H:%M')]) and [str(uuid.uuid4())]. *)
Record entropy := {
  now_created : str;
  now_date : str;
  now_minute : str;
  uuid4 : str
}.

(** Computations over [self.users] that may raise. *)
Definition M (A : Type) : Type := users_t -> result A * users_t.

Definition ret {A} (a : A) : M A := fun s => (Ok a, s).

Definition bind {A B} (m : M A) (f : A -> M B) : M B :=
  fun s =>
    match m s with
    | (Ok a, s') => f a s'
    | (Raise e, s') => (Raise e, s')
    end.

Definition raise {A} (e : exn) : M A := fun s => (Raise e, s).

Definition get_users : M users_t := fun s => (Ok s, s).

Definition put_users (s' : users_t) : M unit := fun _ => (Ok tt, s').

Notation "x <- m ;; k" := (bind m (fun x => k))
  (at level 100, m at next level, right associativity).
Notation "m ;;; k" := (bind m (fun _ => k))
  (at level 100, right associativity).

(** [self.users[user_id]], a [KeyError] when the id is absent. *)
Definition user_at (user_id : str) : M user_doc :=
  s <- get_users ;;
  match s !! user_id with
  | Some d => ret d
  | None => raise KeyError
  end.

(** The dictionary returned in the third case of
    [get_constitution_analysis]. *)
Record analysis := {
  recent_constitution : str;
  most_common_constitution : str;
  constitution_frequency : list (str * Z);
  recent_trend : list str;
  total_records : Z
}.

(** The three shapes of the returned dictionary: [{"error": msg}],
    [{"message": msg}] and the analysis. *)
Inductive analysis_result :=
  | AnalysisError (msg : str)
  | AnalysisMessage (msg : str)
  | AnalysisOf (a : analysis).

Module UserHealthManager.

(** [save_data] rewrites the data file from [self.users] and swallows
    every error; it leaves [self.users] as it is. The file is not part
    of the model. *)
Definition save_data : M unit := ret tt.

Definition create_user (user_id name : str) (age : Z) (gender now : str)
  : M bool :=
  s <- get_users ;;
  if bool_decide (s !! user_id = None) then
    put_users (<[user_id :=
      {| name := name; age := age; gender := gender;
         created_at := now;
         tongue_records := [];
         constitution_trends := [];
         preferences := [] |}]> s) ;;;
    save_data ;;;
    ret true
  else ret false.

Definition update_constitution_trends (user_id constitution : str) : M unit :=
  d <- user_at user_id ;;
  let trends := constitution_trends d in
  let count :=
    match Dict.get constitution trends with Some c => c | None => 0 end in
  s <- get_users ;;
  put_users (<[user_id :=
    {| name := name d; age := age d; gender := gender d;
       created_at := created_at d;
       tongue_records := tongue_records d;
       constitution_trends := Dict.set constitution (count + 1) trends;
       preferences := preferences d |}]> s).

Definition add_tongue_record (user_id tongue_type constitution : str)
    (symptoms : list str) (e : entropy) : M str :=
  s <- get_users ;;
  (if bool_decide (s !! user_id = None)
   then create_user user_id [] 0 [] (now_created e) ;;; ret tt
   else ret tt) ;;;
  let record :=
    {| record_id := uuid4 e;
       date := now_date e;
       tongue_type := tongue_type;
       constitution := constitution;
       symptoms := symptoms;
       weather_info := u "記錄時間: " ++ now_minute e |} in
  d <- user_at user_id ;;
  s1 <- get_users ;;
  put_users (<[user_id :=
    {| name := name d; age := age d; gender := gender d;
       created_at := created_at d;
       tongue_records := tongue_records d ++ [record];
       constitution_trends := constitution_trends d;
       preferences := preferences d |}]> s1) ;;;
  update_constitution_trends user_id constitution ;;;
  save_data ;;;
  ret (record_id record).

(** [sorted(records, key=lambda x: x["date"], reverse=True)]: a stable
    sort into non-increasing dates; records with equal dates keep the
    order they had in [records]. *)
Fixpoint insert_desc (x : tongue_record) (l : list tongue_record)
  : list tongue_record :=
  match l with
  | [] => [x]
  | y :: l' =>
      if PyStr.ltb (date x) (date y) then y :: insert_desc x l'
      else x :: y :: l'
  end.

Definition sorted_by_date_desc (l : list tongue_record)
  : list tongue_record :=
  foldr insert_desc [] l.

(** [l[:limit]]: a negative [limit] counts from the end. *)
Definition slice_to {A} (limit : Z) (l : list A) : list A :=
  if limit <? 0
  then firstn (Z.to_nat (Z.of_nat (length l) + limit)) l
  else firstn (Z.to_nat limit) l.

(** [l[-n:]] for [n > 0]. *)
Definition slice_last {A} (n : nat) (l : list A) : list A :=
  skipn (length l - n) l.

Definition get_user_history (users : users_t) (user_id : str) (limit : Z)
  : list tongue_record :=
  match users !! user_id with
  | Some d => slice_to limit (sorted_by_date_desc (tongue_records d))
  | None => []
  end.

(** [max(items, key=...)]: the first item whose key no later item
    exceeds; a [ValueError] on no items. *)
Fixpoint max_from {A} (key : A -> Z) (best : A) (l : list A) : A :=
  match l with
  | [] => best
  | x :: l' => max_from key (if key best <? key x then x else best) l'
  end.

Definition py_max {A} (key : A -> Z) (l : list A) : result A :=
  match l with
  | [] => Raise ValueError
  | x :: l' => Ok (max_from key x l')
  end.

(** [l[-1]], an [IndexError] on the empty list. *)
Definition last_item {A} (l : list A) : result A :=
  match rev l with
  | [] => Raise IndexError
  | x :: _ => Ok x
  end.

Definition get_constitution_analysis (users : users_t) (user_id : str)
  : result analysis_result :=
  match users !! user_id with
  | None => Ok (AnalysisError (u "用戶不存在"))
  | Some d =>
      let trends := constitution_trends d in
      let records := tongue_records d in
      match records with
      | [] => Ok (AnalysisMessage (u "暫無記錄可供分析"))
      | _ :: _ =>
          match last_item records with
          | Raise e => Raise e
          | Ok last_record =>
              match
                (match trends with
                 | [] => Ok (u "未知", 0)
                 | _ :: _ => py_max snd trends
                 end)
              with
              | Raise e => Raise e
              | Ok most_common =>
                  Ok (AnalysisOf
                    {| recent_constitution := constitution last_record;
                       most_common_constitution := fst most_common;
                       constitution_frequency := trends;
                       recent_trend :=
                         List.map constitution (slice_last 5 records);
                       total_records := Z.of_nat (length records) |})
              end
          end
      end
  end.

End UserHealthManager.

(** ** The tongue-analysis tool *)

(** ["\n".join([f"• {t}" for t in available_types])] *)
Definition available_types_listing : str :=
  PyStr.join nl
    (List.map (fun t => u "• " ++ t) (Dict.keys TONGUE_DATABASE)).

(** The text returned by the first guard. *)
Definition format_error_text : str :=
  u "❌ 輸入格式錯誤或舌象類型無法識別。" ++ nl ++
  u "請輸入有效的舌象描述，例如：'舌頭有紅點' 或 '舌頭有紅點|口乾,失眠'" ++ nl ++ nl ++
  u "📋 目前可分析的舌象類型：" ++ nl ++ available_types_listing.

(** The text returned when the description before the separator is not a
    key of the table. *)
Definition unknown_type_text (tongue_type : str) : str :=
  u "❌ 未收錄此舌象類型：" ++ tongue_type ++ nl ++ nl ++ u "📋 目前可分析的舌象類型：" ++ nl ++
  available_types_listing.

(** The f-string assigned to [analysis]. *)
Definition analysis_text (record_id tongue_type : str) (tongue_info : profile) : str :=
  nl ++ u "親愛的用戶，感謝您的信任。根據您提供的舌象描述，以下是專業分析與建議：" ++ nl ++
  u "━━━━━━━━━━━━━━━━━━━━━━━━━━━━" ++ nl ++ u "📋 分析編號：" ++
  (PyStr.take 8 record_id) ++ u "..." ++ nl ++ u "👅 舌象描述：" ++ tongue_type ++
  nl ++ u "🏥 對應體質：" ++ (info_constitution tongue_info) ++ nl ++ nl ++
  u "📚 【中醫理論基礎】" ++ nl ++ (info_theory tongue_info) ++ nl ++ nl ++
  u "💊 【調理原則】" ++ nl ++ (info_advice tongue_info) ++ nl ++ nl ++
  u "🍵 【推薦食療方】" ++ nl ++ u "• " ++
  (PyStr.join (u " • ") (info_remedies tongue_info)) ++ nl ++ nl ++
  u "⚠️ 【飲食宜忌】" ++ nl ++ u "應避免：" ++
  (PyStr.join (u " • ") (info_taboos tongue_info)) ++ nl ++ nl ++
  u "🩺 【常見伴隨症狀】" ++ nl ++ u "• " ++
  (PyStr.join (u " • ") (info_symptoms tongue_info)) ++ nl ++ nl ++
  u "📝 【專業提醒】" ++ nl ++ u "此分析僅供參考，如症狀持續或加重，建議諮詢專業中醫師進行全面診斷。" ++ nl.

(** [any(s in expected for expected in tongue_info["症狀"])] *)
Definition matches_profile (tongue_info : profile) (s : str) : bool :=
  existsb (fun expected => PyStr.contains s expected)
    (info_symptoms tongue_info).

Definition matched_symptoms (symptoms : list str) (tongue_info : profile)
  : list str :=
  List.filter (matches_profile tongue_info) symptoms.

Definition unmatched_symptoms (symptoms : list str) (tongue_info : profile)
  : list str :=
  List.filter (fun s => negb (matches_profile tongue_info s)) symptoms.

Definition nonempty {A} (l : list A) : bool :=
  match l with [] => false | _ :: _ => true end.

(** The part appended under [if symptoms:]. *)
Definition symptom_section (symptoms : list str) (tongue_info : profile)
  : str :=
  if nonempty symptoms then
    let matched := matched_symptoms symptoms tongue_info in
    let unmatched := unmatched_symptoms symptoms tongue_info in
    (nl ++ nl ++ u "🎯 【症狀對照分析】") ++
    (if nonempty matched then
       nl ++ u "✅ 符合體質特徵：" ++ PyStr.join (u ", ") matched
     else []) ++
    (if nonempty unmatched then
       nl ++ u "🔍 需進一步觀察：" ++ PyStr.join (u ", ") unmatched ++
       nl ++ u "💡 這些症狀可能提示其他體質傾向，建議持續觀察記錄。請問您最近有無其他不適或想補充的症狀？"
     else [])
  else [].

Definition closing_text : str :=
  nl ++ nl ++ u "📈 想了解您的健康趨勢，可輸入「健康趨勢」；查詢過往紀錄，請輸入「歷史記錄」。如需個性化建議，請輸入「個性化建議」。".


Definition enhanced_tongue_analysis (current_user_id : str) (e : entropy)
    (input_str : str) : M str :=
  if negb (nonempty input_str) ||
     (negb (PyStr.contains (u "|") input_str) &&
      negb (Dict.mem input_str TONGUE_DATABASE))
  then ret format_error_text
  else
    match PyStr.split 124 input_str with
    | [] => raise IndexError
    | part0 :: rest =>
        let tongue_type := PyStr.strip part0 in
        let symptoms :=
          match rest with
          | part1 :: _ =>
              if nonempty part1
              then List.map PyStr.strip (PyStr.split 44 part1)
              else []
          | [] => []
          end in
        match Dict.get tongue_type TONGUE_DATABASE with
        | None => ret (unknown_type_text tongue_type)
        | Some tongue_info =>
            record_id <-
              UserHealthManager.add_tongue_record current_user_id
                tongue_type (info_constitution tongue_info) symptoms e ;;
            ret (analysis_text record_id tongue_type tongue_info ++
                 symptom_section symptoms tongue_info ++
                 closing_text)
        end
    end.

(** ** The history report *)

(** [f"{i:2d}"] for [i >= 0]: decimal digits, right-aligned in two
    columns. *)
Definition decimal (i : nat) : str :=
  List.map N_of_ascii
    (list_ascii_of_string (NilZero.string_of_uint (Nat.to_uint i))).

Definition format_2d (i : nat) : str :=
  let digits := decimal i in
  repeat 32%N (2 - length digits) ++ digits.

Section HistoryReport.

(** [datetime.fromisoformat(d).strftime("%m/%d %H:%M")], or [d] itself
    when [d] does not parse. *)
Variable format_date : str -> str.

Definition history_line (i : nat) (record : tongue_record) : str :=
  format_2d i ++ u ". " ++ format_date (date record) ++ u " | " ++
  tongue_type record ++ u " → " ++ constitution record ++ nl.

(** The loop over [enumerate(history, i)]. *)
Fixpoint history_lines (i : nat) (history : list tongue_record) : str :=
  match history with
  | [] => []
  | record :: history' =>
      history_line i record ++ history_lines (S i) history'
  end.

Definition get_user_history_formatted (users : users_t)
    (current_user_id : str) : str :=
  let history :=
    UserHealthManager.get_user_history users current_user_id 10 in
  if nonempty history then
    (u "📚 【歷史記錄】" ++ nl ++ u "━━━━━━━━━━━━━━━━━━━━" ++ nl) ++
    history_lines 1 history
  else u "📭 暫無歷史記錄".

End HistoryReport.


(** ** The weather-advice composer *)

Definition CITY_NAME_MAP : list (str * str) :=
  [ (u "台北", u "Taipei");
    (u "臺北", u "Taipei");
    (u "新北", u "New Taipei");
    (u "台中", u "Taichung");
    (u "臺中", u "Taichung");
    (u "台南", u "Tainan");
    (u "臺南", u "Tainan");
    (u "高雄", u "Kaohsiung");
    (u "基隆", u "Keelung");
    (u "桃園", u "Taoyuan");
    (u "新竹", u "Hsinchu");
    (u "嘉義", u "Chiayi");
    (u "屏東", u "Pingtung");
    (u "宜蘭", u "Yilan");
    (u "花蓮", u "Hualien");
    (u "台東", u "Taitung");
    (u "臺東", u "Taitung");
    (u "南投", u "Nantou");
    (u "彰化", u "Changhua");
    (u "雲林", u "Yunlin");
    (u "苗栗", u "Miaoli");
    (u "澎湖", u "Penghu");
    (u "金門", u "Kinmen");
    (u "連江", u "Lienchiang") ].

(** The fields read from the decoded response of the weather service:
    [res.get("cod")], [res.get("message")], [res['main']['humidity']],
    [res['main']['temp']] and [res['weather'][0]['description']]. *)
Record weather_json := {
  cod : option Z;
  message : option str;
  main_humidity : Q;
  main_temp : Q;
  weather_description : str
}.

(** [a > b] and [a < b] on JSON numbers. *)
Definition Qgtb (a b : Q) : bool := negb (Qle_bool a b).
Definition Qltb (a b : Q) : bool := negb (Qle_bool b a).

(** The pieces that [weather_constitution_advice] appends to
    [weather_advice], one constructor for each [+=] of the source. *)
Inductive advice_block :=
  | Title | Conditions | Theory
  | Dampness | SpleenDampClause | DampHeatClause
  | Heat | Cold
  | Closing.

(** The blocks appended for given readings and constitution, in order. *)
Definition advice_blocks (humidity temperature : Q) (constitution : str)
  : list advice_block :=
  [Title; Conditions; Theory] ++
  (if Qgtb humidity (75 # 1) then
     Dampness ::
     (if PyStr.eqb constitution (u "脾虛濕重") then [SpleenDampClause]
      else if PyStr.eqb constitution (u "濕熱體質") then [DampHeatClause]
      else [])
   else []) ++
  (if Qgtb temperature (30 # 1) then [Heat]
   else if Qltb temperature (15 # 1) then [Cold]
   else []) ++
  [Closing].

Section Weather.

(** [os.getenv("OPENWEATHER_API_KEY")] *)
Variable OPENWEATHER_API_KEY : option str.

(** The request to the weather service, cached by city name. *)
Variable get_weather_cached : str -> weather_json.

(** The text an f-string gives for a JSON number. *)
Variable format_number : Q -> str.

Definition render_block (city desc constitution : str)
    (humidity temperature : Q) (b : advice_block) : str :=
  match b with
  | Title =>
      u "🌤️ 【天人合一調理方案】" ++ nl ++ u "━━━━━━━━━━━━━━━━━━━━━━━━━━━━" ++ nl
  | Conditions =>
      u "📍 地點：" ++ city ++ nl ++ u "🌡️ 溫度：" ++ format_number temperature ++
      u "°C" ++ nl ++ u "💧 濕度：" ++ format_number humidity ++ u "%" ++ nl ++
      u "☁️ 天候：" ++ desc ++ nl ++ u "👤 您的體質：" ++ constitution ++ nl ++ nl
  | Theory =>
      u "🍃 【中醫天氣養生理論】" ++ nl ++ u "中醫認為人體應順應天時變化，「天人合一」方能保持健康。" ++ nl
  | Dampness =>
      nl ++ u "💧 【濕氣調理】" ++ nl ++ u "當前濕度偏高（" ++ format_number humidity ++
      u "%），易助長體內濕邪" ++ nl ++ u "• 通用建議：多食祛濕食物如薏仁、冬瓜、赤小豆" ++ nl ++
      u "• 避免：冰冷飲品、甜膩食物，以免助濕生痰" ++ nl
  | SpleenDampClause =>
      u "• 您的體質特別容易受濕氣影響，建議加強健脾祛濕，推薦四神湯、茯苓茶。" ++ nl
  | DampHeatClause =>
      u "• 濕熱體質在高濕環境下需特別注意清熱利濕，推薦綠豆薏仁湯、荷葉茶。" ++ nl
  | Heat =>
      nl ++ u "☀️ 【暑熱調理】" ++ nl ++ u "高溫天氣（" ++ format_number temperature ++
      u "°C），需注意防暑清熱" ++ nl ++ u "• 建議：綠豆湯、酸梅湯等清暑飲品" ++ nl ++
      u "• 避免：過度貪涼，以免寒熱夾雜" ++ nl
  | Cold =>
      nl ++ u "❄️ 【寒冷調理】" ++ nl ++ u "低溫環境（" ++ format_number temperature ++
      u "°C），需注意溫陽暖身" ++ nl ++ u "• 建議：生薑茶、桂圓茶等溫性飲品" ++ nl ++
      u "• 避免：過食生冷，注意保暖防寒" ++ nl
  | Closing =>
      nl ++ u "💡 中醫智慧：「順天時而動，應地利而食，合人和而居」"
  end.

Definition weather_constitution_advice (users : users_t)
    (current_user_id city : str) : result str :=
  match OPENWEATHER_API_KEY with
  | None | Some [] => Ok (u "❌ 缺少 OpenWeather API 金鑰，無法查詢天氣。")
  | Some (_ :: _) =>
      let city_query :=
        match Dict.get (PyStr.strip city) CITY_NAME_MAP with
        | Some q => q
        | None => PyStr.strip city
        end in
      let res := get_weather_cached city_query in
      if negb (bool_decide (cod res = Some 200)) then
        Ok (u "⚠️ 天氣資訊查詢失敗：" ++
            (match message res with Some m => m | None => u "未知錯誤" end) ++
            nl ++ u "請檢查城市名稱或網路連線狀態")
      else
        let humidity := main_humidity res in
        let temperature := main_temp res in
        let desc := weather_description res in
        match
          UserHealthManager.get_constitution_analysis users current_user_id
        with
        | Raise e => Raise e
        | Ok analysis =>
            let constitution :=
              match analysis with
              | AnalysisOf a => recent_constitution a
              | _ => u "未知"
              end in
            Ok (concat
                  (List.map
                     (render_block city desc constitution
                        humidity temperature)
                     (advice_blocks humidity temperature constitution)))
        end
  end.

End Weather.


(** ** Further tools and the interactive loop *)

(** [str(z)] for an [int]. *)
Definition str_of_int (z : Z) : str :=
  List.map N_of_ascii
    (list_ascii_of_string (NilZero.string_of_int (Z.to_int z))).

(** [l[i]] for [i >= 0], an [IndexError] past the end. *)
Definition item {A} (i : nat) (l : list A) : result A :=
  match nth_error l i with
  | Some x => Ok x
  | None => Raise IndexError
  end.

(** [next((k for k, v in TONGUE_DATABASE.items() if v['體質'] == c), None)],
    over the items [table]. *)
Fixpoint key_of_constitution (c : str) (table : list (str * profile))
  : option str :=
  match table with
  | [] => None
  | (k, v) :: table' =>
      if PyStr.eqb (info_constitution v) c then Some k
      else key_of_constitution c table'
  end.

(** The part of the advice appended under
    [if most_common_key and most_common_key in TONGUE_DATABASE:]. *)
Definition main_direction (most_common_key : option str) : result str :=
  match most_common_key with
  | Some k =>
      if nonempty k && Dict.mem k TONGUE_DATABASE then
        match Dict.get k TONGUE_DATABASE with
        | None => Raise KeyError
        | Some constitution_info =>
            match item 0 (info_remedies constitution_info) with
            | Raise x => Raise x
            | Ok remedy0 =>
                match item 1 (info_remedies constitution_info) with
                | Raise x => Raise x
                | Ok remedy1 =>
                    Ok (u "🌿 主要調理方向：" ++ info_advice constitution_info ++ nl ++
                        u "🍵 日常食療推薦：" ++ nl ++ u "• " ++ remedy0 ++
                        u "：建議每日飲用" ++ nl ++ u "• " ++ remedy1 ++
                        u "：每週2-3次" ++ nl ++
                        u "🚫 飲食禁忌提醒：" ++ nl ++ u "• " ++
                        PyStr.join (u " • ") (info_taboos constitution_info) ++
                        nl)
                end
            end
        end
      else Ok []
  | None => Ok []
  end.

(** The part appended when the recent constitution differs from the most
    common one and [recent_constitution_key in TONGUE_DATABASE]. *)
Definition change_notice (a : analysis) (recent_constitution_key : option str)
  : result str :=
  if negb (PyStr.eqb (recent_constitution a) (most_common_constitution a)) &&
     match recent_constitution_key with
     | Some k => Dict.mem k TONGUE_DATABASE
     | None => false
     end
  then
    match recent_constitution_key with
    | None => Raise KeyError
    | Some k =>
        match Dict.get k TONGUE_DATABASE with
        | None => Raise KeyError
        | Some recent_info =>
            Ok (                nl ++ u "⚠️ 【近期體質變化提醒】" ++ nl ++ u "您的體質最近偏向「" ++
                recent_constitution a ++ u "」，建議：" ++ nl ++
                u "• 臨時調整：" ++ info_advice recent_info ++ nl ++
                u "• 近期適合：" ++
                PyStr.join (u ", ") (firstn 2 (info_remedies recent_info)) ++
                nl ++
                u "• 暫時避免：" ++
                PyStr.join (u ", ") (firstn 2 (info_taboos recent_info)) ++
                nl)
        end
    end
  else Ok [].

Definition advice_footer : str :=
  nl ++ u "🕒 【養生時間建議】" ++ nl ++ u "• 最佳調理時間：每日清晨空腹時觀察舌象" ++ nl ++
  u "• 食療頻率：建議持續3-4週觀察效果" ++ nl ++ u "• 複診提醒：建議每週記錄1-2次舌象變化" ++ nl ++ nl ++
  u "🌟 【中醫養生要點】" ++ nl ++ u "「藥補不如食補，食補不如睡補」" ++ nl ++
  u "體質調理需要耐心，建議配合規律作息和適量運動效果更佳。" ++ nl.

Definition get_personalized_advice (users : users_t) (current_user_id : str)
  : result str :=
  match UserHealthManager.get_constitution_analysis users current_user_id with
  | Raise x => Raise x
  | Ok (AnalysisError _) | Ok (AnalysisMessage _) =>
      Ok (u "請先進行至少一次舌象分析，以便為您提供個性化的中醫養生建議。")
  | Ok (AnalysisOf a) =>
      let recent_constitution_key :=
        key_of_constitution (recent_constitution a) TONGUE_DATABASE in
      let most_common_key :=
        key_of_constitution (most_common_constitution a) TONGUE_DATABASE in
      let advice :=
        u "🎯 【個人化中醫養生方案】" ++ nl ++ u "━━━━━━━━━━━━━━━━━━━━━━━━━━━━" ++ nl ++
        u "基於您 " ++ str_of_int (total_records a) ++ u " 次舌診記錄的分析結果：" ++
        nl ++ nl ++
        u "🔸 目前主要體質：" ++ recent_constitution a ++ nl ++
        u "🔸 長期體質傾向：" ++ most_common_constitution a ++ nl ++ nl ++
        u "💫 【體質調理重點】" ++ nl in
      match main_direction most_common_key with
      | Raise x => Raise x
      | Ok direction =>
          match change_notice a recent_constitution_key with
          | Raise x => Raise x
          | Ok notice => Ok (advice ++ direction ++ notice ++ advice_footer)
          end
      end
  end.


(** What a tool of the session may raise: an error of the store, or the
    division by zero of the trend report. *)
Inductive tool_exn :=
  | StoreError (x : exn)
  | ZeroDivisionError.

Inductive tool_result (A : Type) :=
  | Returned (a : A)
  | Raised (x : tool_exn).
Arguments Returned {A} a.
Arguments Raised {A} x.

Definition of_result {A} (r : result A) : tool_result A :=
  match r with
  | Ok a => Returned a
  | Raise x => Raised (StoreError x)
  end.

Section Trends.

(** [f"{(count / total) * 100:.1f}"] for [total <> 0]. *)
Variable format_percentage : Z -> Z -> str.

(** The loop over [analysis["constitution_frequency"].items()]. *)
Fixpoint distribution_lines (a : analysis) (items : list (str * Z))
  : tool_result str :=
  match items with
  | [] => Returned []
  | (constitution, count) :: items' =>
      if total_records a =? 0 then Raised ZeroDivisionError
      else
        match distribution_lines a items' with
        | Raised x => Raised x
        | Returned more =>
            Returned ((u "• " ++ constitution ++ u ": " ++ str_of_int count ++ u "次 (" ++ format_percentage count (total_records a) ++ u "%)" ++ nl) ++ more)
        end
  end.

Definition get_user_health_trends (users : users_t) (current_user_id : str)
  : tool_result str :=
  match UserHealthManager.get_constitution_analysis users current_user_id with
  | Raise x => Raised (StoreError x)
  | Ok (AnalysisError msg) => Returned msg
  | Ok (AnalysisMessage msg) => Returned msg
  | Ok (AnalysisOf a) =>
      let trend_report :=
        u "📈 【個人健康趨勢分析】" ++ nl ++ u "━━━━━━━━━━━━━━━━━━━━" ++ nl ++
        u "🎯 當前體質: " ++ recent_constitution a ++ nl ++
        u "🏆 主要體質: " ++ most_common_constitution a ++ nl ++
        u "📊 總記錄數: " ++ str_of_int (total_records a) ++ u " 次" ++ nl ++ nl ++
        u "📋 【體質分布統計】" ++ nl in
      match distribution_lines a (constitution_frequency a) with
      | Raised x => Raised x
      | Returned distribution =>
          Returned (trend_report ++ distribution ++
                    nl ++ u "🔄 【近期變化】" ++ nl ++ u "最近" ++
                    decimal (length (recent_trend a)) ++ u "次記錄: " ++
                    PyStr.join (u " → ") (recent_trend a))
      end
  end.

End Trends.


Definition TCM_SYSTEM_PROMPT : str :=
  nl ++ u "你是一位專業的中醫舌診智能助手，具備以下專業知識和特點：" ++ nl ++ nl ++ u "🏥 【專業背景】" ++
  nl ++ u "- 精通中醫舌診理論，熟悉《中醫診斷學》舌診篇章" ++ nl ++ u "- 了解舌質、舌苔、舌態的診斷意義" ++ nl ++
  u "- 掌握舌象與體質、病證的對應關係" ++ nl ++ u "- 具備豐富的中醫食療和養生調理知識" ++ nl ++ nl ++
  u "🎯 【服務宗旨】" ++ nl ++ u "- 提供專業、準確的舌象分析和體質評估" ++ nl ++
  u "- 給出個性化的中醫養生建議和食療方案" ++ nl ++ u "- 追蹤用戶健康變化，提供趨勢分析" ++ nl ++
  u "- 結合現代生活環境（天氣、季節）給出調理建議" ++ nl ++ nl ++ u "📝 【回應原則】" ++ nl ++
  u "- 所有回應必須使用繁體中文" ++ nl ++ u "- 語言親切專業，避免過於艱深的醫學術語" ++ nl ++
  u "- 提供具體可行的建議，避免空泛的建議" ++ nl ++ u "- 強調中醫養生重在調理，非急症治療" ++ nl ++
  u "- 適時提醒用戶如有嚴重症狀應就醫" ++ nl ++ nl ++ u "⚠️【重要聲明】" ++ nl ++
  u "- 舌診分析僅供參考，不可替代專業醫療診斷" ++ nl ++ u "- 嚴重或持續的健康問題應諮詢專業中醫師" ++ nl ++
  u "- 體質調理需要時間，建議長期堅持" ++ nl ++ nl ++ u "🌿 【中醫理念】" ++ nl ++
  u "- 重視「治未病」的預防醫學理念" ++ nl ++ u "- 強調「辨證論治」的個體化調理" ++ nl ++
  u "- 注重「天人合一」的整體觀念" ++ nl ++ u "- 提倡「藥食同源」的養生方法" ++ nl ++ nl ++
  u "請以溫和、專業、關懷的語調與用戶互動，並始終使用繁體中文回應。" ++ nl ++ nl ++
  u "⚠️ 當用戶輸入任何舌象描述（如「舌頭有紅點」、「舌苔黃厚」等），請務必呼叫舌象分析工具（enhanced_tongue_analysis），不要自行生成分析內容。" ++
  nl.

(** The messages of the conversation. *)
Inductive chat_message :=
  | SystemMessage (content : str)
  | HumanMessage (content : str)
  | AIMessage (content : str).

(** [s.replace(old, "")] for a non-empty [old]: every occurrence of [old],
    found from the left without overlap, is removed; [skip] characters of
    an occurrence are still to be dropped. *)
Fixpoint remove_all_go (old : str) (skip : nat) (s : str) : str :=
  match s with
  | [] => []
  | c :: s' =>
      match skip with
      | S k => remove_all_go old k s'
      | O =>
          if PyStr.startswith old s
          then remove_all_go old (length old - 1) s'
          else c :: remove_all_go old 0 s'
      end
  end.

Definition remove_all (old s : str) : str := remove_all_go old 0 s.

(** The two appends to [chat_history] and the cut to its last ten
    messages. *)
Definition remember (chat_history : list chat_message)
    (user_input final_answer : str) : list chat_message :=
  let chat_history :=
    chat_history ++ [HumanMessage user_input; AIMessage final_answer] in
  if (10 <? length chat_history)%nat
  then UserHealthManager.slice_last 10 chat_history
  else chat_history.

(** What the agent gives back: the content of its last message, or the
    text of the exception it raised. *)
Inductive agent_outcome :=
  | FinalAnswer (content : str)
  | AgentError (text : str).

(** One pass of the loop of [main]: the program leaves the loop, stays in
    it with what it printed, the store and the conversation, or stops on
    an exception that no handler catches. *)
Inductive turn_outcome :=
  | Leave (printed : list str)
  | Stay (printed : list str) (users : users_t)
         (chat_history : list chat_message)
  | Crash (x : tool_exn) (users : users_t).

(** [print(f"🤖 AI中醫師: {final_answer}\n")] *)
Definition answer_line (final_answer : str) : str :=
  u "🤖 AI中醫師: " ++ final_answer ++ nl.

Section Main.

(** [str.lower] *)
Variable lower : str -> str.
Variable format_date : str -> str.
Variable format_percentage : Z -> Z -> str.
Variable OPENWEATHER_API_KEY : option str.
Variable get_weather_cached : str -> weather_json.
Variable format_number : Q -> str.

(** [agent_executor.invoke] on the messages: the agent may call the tools,
    so it works on the store. *)
Variable agent_executor :
  list chat_message -> users_t -> agent_outcome * users_t.

(** The common end of the branches that call a tool directly. *)
Definition answered (r : tool_result str) (users : users_t)
    (chat_history : list chat_message) (user_input : str) : turn_outcome :=
  match r with
  | Raised x => Crash x users
  | Returned final_answer =>
      Stay [answer_line final_answer] users
        (remember chat_history user_input final_answer)
  end.

(** The body of [while True:], on the line [raw] read by [input]. *)
Definition main_turn (current_user_id : str) (e : entropy) (raw : str)
    (users : users_t) (chat_history : list chat_message) : turn_outcome :=
  let user_input := PyStr.strip raw in
  if existsb (PyStr.eqb (lower user_input)) [u "q"; u "quit"] then
    Leave [u "👋 感謝使用中醫舌象分析系統，祝您身體健康！"]
  else if negb (nonempty user_input) then Stay [] users chat_history
  else if PyStr.eqb user_input (u "健康趨勢") then
    answered (get_user_health_trends format_percentage users current_user_id)
      users chat_history user_input
  else if PyStr.eqb user_input (u "歷史記錄") then
    answered
      (Returned (get_user_history_formatted format_date users current_user_id))
      users chat_history user_input
  else if PyStr.eqb user_input (u "個性化建議") then
    answered (of_result (get_personalized_advice users current_user_id))
      users chat_history user_input
  else if PyStr.startswith (u "天氣") user_input then
    let city := PyStr.strip (remove_all (u "天氣") user_input) in
    if negb (nonempty city) then
      Stay [u "請輸入城市名稱，例如：天氣 台北" ++ nl] users chat_history
    else
      answered
        (of_result
           (weather_constitution_advice OPENWEATHER_API_KEY
              get_weather_cached format_number users current_user_id city))
        users chat_history user_input
  else if existsb (fun t => PyStr.startswith t user_input)
            (Dict.keys TONGUE_DATABASE) then
    match enhanced_tongue_analysis current_user_id e user_input users with
    | (Raise x, users') => Crash (StoreError x) users'
    | (Ok final_answer, users') =>
        Stay [answer_line final_answer] users'
          (remember chat_history user_input final_answer)
    end
  else
    match
      agent_executor
        ([SystemMessage TCM_SYSTEM_PROMPT] ++ chat_history ++
         [HumanMessage user_input]) users
    with
    | (FinalAnswer final_answer, users') =>
        Stay [answer_line final_answer] users'
          (remember chat_history user_input final_answer)
    | (AgentError text, users') =>
        Stay [u "❌ 系統發生錯誤: " ++ text] users' chat_history
    end.

End Main.

(** The start of [main], on the line [raw] read for the user id, at time
    [now]: the current user id, the store and the greeting printed. *)
Definition start_session (raw now : str) (users : users_t)
  : str * users_t * str :=
  let user_id_input := PyStr.strip raw in
  let current_user_id :=
    if nonempty user_id_input then user_id_input else u "default_user" in
  match UserHealthManager.create_user current_user_id [] 0 [] now users with
  | (Ok true, users') =>
      (current_user_id, users', u "歡迎新用戶 " ++ current_user_id ++ u "！")
  | (_, users') =>
      (current_user_id, users', u "歡迎回來，" ++ current_user_id ++ u "！")
  end.
(** * Vocabulary of the properties *)

(** [sub] occurs in [s] as a contiguous run of characters. *)
Definition occurs_in (sub s : str) : Prop :=
  exists pre post : str, s = pre ++ sub ++ post.

(** The document [create_user] stores for a user it creates with default
    arguments at time [now]. *)
Definition fresh_doc (now : str) : user_doc :=
  {| name := []; age := 0; gender := []; created_at := now;
     tongue_records := []; constitution_trends := []; preferences := [] |}.

(** The record one call of [add_tongue_record] builds. *)
Definition record_of (tongue_type constitution : str) (symptoms : list str)
    (e : entropy) : tongue_record :=
  {| record_id := uuid4 e;
     date := now_date e;
     tongue_type := tongue_type;
     constitution := constitution;
     symptoms := symptoms;
     weather_info := u "記錄時間: " ++ now_minute e |}.

(** The count a frequency map holds for a label, 0 when it has none. *)
Definition count_of (c : str) (trends : list (str * Z)) : Z :=
  match Dict.get c trends with Some n => n | None => 0 end.

(** The sum of the counts of a frequency map. *)
Definition sum_counts (trends : list (str * Z)) : Z :=
  foldr (fun kv acc => snd kv + acc) 0 trends.

(** A user's records and frequency map in a store, empty for an id the
    store does not hold. *)
Definition records_in (s : users_t) (user_id : str) : list tongue_record :=
  match s !! user_id with Some d => tongue_records d | None => [] end.

Definition trends_in (s : users_t) (user_id : str) : list (str * Z) :=
  match s !! user_id with Some d => constitution_trends d | None => [] end.

(** One mutating call of the store, and the stores that calls can build
    from the empty one. *)
Inductive step (s : users_t) : users_t -> Prop :=
  | step_create_user (user_id nm : str) (ag : Z) (gd now : str) :
      step s (snd (UserHealthManager.create_user user_id nm ag gd now s))
  | step_add_tongue_record (user_id tt c : str) (sy : list str) (e : entropy) :
      step s (snd (UserHealthManager.add_tongue_record user_id tt c sy e s)).

Inductive reachable : users_t -> Prop :=
  | reachable_empty : reachable ∅
  | reachable_step (s s' : users_t) : reachable s -> step s s' -> reachable s'.

(** The frequency map of a document counts its records: every count is
    positive and the counts add up to the number of records. *)
Definition doc_ok (d : user_doc) : Prop :=
  List.Forall (fun kv => 1 <= snd kv) (constitution_trends d) /\
  sum_counts (constitution_trends d) = Z.of_nat (length (tongue_records d)).

Definition store_ok (s : users_t) : Prop :=
  forall user_id d, s !! user_id = Some d -> doc_ok d.

(** [k], with count [c], is the first key of [trends] that carries the
    largest count: earlier keys have smaller counts, later keys have no
    larger ones. *)
Definition first_maximum (k : str) (c : Z) (trends : list (str * Z)) : Prop :=
  exists before after,
    trends = before ++ (k, c) :: after /\
    List.Forall (fun kv => snd kv < c) before /\
    List.Forall (fun kv => snd kv <= c) after.

(** One call [add_tongue_record(user, type, constitution, symptoms)] with
    what it draws from outside, the record it builds, and a sequence of
    such calls run in order. *)
Record append_call := {
  call_user : str;
  call_type : str;
  call_constitution : str;
  call_symptoms : list str;
  call_entropy : entropy
}.

Definition call_record (c : append_call) : tongue_record :=
  record_of (call_type c) (call_constitution c) (call_symptoms c)
    (call_entropy c).

Definition run_call (s : users_t) (c : append_call) : users_t :=
  snd (UserHealthManager.add_tongue_record (call_user c) (call_type c)
         (call_constitution c) (call_symptoms c) (call_entropy c) s).

Definition run_calls (calls : list append_call) (s : users_t) : users_t :=
  fold_left run_call calls s.

(** The records built by the calls made for one user, in call order. *)
Definition records_of_calls (user_id : str) (calls : list append_call)
  : list tongue_record :=
  List.map call_record
    (List.filter (fun c => PyStr.eqb (call_user c) user_id) calls).

(** [a] is dated no earlier than [b]; [a] is dated strictly before [b]. *)
Definition not_older (a b : tongue_record) : Prop :=
  PyStr.ltb (date a) (date b) = false.

Definition dated_before (a b : tongue_record) : Prop :=
  PyStr.ltb (date a) (date b) = true.

(** What one sample call draws from outside. *)
Definition sample_entropy : entropy :=
  {| now_created := u "2024-05-01T09:00:00.000100";
     now_date := u "2024-05-01T09:00:00.000200";
     now_minute := u "2024-05-01 09:00";
     uuid4 := u "6f1c2a34-0000-4000-8000-000000000001" |}.

(** Two calls for the same user, of different constitutions, and the store
    they build from the empty one. *)
Definition sample_call_one : append_call :=
  {| call_user := u "u1"; call_type := u "舌苔黃厚";
     call_constitution := u "濕熱體質"; call_symptoms := [u "口苦"];
     call_entropy := sample_entropy |}.

Definition sample_call_two : append_call :=
  {| call_user := u "u1"; call_type := u "舌苔白厚";
     call_constitution := u "寒濕體質"; call_symptoms := [];
     call_entropy :=
       {| now_created := u "2024-05-02T09:00:00.000100";
          now_date := u "2024-05-02T09:00:00.000200";
          now_minute := u "2024-05-02 09:00";
          uuid4 := u "6f1c2a34-0000-4000-8000-000000000002" |} |}.

Definition sample_calls : list append_call :=
  [sample_call_one; sample_call_two].

Definition sample_store : users_t := run_calls sample_calls ∅.



(** The line that lists one key in the texts of the miss paths. *)
Definition bullet (t : str) : str := u "• " ++ t.

(** What the tongue-analysis tool requires of a description for the path
    that records: no separator, nothing to strip, and not empty. *)
Definition plain_key (k : str) : bool :=
  nonempty k && negb (PyStr.contains (u "|") k) &&
  PyStr.eqb (PyStr.strip k) k.

(** The store after the first sample call alone, an answer of the weather
    service, and a rendering of numbers by their integer part. *)
Definition sample_store_one : users_t :=
  run_calls [sample_call_one] ∅.

Definition sample_doc_one : user_doc :=
  {| name := []; age := 0; gender := [];
     created_at := u "2024-05-01T09:00:00.000100";
     tongue_records := [] ++ [call_record sample_call_one];
     constitution_trends := [(u "濕熱體質", 1)];
     preferences := [] |}.

Definition sample_weather : weather_json :=
  {| cod := Some 200; message := None;
     main_humidity := 80 # 1; main_temp := 32 # 1;
     weather_description := u "多雲" |}.

Definition sample_format_number (q : Q) : str :=
  decimal (Z.to_nat (Qnum q / Z.pos (Qden q))).

(** ** Vocabulary of the further properties *)

(** A document with one more record: the record goes last and the counter
    of its constitution rises by one. *)
Definition with_record (d : user_doc) (r : tongue_record) : user_doc :=
  {| name := name d; age := age d; gender := gender d;
     created_at := created_at d;
     tongue_records := tongue_records d ++ [r];
     constitution_trends :=
       Dict.set (constitution r)
         (count_of (constitution r) (constitution_trends d) + 1)
         (constitution_trends d);
     preferences := preferences d |}.

(** A user's document in a store, the default one stamped [now] for an id
    the store does not hold. *)
Definition doc_or_fresh (s : users_t) (user_id now : str) : user_doc :=
  match s !! user_id with Some d => d | None => fresh_doc now end.

(** How many records carry a constitution. *)
Definition records_with (c : str) (records : list tongue_record) : nat :=
  length (List.filter (fun r => PyStr.eqb (constitution r) c) records).

(** A document of the later store continues a document of the earlier
    one: same identity fields, and the earlier records are the first of
    the later ones. *)
Definition continues (d d' : user_doc) : Prop :=
  name d' = name d /\ age d' = age d /\ gender d' = gender d /\
  created_at d' = created_at d /\ preferences d' = preferences d /\
  exists added, tongue_records d' = tongue_records d ++ added.

(** The effective length of the slice [l[:limit]] of a list of [n]
    items. *)
Definition slice_length (limit : Z) (n : nat) : nat :=
  if limit <? 0 then Z.to_nat (Z.of_nat n + limit)
  else Nat.min (Z.to_nat limit) n.

(** A string of whitespace only. *)
Definition blank (s : str) : Prop := forallb PyStr.isspace s = true.

(** The symptoms the tool reads from the parts that follow the first
    separator: those of the second part, split at commas and stripped;
    none when there is no second part or it is empty. *)
Definition parsed_symptoms (rest : list str) : list str :=
  match rest with
  | part1 :: _ =>
      if nonempty part1 then List.map PyStr.strip (PyStr.split 44 part1)
      else []
  | [] => []
  end.

(** The inputs the first guard of the tool refuses. *)
Definition refused_at_once (input : str) : Prop :=
  input = [] \/ (~ In 124%N input /\ Dict.get input TONGUE_DATABASE = None).

(** The store after the tool recorded an observation for a user. *)
Definition recorded (s : users_t) (user_id : str) (e : entropy)
    (k : str) (p : profile) (sy : list str) : users_t :=
  <[user_id := with_record (doc_or_fresh s user_id (now_created e))
                 (record_of k (info_constitution p) sy e)]> s.

(** One call of a session that may change the store: [create_user] or the
    tongue-analysis tool, each for any user and any input. *)
Inductive session_step (s : users_t) : users_t -> Prop :=
  | session_create_user (user_id nm : str) (ag : Z) (gd now : str) :
      session_step s
        (snd (UserHealthManager.create_user user_id nm ag gd now s))
  | session_analysis (current_user_id : str) (e : entropy) (input : str) :
      session_step s
        (snd (enhanced_tongue_analysis current_user_id e input s)).

(** A record whose type is a key of the table and whose constitution is
    the one the table gives for that key. *)
Definition from_table (r : tongue_record) : Prop :=
  exists p,
    In (tongue_type r, p) TONGUE_DATABASE /\
    constitution r = info_constitution p.

(** The text the advice tool returns to a user it has no analysis for. *)
Definition advice_needs_analysis : str :=
  u "請先進行至少一次舌象分析，以便為您提供個性化的中醫養生建議。".

(** The messages handed to the agent for an input. *)
Definition agent_messages (chat_history : list chat_message)
    (user_input : str) : list chat_message :=
  [SystemMessage TCM_SYSTEM_PROMPT] ++ chat_history ++
  [HumanMessage user_input].











(** The lines on which the loop ends. *)
Definition asks_to_leave (lower : str -> str) (user_input : str) : bool :=
  existsb (PyStr.eqb (lower user_input)) [u "q"; u "quit"].

(** The lines the loop answers by reading the store: the empty line, the
    three report commands and the weather command. *)
Definition reads_only (user_input : str) : bool :=
  negb (nonempty user_input) ||
  PyStr.eqb user_input (u "健康趨勢") ||
  PyStr.eqb user_input (u "歷史記錄") ||
  PyStr.eqb user_input (u "個性化建議") ||
  PyStr.startswith (u "天氣") user_input.

(** The lines that start with a key of the table. *)
Definition key_prefixed (user_input : str) : bool :=
  existsb (fun t => PyStr.startswith t user_input)
    (Dict.keys TONGUE_DATABASE).
(** * Properties *)

(** ** Strings *)

Example u_ascii : u "a|b" = [97; 124; 98]%N.
Proof. reflexivity. Qed.

Example u_cjk : u "口乾" = [21475; 20094]%N.
Proof. reflexivity. Qed.

Lemma eqb_true (a b : str) : PyStr.eqb a b = true <-> a = b.
Proof. unfold PyStr.eqb. apply bool_decide_eq_true. Qed.

Lemma eqb_false (a b : str) : PyStr.eqb a b = false <-> a <> b.
Proof. unfold PyStr.eqb. apply bool_decide_eq_false. Qed.

Lemma eqb_refl (a : str) : PyStr.eqb a a = true.
Proof. now apply eqb_true. Qed.

Lemma startswith_spec (p s : str) :
  PyStr.startswith p s = true <-> exists post, s = p ++ post.
Proof.
  revert s. induction p as [|a p IH]; intros s; simpl.
  - split; [intros _; now exists s | reflexivity].
  - destruct s as [|b s].
    + split; [discriminate | intros [post H]; discriminate].
    + rewrite andb_true_iff, N.eqb_eq, IH. split.
      * intros [-> [post ->]]. now exists post.
      * intros [post H]. injection H as -> ->. split; [reflexivity | now exists post].
Qed.

Lemma contains_spec (sub s : str) :
  PyStr.contains sub s = true <-> occurs_in sub s.
Proof.
  unfold occurs_in. induction s as [|c s IH]; simpl.
  - rewrite orb_false_r, startswith_spec. split.
    + intros [post H]. exists [], post. exact H.
    + intros [pre [post H]]. destruct pre; simpl in H.
      * now exists post.
      * discriminate.
  - rewrite orb_true_iff, startswith_spec, IH. split.
    + intros [[post H] | [pre [post H]]].
      * exists [], post. exact H.
      * exists (c :: pre), post. simpl. now rewrite H.
    + intros [pre [post H]]. destruct pre as [|c' pre]; simpl in H.
      * left. now exists post.
      * right. injection H as _ H. now exists pre, post.
Qed.

Lemma contains_char (c : N) (s : str) :
  PyStr.contains [c] s = true <-> In c s.
Proof.
  induction s as [|a s IH]; simpl.
  - split; [discriminate | tauto].
  - rewrite orb_true_iff, IH, andb_true_r, N.eqb_eq. intuition congruence.
Qed.

Lemma split_nonempty (sep : N) (s : str) : PyStr.split sep s <> [].
Proof.
  destruct s as [|c s]; simpl; [discriminate|].
  destruct (c =? sep)%N; [discriminate|].
  destruct (PyStr.split sep s); discriminate.
Qed.

Lemma split_without_sep (sep : N) (s : str) :
  ~ In sep s -> PyStr.split sep s = [s].
Proof.
  induction s as [|c s IH]; simpl; intros H; [reflexivity|].
  destruct (N.eqb_spec c sep) as [->|Hne]; [tauto|].
  rewrite IH by tauto. reflexivity.
Qed.

(** ** Dictionaries *)

Section DictFacts.
Context {V : Type}.
Implicit Types (d : list (str * V)) (k : str) (v : V).

Lemma get_In k v d : Dict.get k d = Some v -> In (k, v) d.
Proof.
  induction d as [|[k' v'] d IH]; simpl; [discriminate|].
  destruct (PyStr.eqb k' k) eqn:E.
  - apply eqb_true in E. intros [= ->]. left. now subst.
  - intros H. right. now apply IH.
Qed.

Lemma get_None_keys k d : Dict.get k d = None <-> ~ In k (Dict.keys d).
Proof.
  induction d as [|[k' v'] d IH]; simpl; [tauto|].
  destruct (PyStr.eqb k' k) eqn:E.
  - apply eqb_true in E. split; [discriminate | tauto].
  - apply eqb_false in E. rewrite IH. tauto.
Qed.

Lemma In_keys_get k d : In k (Dict.keys d) <-> exists v, Dict.get k d = Some v.
Proof.
  destruct (Dict.get k d) as [v|] eqn:E.
  - split; [intros _; now exists v|]. intros _.
    apply get_In in E. unfold Dict.keys. apply in_map_iff. now exists (k, v).
  - apply get_None_keys in E. split; [tauto | intros [v H]; discriminate].
Qed.

Lemma get_set_same k v d : Dict.get k (Dict.set k v d) = Some v.
Proof.
  induction d as [|[k' v'] d IH]; simpl.
  - now rewrite eqb_refl.
  - destruct (PyStr.eqb k' k) eqn:E; simpl; rewrite E; [reflexivity | exact IH].
Qed.

Lemma get_set_other k k' v d :
  k' <> k -> Dict.get k' (Dict.set k v d) = Dict.get k' d.
Proof.
  intros Hne. induction d as [|[k0 v0] d IH]; simpl.
  - apply not_eq_sym, eqb_false in Hne. now rewrite Hne.
  - destruct (PyStr.eqb k0 k) eqn:E; simpl.
    + apply eqb_true in E. subst k0.
      apply not_eq_sym, eqb_false in Hne. now rewrite Hne.
    + destruct (PyStr.eqb k0 k'); [reflexivity | exact IH].
Qed.
End DictFacts.

(** ** The store operations, run *)

Arguments PyStr.u : simpl never.

Ltac run_M :=
  cbv beta iota delta
    [bind ret raise get_users put_users user_at
     UserHealthManager.save_data].

Lemma create_user_new (user_id nm : str) (ag : Z) (gd now : str) (s : users_t) :
  s !! user_id = None ->
  UserHealthManager.create_user user_id nm ag gd now s =
  (Ok true,
   <[user_id := {| name := nm; age := ag; gender := gd; created_at := now;
                   tongue_records := []; constitution_trends := [];
                   preferences := [] |}]> s).
Proof.
  intros H. unfold UserHealthManager.create_user. run_M.
  rewrite bool_decide_eq_true_2 by exact H. reflexivity.
Qed.

Lemma create_user_existing (user_id nm : str) (ag : Z) (gd now : str)
    (s : users_t) (d : user_doc) :
  s !! user_id = Some d ->
  UserHealthManager.create_user user_id nm ag gd now s = (Ok false, s).
Proof.
  intros H. unfold UserHealthManager.create_user. run_M.
  rewrite bool_decide_eq_false_2 by (rewrite H; discriminate). reflexivity.
Qed.

(** One call of [add_tongue_record] returns the fresh identifier and
    replaces the user's document, created first when absent, by one with
    the record appended and the counter of its constitution raised. *)
Lemma add_tongue_record_run (user_id tt c : str) (sy : list str)
    (e : entropy) (s : users_t) :
  exists d',
    UserHealthManager.add_tongue_record user_id tt c sy e s =
      (Ok (uuid4 e), <[user_id := d']> s) /\
    tongue_records d' = records_in s user_id ++ [record_of tt c sy e] /\
    constitution_trends d' =
      Dict.set c (count_of c (trends_in s user_id) + 1) (trends_in s user_id) /\
    created_at d' =
      match s !! user_id with
      | Some d => created_at d
      | None => now_created e
      end.
Proof.
  unfold records_in, trends_in, count_of.
  unfold UserHealthManager.add_tongue_record,
    UserHealthManager.update_constitution_trends,
    UserHealthManager.create_user.
  run_M. destruct (s !! user_id) as [d|] eqn:E.
  - rewrite bool_decide_eq_false_2 by discriminate. run_M.
    rewrite E. run_M. rewrite lookup_insert_eq. run_M.
    rewrite insert_insert_eq. eexists. split; [reflexivity|].
    simpl. auto.
  - rewrite bool_decide_eq_true_2 by reflexivity. run_M.
    rewrite bool_decide_eq_true_2 by exact E. run_M.
    rewrite lookup_insert_eq. run_M. rewrite lookup_insert_eq. run_M.
    rewrite !insert_insert_eq. eexists. split; [reflexivity|].
    simpl. auto.
Qed.

Lemma last_item_snoc {A} (init : list A) (x : A) :
  UserHealthManager.last_item (init ++ [x]) = Ok x.
Proof. unfold UserHealthManager.last_item. now rewrite rev_unit. Qed.

Lemma nonempty_snoc {A} (l : list A) :
  l <> [] -> exists init x, l = init ++ [x].
Proof.
  intros H. destruct (exists_last H) as [init [x ->]]. now exists init, x.
Qed.

(** The analysis of a user who has records, whatever the frequency map. *)
Lemma get_constitution_analysis_records (s : users_t) (user_id : str)
    (d : user_doc) (init : list tongue_record) (x : tongue_record) :
  s !! user_id = Some d ->
  tongue_records d = init ++ [x] ->
  UserHealthManager.get_constitution_analysis s user_id =
  Ok (AnalysisOf
        {| recent_constitution := constitution x;
           most_common_constitution :=
             fst (match constitution_trends d with
                  | [] => (u "未知", 0)
                  | item :: items => UserHealthManager.max_from snd item items
                  end);
           constitution_frequency := constitution_trends d;
           recent_trend :=
             List.map constitution
               (UserHealthManager.slice_last 5 (tongue_records d));
           total_records := Z.of_nat (length (tongue_records d)) |}).
Proof.
  intros Hd Hr. unfold UserHealthManager.get_constitution_analysis.
  rewrite Hd.
  destruct (tongue_records d) as [|r rs] eqn:E.
  { destruct init; discriminate. }
  rewrite Hr, last_item_snoc.
  destruct (constitution_trends d); reflexivity.
Qed.

Lemma get_constitution_analysis_nonempty (s : users_t) (user_id : str)
    (d : user_doc) :
  s !! user_id = Some d -> tongue_records d <> [] ->
  exists a,
    UserHealthManager.get_constitution_analysis s user_id =
      Ok (AnalysisOf a) /\
    total_records a = Z.of_nat (length (tongue_records d)) /\
    constitution_frequency a = constitution_trends d /\
    Some (recent_constitution a) =
    option_map constitution (last (tongue_records d)).
Proof.
  intros Hd Hne. destruct (nonempty_snoc _ Hne) as [init [x Hx]].
  eexists. split; [exact (get_constitution_analysis_records _ _ _ _ _ Hd Hx)|].
  simpl. repeat split. rewrite Hx, last_snoc. reflexivity.
Qed.

(** ** Symptom reconciliation *)

Lemma matches_profile_spec (tongue_info : profile) (s : str) :
  matches_profile tongue_info s = true <->
  exists expected,
    In expected (info_symptoms tongue_info) /\ occurs_in s expected.
Proof.
  unfold matches_profile. rewrite existsb_exists.
  split; intros [x [Hx H]]; exists x; (split; [exact Hx|]);
    now apply contains_spec.
Qed.

(** C1, as the code has it: a user symptom is listed under "matches
    profile" exactly when it occurs inside some symptom of the profile
    (the user's string within the profile's string), and under "needs
    observation" exactly when it occurs in none. For the profile of
    "舌頭有紅點", whose symptoms are 口乾, 煩躁 and 失眠, the user symptom
    "口乾舌燥" is unmatched and the user symptom "口" is matched. *)
Theorem C1_symptom_within_profile_symptom :
  (forall (symptoms : list str) (tongue_info : profile) (s : str),
      (In s (matched_symptoms symptoms tongue_info) <->
       In s symptoms /\
       exists expected,
         In expected (info_symptoms tongue_info) /\ occurs_in s expected) /\
      (In s (unmatched_symptoms symptoms tongue_info) <->
       In s symptoms /\
       ~ exists expected,
           In expected (info_symptoms tongue_info) /\ occurs_in s expected)) /\
  (forall tongue_info,
      Dict.get (u "舌頭有紅點") TONGUE_DATABASE = Some tongue_info ->
      matched_symptoms [u "口乾舌燥"; u "口"] tongue_info = [u "口"] /\
      unmatched_symptoms [u "口乾舌燥"; u "口"] tongue_info = [u "口乾舌燥"]).
Proof.
  split.
  - intros symptoms tongue_info s.
    unfold matched_symptoms, unmatched_symptoms.
    rewrite !filter_In, negb_true_iff, <- not_true_iff_false.
    rewrite matches_profile_spec. tauto.
  - intros tongue_info H. vm_compute in H. injection H as <-.
    split; reflexivity.
Qed.

Lemma C1_symptom_within_profile_symptom_witness :
  exists tongue_info,
    Dict.get (u "舌頭有紅點") TONGUE_DATABASE = Some tongue_info /\
    matched_symptoms [u "口乾舌燥"; u "口"] tongue_info = [u "口"] /\
    unmatched_symptoms [u "口乾舌燥"; u "口"] tongue_info = [u "口乾舌燥"].
Proof.
  eexists. split; [reflexivity|].
  apply (proj2 C1_symptom_within_profile_symptom). reflexivity.
Defined.

(** The direction claimed for C1 fails: "口乾" is a symptom of the profile
    of "舌頭有紅點" and occurs within the user symptom "口乾舌燥", yet the
    code does not classify "口乾舌燥" as matching that profile. *)
Lemma C1_profile_symptom_within_input_fails :
  exists tongue_info,
    Dict.get (u "舌頭有紅點") TONGUE_DATABASE = Some tongue_info /\
    ~ (matches_profile tongue_info (u "口乾舌燥") = true <->
       exists expected,
         In expected (info_symptoms tongue_info) /\
         occurs_in expected (u "口乾舌燥")) /\
    matched_symptoms [u "口乾舌燥"] tongue_info = [] /\
    unmatched_symptoms [u "口乾舌燥"] tongue_info = [u "口乾舌燥"].
Proof.
  eexists. split; [reflexivity|]. split; [|split; reflexivity].
  intros [_ H].
  assert (E : matches_profile
                {| info_constitution := u "內熱過盛";
                   info_symptoms := [u "口乾"; u "煩躁"; u "失眠"];
                   info_advice := u "清熱降火，避免辛辣食物";
                   info_remedies := [u "菊花茶"; u "蓮子心茶"; u "綠豆湯"];
                   info_taboos := [u "辛辣"; u "油炸"; u "燒烤"];
                   info_theory := u "舌起紅點多為心火上炎或胃熱熾盛之象" |}
                (u "口乾舌燥") = false) by reflexivity.
  rewrite E in H. enough (false = true) by discriminate. apply H.
  exists (u "口乾"). split; [left; reflexivity|].
  exists [], (u "舌燥"). reflexivity.
Qed.

(** ** Creating a user *)

(** C3: for an id the store does not hold, the first [create_user] returns
    [True] and stores a document stamped with the time of that call; a
    second [create_user] for the same id, whatever its other arguments and
    its time, returns [False] and leaves the whole store, hence the
    document and its [created_at], as it was. *)
Theorem C3_create_user_twice (s : users_t) (user_id n1 g1 t1 n2 g2 t2 : str)
    (a1 a2 : Z) :
  s !! user_id = None ->
  exists s1 d,
    UserHealthManager.create_user user_id n1 a1 g1 t1 s = (Ok true, s1) /\
    s1 !! user_id = Some d /\
    created_at d = t1 /\ name d = n1 /\ age d = a1 /\ gender d = g1 /\
    UserHealthManager.create_user user_id n2 a2 g2 t2 s1 = (Ok false, s1).
Proof.
  intros H. eexists. eexists.
  split; [apply create_user_new; exact H|].
  split; [apply lookup_insert_eq|].
  repeat (split; [reflexivity|]).
  eapply create_user_existing. apply lookup_insert_eq.
Qed.

Lemma C3_create_user_twice_witness :
  exists s1 d,
    UserHealthManager.create_user (u "u1") (u "Lin") 30 (u "F")
      (u "2024-05-01T09:00:00") ∅ = (Ok true, s1) /\
    s1 !! (u "u1") = Some d /\
    created_at d = u "2024-05-01T09:00:00" /\
    name d = u "Lin" /\ age d = 30 /\ gender d = u "F" /\
    UserHealthManager.create_user (u "u1") (u "Wu") 41 (u "M")
      (u "2024-06-01T09:00:00") s1 = (Ok false, s1).
Proof.
  apply (C3_create_user_twice ∅ (u "u1") (u "Lin") (u "F")
           (u "2024-05-01T09:00:00") (u "Wu") (u "M")
           (u "2024-06-01T09:00:00") 30 41).
  reflexivity.
Defined.

(** ** History after a sequence of appends *)

Lemma ltb_irrefl (a : str) : PyStr.ltb a a = false.
Proof.
  induction a as [|x a IH]; simpl; [reflexivity|].
  now rewrite N.ltb_irrefl, N.eqb_refl, IH.
Qed.

Lemma ltb_asym (a b : str) : PyStr.ltb a b = true -> PyStr.ltb b a = false.
Proof.
  revert b. induction a as [|x a IH]; intros [|y b]; simpl; try easy.
  destruct (N.ltb_spec x y), (N.eqb_spec x y), (N.ltb_spec y x),
    (N.eqb_spec y x); simpl; try lia; try easy.
  apply IH.
Qed.

Lemma ltb_false_trans (a b c : str) :
  PyStr.ltb a b = false -> PyStr.ltb b c = false -> PyStr.ltb a c = false.
Proof.
  revert b c. induction a as [|x a IH]; intros [|y b] [|z c]; simpl;
    try easy.
  destruct (N.ltb_spec x y), (N.eqb_spec x y), (N.ltb_spec y z),
    (N.eqb_spec y z), (N.ltb_spec x z), (N.eqb_spec x z);
    simpl; try lia; try easy.
  apply IH.
Qed.

Lemma insert_desc_perm (x : tongue_record) (l : list tongue_record) :
  Permutation (x :: l) (UserHealthManager.insert_desc x l).
Proof.
  induction l as [|y l IH]; simpl; [reflexivity|].
  destruct (PyStr.ltb (date x) (date y)); [|reflexivity].
  rewrite perm_swap. now apply perm_skip.
Qed.

Lemma sorted_by_date_desc_perm (l : list tongue_record) :
  Permutation l (UserHealthManager.sorted_by_date_desc l).
Proof.
  induction l as [|x l IH]; simpl; [reflexivity|].
  rewrite <- insert_desc_perm. now apply perm_skip.
Qed.

Lemma insert_desc_sorted (x : tongue_record) (l : list tongue_record) :
  StronglySorted not_older l ->
  StronglySorted not_older (UserHealthManager.insert_desc x l).
Proof.
  induction 1 as [|y l Hl IH Hy]; simpl.
  - repeat constructor.
  - destruct (PyStr.ltb (date x) (date y)) eqn:E.
    + constructor; [exact IH|].
      eapply Permutation_Forall; [apply insert_desc_perm|].
      constructor; [|exact Hy]. unfold not_older. now apply ltb_asym.
    + constructor; [now constructor|].
      constructor; [exact E|].
      eapply List.Forall_impl; [|exact Hy].
      intros z Hz. unfold not_older in *. eapply ltb_false_trans; eauto.
Qed.

Lemma sorted_by_date_desc_sorted (l : list tongue_record) :
  StronglySorted not_older (UserHealthManager.sorted_by_date_desc l).
Proof.
  induction l as [|x l IH]; simpl; [constructor|].
  now apply insert_desc_sorted.
Qed.

Lemma insert_desc_oldest (x : tongue_record) (l : list tongue_record) :
  List.Forall (dated_before x) l ->
  UserHealthManager.insert_desc x l = l ++ [x].
Proof.
  induction 1 as [|y l Hy _ IH]; simpl; [reflexivity|].
  unfold dated_before in Hy. now rewrite Hy, IH.
Qed.

(** When the dates strictly increase along the list, the sort reverses it. *)
Lemma sorted_by_date_desc_rev (l : list tongue_record) :
  StronglySorted dated_before l ->
  UserHealthManager.sorted_by_date_desc l = rev l.
Proof.
  induction 1 as [|x l _ IH Hx]; simpl; [reflexivity|].
  rewrite IH. apply insert_desc_oldest.
  eapply Permutation_Forall; [|exact Hx]. apply Permutation_rev.
Qed.

Lemma records_in_run_call (s : users_t) (c : append_call) (user_id : str) :
  records_in (run_call s c) user_id =
  records_in s user_id ++
  (if PyStr.eqb (call_user c) user_id then [call_record c] else []).
Proof.
  unfold run_call, call_record.
  destruct (add_tongue_record_run (call_user c) (call_type c)
              (call_constitution c) (call_symptoms c) (call_entropy c) s)
    as [d' [-> [Hr _]]]. simpl.
  unfold records_in at 1. rewrite lookup_insert.
  destruct (PyStr.eqb (call_user c) user_id) eqn:E.
  - apply eqb_true in E. subst user_id. rewrite decide_True by reflexivity.
    exact Hr.
  - apply eqb_false in E. rewrite decide_False by exact E.
    now rewrite app_nil_r.
Qed.

Lemma records_in_run_calls (calls : list append_call) (s : users_t)
    (user_id : str) :
  records_in (run_calls calls s) user_id =
  records_in s user_id ++ records_of_calls user_id calls.
Proof.
  unfold run_calls, records_of_calls.
  revert s. induction calls as [|c calls IH]; intros s; simpl.
  - now rewrite app_nil_r.
  - rewrite IH, records_in_run_call.
    destruct (PyStr.eqb (call_user c) user_id); simpl.
    + now rewrite <- app_assoc.
    + now rewrite app_nil_r.
Qed.

Lemma get_user_history_all (s : users_t) (user_id : str) :
  UserHealthManager.get_user_history s user_id
    (Z.of_nat (length (records_in s user_id))) =
  UserHealthManager.sorted_by_date_desc (records_in s user_id).
Proof.
  unfold UserHealthManager.get_user_history, records_in.
  destruct (s !! user_id) as [d|]; [|reflexivity].
  unfold UserHealthManager.slice_to.
  destruct (Z.ltb_spec (Z.of_nat (length (tongue_records d))) 0); [lia|].
  rewrite Nat2Z.id.
  rewrite (Permutation_length (sorted_by_date_desc_perm (tongue_records d))).
  apply firstn_all.
Qed.

Lemma records_in_empty (user_id : str) : records_in ∅ user_id = [].
Proof. unfold records_in. now rewrite lookup_empty. Qed.

Lemma reachable_run_calls (calls : list append_call) (s : users_t) :
  reachable s -> reachable (run_calls calls s).
Proof.
  unfold run_calls. revert s.
  induction calls as [|c calls IH]; intros s Hs; simpl; [exact Hs|].
  apply IH. eapply reachable_step; [exact Hs|].
  unfold run_call. constructor.
Qed.

(** C4, with the number of calls positive where the analysis is concerned:
    for a user without earlier records, after the calls of
    [add_tongue_record] made for that user (among calls for any users),
    the history asked with their number as limit holds exactly the records
    of those calls, newest date first, records of equal dates in the order
    they were appended; it is the reverse of the call order when the
    dates strictly increase. When there is at least one such call the
    analysis reports their number as total. *)
Theorem C4_history_after_appends (s : users_t) (user_id : str)
    (calls : list append_call) :
  records_in s user_id = [] ->
  let s' := run_calls calls s in
  let records := records_of_calls user_id calls in
  let history :=
    UserHealthManager.get_user_history s' user_id
      (Z.of_nat (length records)) in
  length history = length records /\
  Permutation records history /\
  StronglySorted not_older history /\
  history = UserHealthManager.sorted_by_date_desc records /\
  (StronglySorted dated_before records -> history = rev records) /\
  (records <> [] ->
   exists a,
     UserHealthManager.get_constitution_analysis s' user_id =
       Ok (AnalysisOf a) /\
     total_records a = Z.of_nat (length records)).
Proof.
  intros H0 s' records history.
  assert (Hr : records_in s' user_id = records).
  { subst s' records. now rewrite records_in_run_calls, H0. }
  assert (Hh : history = UserHealthManager.sorted_by_date_desc records).
  { subst history. rewrite <- Hr at 1. rewrite get_user_history_all.
    now rewrite Hr. }
  split; [rewrite Hh; symmetry; apply Permutation_length,
            sorted_by_date_desc_perm|].
  split; [rewrite Hh; apply sorted_by_date_desc_perm|].
  split; [rewrite Hh; apply sorted_by_date_desc_sorted|].
  split; [exact Hh|].
  split; [intros Hs; rewrite Hh; now apply sorted_by_date_desc_rev|].
  intros Hne. unfold records_in in Hr.
  destruct (s' !! user_id) as [d|] eqn:E; [|congruence].
  destruct (get_constitution_analysis_nonempty s' user_id d E)
    as [a [Ha [Ht _]]].
  { now rewrite Hr. }
  exists a. split; [exact Ha|]. now rewrite Ht, Hr.
Qed.

Lemma C4_history_after_appends_witness :
  let records := records_of_calls (u "u1") sample_calls in
  let history := UserHealthManager.get_user_history sample_store (u "u1") 2 in
  length history = 2%nat /\
  history = rev records /\
  exists a,
    UserHealthManager.get_constitution_analysis sample_store (u "u1") =
      Ok (AnalysisOf a) /\
    total_records a = 2.
Proof.
  destruct (C4_history_after_appends ∅ (u "u1") sample_calls
              (records_in_empty (u "u1")))
    as [Hlen [_ [_ [_ [Hrev Htotal]]]]].
  split; [exact Hlen|]. split.
  - apply Hrev. repeat constructor.
  - apply Htotal. discriminate.
Defined.

(** The claim of a total for every number of calls fails at zero calls: a
    user just created has an empty history, and the analysis returns the
    "no records" result, which carries no total. *)
Lemma C4_no_total_after_zero_appends :
  let s0 :=
    snd (UserHealthManager.create_user (u "u1") [] 0 []
           (u "2024-05-01T09:00:00") ∅) in
  let s' := run_calls [] s0 in
  records_of_calls (u "u1") [] = [] /\
  UserHealthManager.get_user_history s' (u "u1") 0 = [] /\
  UserHealthManager.get_constitution_analysis s' (u "u1") =
    Ok (AnalysisMessage (u "暫無記錄可供分析")) /\
  ~ exists a,
      UserHealthManager.get_constitution_analysis s' (u "u1") =
        Ok (AnalysisOf a) /\
      total_records a = 0.
Proof.
  repeat split. intros [a [H _]]. vm_compute in H. discriminate.
Qed.

(** ** The frequency map counts the records *)

Lemma sum_counts_set (c : str) (trends : list (str * Z)) :
  sum_counts (Dict.set c (count_of c trends + 1) trends) =
  sum_counts trends + 1.
Proof.
  unfold count_of. induction trends as [|[k n] trends IH]; simpl.
  - lia.
  - destruct (PyStr.eqb k c); simpl; lia.
Qed.

Lemma count_of_nonneg (c : str) (trends : list (str * Z)) :
  List.Forall (fun kv => 1 <= snd kv) trends -> 0 <= count_of c trends.
Proof.
  unfold count_of. induction 1 as [|[k n] trends Hn _ IH]; simpl.
  - lia.
  - destruct (PyStr.eqb k c); simpl in *; lia.
Qed.

Lemma positive_counts_set (c : str) (n : Z) (trends : list (str * Z)) :
  1 <= n ->
  List.Forall (fun kv => 1 <= snd kv) trends ->
  List.Forall (fun kv => 1 <= snd kv) (Dict.set c n trends).
Proof.
  intros Hn. induction 1 as [|[k m] trends Hm H IH]; simpl.
  - constructor; [exact Hn | constructor].
  - destruct (PyStr.eqb k c); constructor; auto.
Qed.

Lemma count_of_set_same (c : str) (n : Z) (trends : list (str * Z)) :
  count_of c (Dict.set c n trends) = n.
Proof. unfold count_of. now rewrite get_set_same. Qed.

Lemma count_of_set_other (c c' : str) (n : Z) (trends : list (str * Z)) :
  c' <> c -> count_of c' (Dict.set c n trends) = count_of c' trends.
Proof. intros H. unfold count_of. now rewrite get_set_other. Qed.

Lemma doc_ok_trends_in (s : users_t) (user_id : str) :
  store_ok s ->
  List.Forall (fun kv => 1 <= snd kv) (trends_in s user_id) /\
  sum_counts (trends_in s user_id) =
  Z.of_nat (length (records_in s user_id)).
Proof.
  intros Hs. unfold trends_in, records_in.
  destruct (s !! user_id) as [d|] eqn:E.
  - exact (Hs _ _ E).
  - split; [constructor | reflexivity].
Qed.

Lemma step_store_ok (s s' : users_t) : store_ok s -> step s s' -> store_ok s'.
Proof.
  intros Hs [user_id nm ag gd now | user_id tt c sy e].
  - destruct (s !! user_id) as [d|] eqn:E.
    + now rewrite (create_user_existing _ _ _ _ _ _ _ E).
    + rewrite (create_user_new _ _ _ _ _ _ E). simpl.
      intros k d. rewrite lookup_insert. case_decide.
      * intros [= <-]. split; [constructor | reflexivity].
      * apply Hs.
  - destruct (add_tongue_record_run user_id tt c sy e s)
      as [d' [-> [Hr [Ht _]]]]. simpl.
    destruct (doc_ok_trends_in s user_id Hs) as [Hpos Hsum].
    intros k d. rewrite lookup_insert. case_decide.
    + intros [= <-]. unfold doc_ok. rewrite Hr, Ht. split.
      * apply positive_counts_set; [|exact Hpos].
        pose proof (count_of_nonneg c _ Hpos). lia.
      * rewrite sum_counts_set, Hsum, length_app. simpl. lia.
    + apply Hs.
Qed.

Lemma reachable_store_ok (s : users_t) : reachable s -> store_ok s.
Proof.
  induction 1 as [|s s' _ IH Hstep].
  - intros k d H. rewrite lookup_empty in H. discriminate.
  - exact (step_store_ok _ _ IH Hstep).
Qed.

(** C5: in every store built by the operations, each user's frequency map
    sums to the number of that user's records; and one more
    [add_tongue_record] adds exactly one record for its user, raises the
    counter of its constitution by one, leaves every other counter of that
    user as it was, and keeps the sum equal to the number of records. *)
Theorem C5_frequency_sum_is_record_count (s : users_t) :
  reachable s ->
  (forall user_id d,
      s !! user_id = Some d ->
      sum_counts (constitution_trends d) =
      Z.of_nat (length (tongue_records d))) /\
  (forall user_id tt c sy e,
      let s' :=
        snd (UserHealthManager.add_tongue_record user_id tt c sy e s) in
      length (records_in s' user_id) = S (length (records_in s user_id)) /\
      count_of c (trends_in s' user_id) =
        count_of c (trends_in s user_id) + 1 /\
      (forall c', c' <> c ->
         count_of c' (trends_in s' user_id) =
         count_of c' (trends_in s user_id)) /\
      sum_counts (trends_in s' user_id) =
        Z.of_nat (length (records_in s' user_id))).
Proof.
  intros Hreach. pose proof (reachable_store_ok s Hreach) as Hs. split.
  - intros user_id d H. exact (proj2 (Hs _ _ H)).
  - intros user_id tt c sy e s'.
    assert (Hs' : store_ok s').
    { apply (step_store_ok s); [exact Hs | constructor]. }
    pose proof (proj2 (doc_ok_trends_in s' user_id Hs')) as Hsum'.
    subst s'.
    destruct (add_tongue_record_run user_id tt c sy e s)
      as [d' [Hrun [Hr [Ht _]]]].
    rewrite Hrun in *. simpl in *.
    assert (Er : records_in (<[user_id := d']> s) user_id = tongue_records d').
    { unfold records_in. now rewrite lookup_insert_eq. }
    assert (Et : trends_in (<[user_id := d']> s) user_id =
                 constitution_trends d').
    { unfold trends_in. now rewrite lookup_insert_eq. }
    rewrite Er, Et in *. split.
    { rewrite Hr, length_app. simpl. lia. }
    split; [rewrite Ht; apply count_of_set_same|].
    split; [intros c' Hc'; rewrite Ht; now apply count_of_set_other|].
    exact Hsum'.
Qed.

Lemma C5_frequency_sum_is_record_count_witness :
  let s1 :=
    snd (UserHealthManager.add_tongue_record (u "u1") (u "舌苔黃厚")
           (u "濕熱體質") []
           {| now_created := u "2024-05-01T09:00:00";
              now_date := u "2024-05-01T09:00:01";
              now_minute := u "2024-05-01 09:00";
              uuid4 := u "6f1c2a34-0000-4000-8000-000000000001" |} ∅) in
  length (records_in s1 (u "u1")) = 1%nat /\
  count_of (u "濕熱體質") (trends_in s1 (u "u1")) = 1 /\
  sum_counts (trends_in s1 (u "u1")) = 1.
Proof.
  destruct (C5_frequency_sum_is_record_count ∅ reachable_empty) as [_ H].
  specialize (H (u "u1") (u "舌苔黃厚") (u "濕熱體質") []
    {| now_created := u "2024-05-01T09:00:00";
       now_date := u "2024-05-01T09:00:01";
       now_minute := u "2024-05-01 09:00";
       uuid4 := u "6f1c2a34-0000-4000-8000-000000000001" |}).
  destruct H as [H1 [H2 [_ H4]]].
  split; [exact H1|]. split; [exact H2|]. rewrite H4. rewrite H1. reflexivity.
Defined.

(** ** The tongue-analysis tool *)

Lemma In_get {V} (k : str) (v : V) (d : list (str * V)) :
  NoDup (Dict.keys d) -> In (k, v) d -> Dict.get k d = Some v.
Proof.
  induction d as [|[k' v'] d IH]; simpl; [tauto|].
  intros Hnd [H|H].
  - injection H as -> ->. now rewrite eqb_refl.
  - inversion Hnd as [|? ? Hk Hd]; subst.
    destruct (PyStr.eqb k' k) eqn:E.
    + apply eqb_true in E. subst k'. exfalso. apply Hk.
      apply list_elem_of_In. unfold Dict.keys. apply in_map_iff.
      now exists (k, v).
    + now apply IH.
Qed.

Lemma TONGUE_DATABASE_keys_NoDup : NoDup (Dict.keys TONGUE_DATABASE).
Proof. apply (bool_decide_unpack _). vm_compute. exact I. Qed.

Lemma TONGUE_DATABASE_keys_plain (k : str) :
  In k (Dict.keys TONGUE_DATABASE) -> plain_key k = true.
Proof.
  revert k. apply forallb_forall. vm_compute. reflexivity.
Qed.

Lemma bar_is_124 : u "|" = [124%N].
Proof. reflexivity. Qed.

Lemma mem_get {V} (k : str) (d : list (str * V)) :
  Dict.mem k d = true <-> exists v, Dict.get k d = Some v.
Proof.
  unfold Dict.mem. destruct (Dict.get k d) as [v|].
  - split; [intros _; now exists v | reflexivity].
  - split; [discriminate | intros [v H]; discriminate].
Qed.

(** The tool on a key of the table: the guard passes, the key is its own
    first part, and the call records it. *)
Lemma enhanced_tongue_analysis_key (current_user_id : str) (e : entropy)
    (k : str) (p : profile) (s : users_t) :
  In (k, p) TONGUE_DATABASE ->
  enhanced_tongue_analysis current_user_id e k s =
  (let (r, s') :=
     UserHealthManager.add_tongue_record current_user_id k
       (info_constitution p) [] e s in
   match r with
   | Ok record_id =>
       (Ok (analysis_text record_id k p ++ closing_text), s')
   | Raise x => (Raise x, s')
   end).
Proof.
  intros Hin.
  pose proof (In_get _ _ _ TONGUE_DATABASE_keys_NoDup Hin) as Hget.
  assert (Hk : In k (Dict.keys TONGUE_DATABASE)).
  { apply In_keys_get. now exists p. }
  pose proof (TONGUE_DATABASE_keys_plain k Hk) as Hplain.
  unfold plain_key in Hplain.
  apply andb_true_iff in Hplain as [Hplain Hstrip].
  apply andb_true_iff in Hplain as [Hne Hbar].
  apply eqb_true in Hstrip. apply negb_true_iff in Hbar.
  unfold enhanced_tongue_analysis.
  assert (Hmem : Dict.mem k TONGUE_DATABASE = true).
  { apply mem_get. now exists p. }
  rewrite Hne, Hbar, Hmem. cbn [negb orb andb].
  rewrite split_without_sep.
  2:{ rewrite bar_is_124 in Hbar. rewrite <- contains_char. now rewrite Hbar. }
  rewrite Hstrip, Hget. unfold bind, ret.
  destruct (UserHealthManager.add_tongue_record current_user_id k
              (info_constitution p) [] e s) as [[rid|x] s']; reflexivity.
Qed.

(** The tool on an input that the first guard refuses. *)
Lemma enhanced_tongue_analysis_refused (current_user_id : str) (e : entropy)
    (input : str) (s : users_t) :
  input = [] \/
  (~ In 124%N input /\ Dict.get input TONGUE_DATABASE = None) ->
  enhanced_tongue_analysis current_user_id e input s =
  (Ok format_error_text, s).
Proof.
  unfold enhanced_tongue_analysis. intros [-> | [Hbar Hget]].
  - reflexivity.
  - rewrite bar_is_124.
    assert (E1 : PyStr.contains [124%N] input = false).
    { apply not_true_iff_false. now rewrite contains_char. }
    assert (E2 : Dict.mem input TONGUE_DATABASE = false).
    { unfold Dict.mem. now rewrite Hget. }
    rewrite E1, E2. simpl. now rewrite orb_true_r.
Qed.

(** The tool on an input whose first part, stripped, is not a key. *)
Lemma enhanced_tongue_analysis_unknown (current_user_id : str) (e : entropy)
    (input part0 : str) (rest : list str) (s : users_t) :
  PyStr.split 124 input = part0 :: rest ->
  Dict.get (PyStr.strip part0) TONGUE_DATABASE = None ->
  enhanced_tongue_analysis current_user_id e input s =
    (Ok format_error_text, s) \/
  enhanced_tongue_analysis current_user_id e input s =
    (Ok (unknown_type_text (PyStr.strip part0)), s).
Proof.
  intros Hsplit Hget. unfold enhanced_tongue_analysis.
  destruct (negb (nonempty input) ||
            negb (PyStr.contains (u "|") input) &&
            negb (Dict.mem input TONGUE_DATABASE)).
  - now left.
  - right. now rewrite Hsplit, Hget.
Qed.

Lemma listing_bullets :
  available_types_listing =
  PyStr.join nl (List.map bullet (Dict.keys TONGUE_DATABASE)).
Proof. unfold available_types_listing, bullet. reflexivity. Qed.

Lemma app_tail6 {A} (a b c d e f t : list A) :
  a ++ b ++ c ++ d ++ e ++ f ++ t = (a ++ b ++ c ++ d ++ e ++ f) ++ t.
Proof. now rewrite <- !app_assoc. Qed.

Lemma app_tail7 {A} (a b c d e f g t : list A) :
  a ++ b ++ c ++ d ++ e ++ f ++ g ++ t =
  (a ++ b ++ c ++ d ++ e ++ f ++ g) ++ t.
Proof. now rewrite <- !app_assoc. Qed.

Lemma format_error_text_listing :
  exists header,
    format_error_text =
    header ++ PyStr.join nl (List.map bullet (Dict.keys TONGUE_DATABASE)).
Proof.
  rewrite <- listing_bullets. unfold format_error_text.
  eexists. apply app_tail7.
Qed.

Lemma unknown_type_text_listing (tongue_type : str) :
  exists header,
    unknown_type_text tongue_type =
    header ++ PyStr.join nl (List.map bullet (Dict.keys TONGUE_DATABASE)).
Proof.
  rewrite <- listing_bullets. unfold unknown_type_text.
  eexists. apply app_tail6.
Qed.











(** The tool on an input that no guard refuses: one record is appended for
    the current user. *)
Lemma enhanced_tongue_analysis_accepts (current_user_id : str) (e : entropy)
    (input part0 : str) (rest : list str) (p : profile) (s : users_t) :
  input <> [] ->
  In 124%N input \/ (exists q, Dict.get input TONGUE_DATABASE = Some q) ->
  PyStr.split 124 input = part0 :: rest ->
  Dict.get (PyStr.strip part0) TONGUE_DATABASE = Some p ->
  exists text s' symptoms,
    enhanced_tongue_analysis current_user_id e input s = (Ok text, s') /\
    records_in s' current_user_id =
      records_in s current_user_id ++
      [record_of (PyStr.strip part0) (info_constitution p) symptoms e].
Proof.
  intros Hne Hguard Hsplit Hget. unfold enhanced_tongue_analysis.
  assert (G : negb (nonempty input) ||
              negb (PyStr.contains (u "|") input) &&
              negb (Dict.mem input TONGUE_DATABASE) = false).
  { destruct input as [|c input]; [congruence|]. cbn [nonempty negb orb].
    apply andb_false_iff. destruct Hguard as [Hbar | Hkey].
    - left. apply negb_false_iff. rewrite bar_is_124. now apply contains_char.
    - right. apply negb_false_iff. now apply mem_get. }
  rewrite G, Hsplit, Hget. unfold bind, ret.
  match goal with
  | |- context [UserHealthManager.add_tongue_record ?a ?b ?c ?sy ?e ?s] =>
      destruct (add_tongue_record_run a b c sy e s) as [d' [-> [Hr _]]];
      eexists; exists (<[a := d']> s), sy
  end.
  split; [reflexivity|].
  unfold records_in at 1. now rewrite lookup_insert_eq.
Qed.

(** C7: on an empty input, on an input without separator that is not a
    key, and on an input whose part before the first separator is, once
    stripped, not a key, the tool returns a text that ends with the list
    of the keys of the table, one line each, and the store is the one it
    was called with. Every other input is recorded
    ([enhanced_tongue_analysis_accepts]). *)
Theorem C7_format_errors_leave_store (current_user_id : str) (e : entropy)
    (input : str) (s : users_t) :
  input = [] \/
  (~ In 124%N input /\ Dict.get input TONGUE_DATABASE = None) \/
  (exists part0 rest,
      PyStr.split 124 input = part0 :: rest /\
      Dict.get (PyStr.strip part0) TONGUE_DATABASE = None) ->
  exists header,
    enhanced_tongue_analysis current_user_id e input s =
    (Ok (header ++
         PyStr.join nl (List.map bullet (Dict.keys TONGUE_DATABASE))),
     s).
Proof.
  intros [H | [H | [part0 [rest [Hsplit Hget]]]]].
  - rewrite enhanced_tongue_analysis_refused by now left.
    destruct format_error_text_listing as [header ->]. now exists header.
  - rewrite enhanced_tongue_analysis_refused by now right.
    destruct format_error_text_listing as [header ->]. now exists header.
  - destruct (enhanced_tongue_analysis_unknown current_user_id e input
                part0 rest s Hsplit Hget) as [-> | ->].
    + destruct format_error_text_listing as [header ->]. now exists header.
    + destruct (unknown_type_text_listing (PyStr.strip part0))
        as [header ->].
      now exists header.
Qed.

Lemma C7_format_errors_leave_store_witness :
  (exists header,
      enhanced_tongue_analysis (u "u1") sample_entropy [] sample_store =
      (Ok (header ++
           PyStr.join nl (List.map bullet (Dict.keys TONGUE_DATABASE))),
       sample_store)) /\
  (exists header,
      enhanced_tongue_analysis (u "u1") sample_entropy (u "舌頭很紅")
        sample_store =
      (Ok (header ++
           PyStr.join nl (List.map bullet (Dict.keys TONGUE_DATABASE))),
       sample_store)) /\
  (exists header,
      enhanced_tongue_analysis (u "u1") sample_entropy (u "舌頭很紅|口乾")
        sample_store =
      (Ok (header ++
           PyStr.join nl (List.map bullet (Dict.keys TONGUE_DATABASE))),
       sample_store)).
Proof.
  split; [|split].
  - apply C7_format_errors_leave_store. left. reflexivity.
  - apply C7_format_errors_leave_store. right. left. split.
    + vm_compute. intuition discriminate.
    + reflexivity.
  - apply C7_format_errors_leave_store. right. right.
    exists (u "舌頭很紅"), [u "口乾"]. split; reflexivity.
Defined.

(** ** The constitution analysis *)

(** C8: the analysis never raises. An id the store does not hold gives the
    "no such user" result; a stored user without records gives the "no
    records" result, which is a different one; a stored user with records
    gives the analysis, whose total is the number of records and whose
    recent constitution is that of the last record. *)
Theorem C8_analysis_total_and_distinguished (s : users_t) (user_id : str) :
  (exists r, UserHealthManager.get_constitution_analysis s user_id = Ok r) /\
  (s !! user_id = None ->
   UserHealthManager.get_constitution_analysis s user_id =
   Ok (AnalysisError (u "用戶不存在"))) /\
  (forall d,
      s !! user_id = Some d -> tongue_records d = [] ->
      UserHealthManager.get_constitution_analysis s user_id =
      Ok (AnalysisMessage (u "暫無記錄可供分析"))) /\
  (forall d,
      s !! user_id = Some d -> tongue_records d <> [] ->
      exists a,
        UserHealthManager.get_constitution_analysis s user_id =
        Ok (AnalysisOf a) /\
        total_records a = Z.of_nat (length (tongue_records d)) /\
        constitution_frequency a = constitution_trends d /\
        Some (recent_constitution a) =
        option_map constitution (last (tongue_records d))) /\
  AnalysisError (u "用戶不存在") <> AnalysisMessage (u "暫無記錄可供分析").
Proof.
  pose proof (get_constitution_analysis_nonempty s user_id) as Hrec.
  assert (Hnone : s !! user_id = None ->
      UserHealthManager.get_constitution_analysis s user_id =
      Ok (AnalysisError (u "用戶不存在"))).
  { intros H. unfold UserHealthManager.get_constitution_analysis.
    now rewrite H. }
  assert (Hempty : forall d,
      s !! user_id = Some d -> tongue_records d = [] ->
      UserHealthManager.get_constitution_analysis s user_id =
      Ok (AnalysisMessage (u "暫無記錄可供分析"))).
  { intros d Hd Hr. unfold UserHealthManager.get_constitution_analysis.
    now rewrite Hd, Hr. }
  split; [|split; [exact Hnone | split; [exact Hempty | split; [exact Hrec|]]]].
  - destruct (s !! user_id) as [d|] eqn:E.
    + destruct (tongue_records d) as [|r rs] eqn:Er.
      * eexists. exact (Hempty d eq_refl Er).
      * destruct (Hrec d eq_refl) as [a [Ha _]]; [now rewrite Er|].
        eexists. exact Ha.
    + eexists. exact (Hnone eq_refl).
  - discriminate.
Qed.

Lemma C8_analysis_total_and_distinguished_witness :
  UserHealthManager.get_constitution_analysis ∅ (u "nobody") =
  Ok (AnalysisError (u "用戶不存在")) /\
  UserHealthManager.get_constitution_analysis
    (<[u "u1" := fresh_doc (u "2024-05-01T09:00:00")]> ∅) (u "u1") =
  Ok (AnalysisMessage (u "暫無記錄可供分析")).
Proof.
  split.
  - apply (C8_analysis_total_and_distinguished ∅ (u "nobody")). reflexivity.
  - apply (proj1 (proj2 (proj2 (C8_analysis_total_and_distinguished
             (<[u "u1" := fresh_doc (u "2024-05-01T09:00:00")]> ∅) (u "u1"))))
             (fresh_doc (u "2024-05-01T09:00:00"))).
    + apply lookup_insert_eq.
    + reflexivity.
Defined.

(** ** The most frequent constitution *)

Lemma max_from_first_maximum {A} (key : A -> Z) (items : list A) (best : A) :
  exists before after,
    best :: items =
      before ++ UserHealthManager.max_from key best items :: after /\
    List.Forall
      (fun y => key y < key (UserHealthManager.max_from key best items))
      before /\
    List.Forall
      (fun y => key y <= key (UserHealthManager.max_from key best items))
      after.
Proof.
  revert best. induction items as [|a items IH]; intros best; simpl.
  - exists [], []. repeat split; constructor.
  - destruct (Z.ltb_spec (key best) (key a)) as [Hlt|Hge].
    + destruct (IH a) as [before [after [E [Hb Ha]]]].
      exists (best :: before), after. split; [simpl; now rewrite E|].
      split; [|exact Ha]. constructor; [|exact Hb].
      destruct before as [|b before]; simpl in E.
      * injection E as E _. rewrite <- E. exact Hlt.
      * injection E as <- _. inversion Hb; subst. lia.
    + destruct (IH best) as [before [after [E [Hb Ha]]]].
      destruct before as [|b before]; simpl in E.
      * injection E as E1 E2. exists [], (a :: after).
        split; [simpl; rewrite <- E1; do 2 f_equal; exact E2|].
        split; [constructor|]. constructor; [|exact Ha].
        rewrite <- E1. exact Hge.
      * injection E as <- E. exists (best :: a :: before), after.
        split; [simpl; do 2 f_equal; exact E|]. split; [|exact Ha].
        inversion Hb; subst. constructor; [assumption|].
        constructor; [lia | assumption].
Qed.

Lemma sum_counts_positive (trends : list (str * Z)) :
  List.Forall (fun kv => 1 <= snd kv) trends -> trends <> [] ->
  1 <= sum_counts trends.
Proof.
  intros H Hne. destruct H as [|kv trends Hkv H]; [congruence|].
  simpl. assert (0 <= sum_counts trends); [|lia].
  clear Hne Hkv. induction H as [|kv' trends Hkv' _ IH]; simpl; lia.
Qed.

(** C2: for a user of a store built by the operations whose frequency map
    is not empty, the analysis is returned and its most frequent
    constitution is a key of the map that carries the largest count, the
    first such key in the insertion order of the map. *)
Theorem C2_most_frequent_is_first_maximum (s : users_t) (user_id : str)
    (d : user_doc) :
  reachable s ->
  s !! user_id = Some d ->
  constitution_trends d <> [] ->
  exists a c,
    UserHealthManager.get_constitution_analysis s user_id =
      Ok (AnalysisOf a) /\
    constitution_frequency a = constitution_trends d /\
    first_maximum (most_common_constitution a) c (constitution_trends d).
Proof.
  intros Hreach Hd Hne.
  destruct (reachable_store_ok s Hreach _ _ Hd) as [Hpos Hsum].
  pose proof (sum_counts_positive _ Hpos Hne) as H1.
  assert (Hr : tongue_records d <> []).
  { intros E. rewrite E in Hsum. simpl in Hsum. lia. }
  destruct (nonempty_snoc _ Hr) as [init [x Hx]].
  rewrite (get_constitution_analysis_records _ _ _ _ _ Hd Hx).
  destruct (constitution_trends d) as [|item items] eqn:Et; [congruence|].
  destruct (max_from_first_maximum snd items item)
    as [before [after [E [Hb Ha]]]].
  eexists. exists (snd (UserHealthManager.max_from snd item items)).
  split; [reflexivity|]. simpl. split; [reflexivity|].
  exists before, after. rewrite <- surjective_pairing. auto.
Qed.

Lemma sample_store_user :
  sample_store !! (u "u1") =
  Some {| name := []; age := 0; gender := [];
          created_at := u "2024-05-01T09:00:00.000100";
          tongue_records := List.map call_record sample_calls;
          constitution_trends := [(u "濕熱體質", 1); (u "寒濕體質", 1)];
          preferences := [] |}.
Proof. vm_compute. reflexivity. Qed.

Lemma C2_most_frequent_is_first_maximum_witness :
  exists a c,
    UserHealthManager.get_constitution_analysis sample_store (u "u1") =
      Ok (AnalysisOf a) /\
    constitution_frequency a = [(u "濕熱體質", 1); (u "寒濕體質", 1)] /\
    first_maximum (most_common_constitution a) c
      [(u "濕熱體質", 1); (u "寒濕體質", 1)].
Proof.
  apply (C2_most_frequent_is_first_maximum sample_store (u "u1") _
           (reachable_run_calls sample_calls ∅ reachable_empty)
           sample_store_user).
  discriminate.
Defined.

(** On the tie of the sample store the first inserted key is reported. *)
Example sample_store_most_common :
  exists a,
    UserHealthManager.get_constitution_analysis sample_store (u "u1") =
      Ok (AnalysisOf a) /\
    most_common_constitution a = u "濕熱體質" /\
    recent_constitution a = u "寒濕體質".
Proof. eexists. split; [vm_compute; reflexivity|]. split; reflexivity. Qed.

(** ** The weather-advice composer *)

Lemma Qgtb_spec (a b : Q) : Qgtb a b = true <-> (b < a)%Q.
Proof.
  unfold Qgtb. rewrite negb_true_iff, <- not_true_iff_false, Qle_bool_iff.
  split; [apply Qnot_le_lt | apply Qlt_not_le].
Qed.

Lemma Qltb_spec (a b : Q) : Qltb a b = true <-> (a < b)%Q.
Proof. unfold Qltb. apply (Qgtb_spec b a). Qed.


Lemma Qgtb_cases (a b : Q) :
  (Qgtb a b = true /\ (b < a)%Q) \/ (Qgtb a b = false /\ ~ (b < a)%Q).
Proof.
  destruct (Qgtb a b) eqn:E.
  - left. split; [reflexivity | now apply Qgtb_spec].
  - right. split; [reflexivity|]. rewrite <- Qgtb_spec, E. discriminate.
Qed.

Lemma eqb_cases (a b : str) :
  (PyStr.eqb a b = true /\ a = b) \/ (PyStr.eqb a b = false /\ a <> b).
Proof.
  destruct (PyStr.eqb a b) eqn:E.
  - left. split; [reflexivity | now apply eqb_true].
  - right. split; [reflexivity | now apply eqb_false].
Qed.

Ltac in_cases :=
  cbn [In]; repeat split; unfold not; intros;
  repeat match goal with
         | H : _ \/ _ |- _ => destruct H
         | H : _ /\ _ |- _ => destruct H
         | H : False |- _ => destruct H
         end;
  try discriminate; try congruence; try tauto; auto.

(** The blocks appended under [if humidity > 75:]. *)
Lemma dampness_part_spec (humidity : Q) (constitution : str) :
  let part :=
    if Qgtb humidity (75 # 1) then
      Dampness ::
      (if PyStr.eqb constitution (u "脾虛濕重") then [SpleenDampClause]
       else if PyStr.eqb constitution (u "濕熱體質") then [DampHeatClause]
       else [])
    else [] in
  (In Dampness part <-> (75 # 1 < humidity)%Q) /\
  (In DampHeatClause part <->
   (75 # 1 < humidity)%Q /\ constitution = u "濕熱體質") /\
  (In SpleenDampClause part <->
   (75 # 1 < humidity)%Q /\ constitution = u "脾虛濕重") /\
  ~ In Heat part /\ ~ In Cold part.
Proof.
  assert (Hne : u "脾虛濕重" <> u "濕熱體質") by (vm_compute; discriminate).
  cbv zeta.
  destruct (Qgtb_cases humidity (75 # 1)) as [[-> Hh] | [-> Hh]].
  - destruct (eqb_cases constitution (u "脾虛濕重")) as [[-> Hs] | [-> Hs]].
    + in_cases.
    + destruct (eqb_cases constitution (u "濕熱體質")) as [[-> Hd] | [-> Hd]];
        in_cases.
  - in_cases.
Qed.

(** The blocks appended under [if temperature > 30: ... elif ...]. *)
Lemma temperature_part_spec (temperature : Q) :
  let part :=
    if Qgtb temperature (30 # 1) then [Heat]
    else if Qltb temperature (15 # 1) then [Cold]
    else [] in
  (In Heat part <-> (30 # 1 < temperature)%Q) /\
  (In Cold part <-> (temperature < 15 # 1)%Q) /\
  ~ In Dampness part /\ ~ In DampHeatClause part /\
  ~ In SpleenDampClause part.
Proof.
  assert (Hx : ((30 # 1 < temperature)%Q -> ~ (temperature < 15 # 1)%Q)).
  { intros H1 H2. pose proof (Qlt_trans _ _ _ H1 H2) as H3.
    vm_compute in H3. discriminate. }
  cbv zeta. unfold Qltb.
  destruct (Qgtb_cases temperature (30 # 1)) as [[-> Ht] | [-> Ht]].
  - in_cases.
  - destruct (Qgtb_cases (15 # 1) temperature) as [[Ec Hc] | [Ec Hc]];
      unfold Qgtb in Ec; rewrite Ec; in_cases.
Qed.

(** Which blocks are appended. *)
Lemma advice_blocks_spec (humidity temperature : Q) (constitution : str) :
  let blocks := advice_blocks humidity temperature constitution in
  (In Dampness blocks <-> (75 # 1 < humidity)%Q) /\
  (In Heat blocks <-> (30 # 1 < temperature)%Q) /\
  (In Cold blocks <-> (temperature < 15 # 1)%Q) /\
  (In DampHeatClause blocks <->
   (75 # 1 < humidity)%Q /\ constitution = u "濕熱體質") /\
  (In SpleenDampClause blocks <->
   (75 # 1 < humidity)%Q /\ constitution = u "脾虛濕重").
Proof.
  cbv zeta. unfold advice_blocks.
  pose proof (dampness_part_spec humidity constitution) as D.
  pose proof (temperature_part_spec temperature) as T.
  cbv zeta in D, T.
  destruct D as [D1 [D2 [D3 [D4 D5]]]].
  destruct T as [T1 [T2 [T3 [T4 T5]]]].
  assert (F : forall b,
    b <> Title -> b <> Conditions -> b <> Theory -> b <> Closing ->
    forall mid1 mid2,
      In b ([Title; Conditions; Theory] ++ mid1 ++ mid2 ++ [Closing]) <->
      In b mid1 \/ In b mid2).
  { intros b N1 N2 N3 N4 mid1 mid2. rewrite !in_app_iff. cbn [In].
    split; [|tauto].
    intros [[H | [H | [H | []]]] | [H | [H | [H | []]]]];
      try (symmetry in H; contradiction); tauto. }
  rewrite !F by discriminate. tauto.
Qed.

(** The constitution the tool shows is the one of the record appended
    last; the analysis it reads it from never raises. *)
Lemma shown_constitution (s : users_t) (user_id : str) :
  exists r,
    UserHealthManager.get_constitution_analysis s user_id = Ok r /\
    match r with
    | AnalysisOf a => recent_constitution a
    | _ => u "未知"
    end =
    match last (records_in s user_id) with
    | Some x => constitution x
    | None => u "未知"
    end.
Proof.
  unfold records_in. destruct (s !! user_id) as [d|] eqn:Hd.
  - destruct (tongue_records d) as [|r rs] eqn:Hr.
    + unfold UserHealthManager.get_constitution_analysis. rewrite Hd, Hr.
      eexists. split; reflexivity.
    + assert (Hne : tongue_records d <> []) by (rewrite Hr; discriminate).
      destruct (nonempty_snoc _ Hne) as [init [x Hx]].
      rewrite (get_constitution_analysis_records _ _ _ _ _ Hd Hx).
      eexists. split; [reflexivity|]. cbn [recent_constitution].
      rewrite <- Hr, Hx, last_snoc. reflexivity.
  - unfold UserHealthManager.get_constitution_analysis. rewrite Hd.
    eexists. split; reflexivity.
Qed.









Lemma sample_store_one_user :
  sample_store_one !! (u "u1") = Some sample_doc_one.
Proof. vm_compute. reflexivity. Qed.




(** The blocks of the scenario, in order. *)
Example scenario_blocks :
  advice_blocks (80 # 1) (32 # 1) (u "濕熱體質") =
  [Title; Conditions; Theory; Dampness; DampHeatClause; Heat; Closing].
Proof. reflexivity. Qed.

(** ** The history report *)

(** C10: for an id the store does not hold the history is empty, whatever
    the limit, and the formatted report is the "no history" line, the same
    report as for any stored user without records. *)
Theorem C10_history_of_unknown_user (format_date : str -> str)
    (s : users_t) (user_id : str) (limit : Z) :
  s !! user_id = None ->
  UserHealthManager.get_user_history s user_id limit = [] /\
  get_user_history_formatted format_date s user_id = u "📭 暫無歷史記錄" /\
  (forall (s' : users_t) (user_id' : str) (d : user_doc),
      s' !! user_id' = Some d -> tongue_records d = [] ->
      get_user_history_formatted format_date s' user_id' =
      get_user_history_formatted format_date s user_id).
Proof.
  intros H.
  assert (E : forall l, UserHealthManager.get_user_history s user_id l = []).
  { intros l. unfold UserHealthManager.get_user_history. now rewrite H. }
  split; [apply E|].
  assert (F : get_user_history_formatted format_date s user_id =
              u "📭 暫無歷史記錄").
  { unfold get_user_history_formatted. now rewrite E. }
  split; [exact F|].
  intros s' user_id' d Hd Hr. rewrite F.
  unfold get_user_history_formatted, UserHealthManager.get_user_history.
  rewrite Hd, Hr. reflexivity.
Qed.

Lemma C10_history_of_unknown_user_witness :
  UserHealthManager.get_user_history sample_store (u "nobody") 10 = [] /\
  get_user_history_formatted (fun d => d) sample_store (u "nobody") =
    u "📭 暫無歷史記錄".
Proof.
  destruct (C10_history_of_unknown_user (fun d => d) sample_store
              (u "nobody") 10) as [H1 [H2 _]].
  - vm_compute. reflexivity.
  - split; [exact H1 | exact H2].
Defined.

(** * Further properties of the store *)

Lemma add_tongue_record_exact (user_id tt c : str) (sy : list str)
    (e : entropy) (s : users_t) :
  UserHealthManager.add_tongue_record user_id tt c sy e s =
  (Ok (uuid4 e),
   <[user_id := with_record (doc_or_fresh s user_id (now_created e))
                  (record_of tt c sy e)]> s).
Proof.
  unfold doc_or_fresh, with_record, record_of, count_of, fresh_doc.
  unfold UserHealthManager.add_tongue_record,
    UserHealthManager.update_constitution_trends,
    UserHealthManager.create_user.
  run_M. destruct (s !! user_id) as [d|] eqn:E.
  - rewrite bool_decide_eq_false_2 by discriminate. run_M.
    rewrite E. run_M. rewrite lookup_insert_eq. run_M.
    rewrite insert_insert_eq. reflexivity.
  - rewrite bool_decide_eq_true_2 by reflexivity. run_M.
    rewrite bool_decide_eq_true_2 by exact E. run_M.
    rewrite lookup_insert_eq. run_M. rewrite lookup_insert_eq. run_M.
    rewrite !insert_insert_eq. reflexivity.
Qed.

(** X1: [add_tongue_record] touches one user only. It returns the new record
    identifier; every other user's document is the one it was; the user's
    own document, the default one stamped with the time of the call when
    the id was absent, keeps its name, age, gender, creation time and
    preferences and gains the record at the end. *)
Theorem add_tongue_record_frame (user_id tt c : str) (sy : list str)
    (e : entropy) (s : users_t) :
  exists s' d',
    UserHealthManager.add_tongue_record user_id tt c sy e s =
      (Ok (uuid4 e), s') /\
    (forall other, other <> user_id -> s' !! other = s !! other) /\
    s' !! user_id = Some d' /\
    continues (doc_or_fresh s user_id (now_created e)) d' /\
    tongue_records d' =
      records_in s user_id ++ [record_of tt c sy e] /\
    (s !! user_id = None ->
     name d' = [] /\ age d' = 0 /\ gender d' = [] /\
     created_at d' = now_created e /\ preferences d' = []).
Proof.
  rewrite add_tongue_record_exact. eexists. eexists.
  split; [reflexivity|].
  split; [intros other Hne; now rewrite lookup_insert_ne|].
  split; [apply lookup_insert_eq|].
  split.
  { unfold continues, with_record. cbn.
    repeat (split; [reflexivity|]). eexists. reflexivity. }
  split.
  { unfold with_record, doc_or_fresh, records_in. cbn.
    destruct (s !! user_id); reflexivity. }
  intros H. unfold with_record, doc_or_fresh. rewrite H. cbn. auto.
Qed.

Lemma continues_refl (d : user_doc) : continues d d.
Proof.
  unfold continues. repeat (split; [reflexivity|]).
  exists []. now rewrite app_nil_r.
Qed.

Lemma continues_trans (d1 d2 d3 : user_doc) :
  continues d1 d2 -> continues d2 d3 -> continues d1 d3.
Proof.
  unfold continues.
  intros [A1 [A2 [A3 [A4 [A5 [x Hx]]]]]] [B1 [B2 [B3 [B4 [B5 [y Hy]]]]]].
  repeat split; try congruence.
  exists (x ++ y). now rewrite Hy, Hx, app_assoc.
Qed.

Lemma step_continues (s s' : users_t) (user_id : str) (d : user_doc) :
  step s s' -> s !! user_id = Some d ->
  exists d', s' !! user_id = Some d' /\ continues d d'.
Proof.
  intros [uid nm ag gd now | uid tt c sy e] Hd.
  - destruct (s !! uid) as [d0|] eqn:E.
    + rewrite (create_user_existing _ _ _ _ _ _ _ E). simpl.
      exists d. split; [exact Hd | apply continues_refl].
    + rewrite (create_user_new _ _ _ _ _ _ E). simpl.
      exists d. split; [|apply continues_refl].
      rewrite lookup_insert_ne; [exact Hd|]. intros ->. congruence.
  - rewrite add_tongue_record_exact. simpl.
    destruct (decide (uid = user_id)) as [->|Hne].
    + rewrite lookup_insert_eq. eexists. split; [reflexivity|].
      unfold doc_or_fresh. rewrite Hd.
      unfold continues, with_record. cbn.
      repeat (split; [reflexivity|]). eexists. reflexivity.
    + rewrite lookup_insert_ne by exact Hne.
      exists d. split; [exact Hd | apply continues_refl].
Qed.

(** X2: The store is append-only: along any sequence of [create_user] and
    [add_tongue_record] calls a stored user stays stored, keeps name, age,
    gender, creation time and preferences, and the records it had remain,
    in the same order, the first of its records. *)
Theorem store_append_only (s s' : users_t) (user_id : str) (d : user_doc) :
  rtc step s s' ->
  s !! user_id = Some d ->
  exists d', s' !! user_id = Some d' /\ continues d d'.
Proof.
  intros Hsteps. revert d.
  induction Hsteps as [s | s s1 s2 Hstep _ IH]; intros d Hd.
  - exists d. split; [exact Hd | apply continues_refl].
  - destruct (step_continues _ _ _ _ Hstep Hd) as [d1 [Hd1 C1]].
    destruct (IH d1 Hd1) as [d2 [Hd2 C2]].
    exists d2. split; [exact Hd2 | exact (continues_trans _ _ _ C1 C2)].
Qed.

Lemma store_append_only_witness :
  exists d',
    sample_store !! (u "u1") = Some d' /\ continues sample_doc_one d'.
Proof.
  apply (store_append_only sample_store_one sample_store (u "u1")).
  - eapply rtc_l; [|apply rtc_refl].
    exact (step_add_tongue_record sample_store_one (call_user sample_call_two)
             (call_type sample_call_two) (call_constitution sample_call_two)
             (call_symptoms sample_call_two) (call_entropy sample_call_two)).
  - exact sample_store_one_user.
Defined.

(** Every document of a store built by the operations is a default-shaped
    document to which records were added one at a time. *)
Lemma reachable_docs (P : user_doc -> Prop) :
  (forall nm ag gd now,
      P {| name := nm; age := ag; gender := gd; created_at := now;
           tongue_records := []; constitution_trends := [];
           preferences := [] |}) ->
  (forall d r, P d -> P (with_record d r)) ->
  forall s, reachable s -> forall user_id d, s !! user_id = Some d -> P d.
Proof.
  intros Hnew Hadd s Hreach.
  induction Hreach as [|s s' _ IH Hstep]; intros user_id d Hd.
  - rewrite lookup_empty in Hd. discriminate.
  - destruct Hstep as [uid nm ag gd now | uid tt c sy e].
    + destruct (s !! uid) as [d0|] eqn:E.
      * rewrite (create_user_existing _ _ _ _ _ _ _ E) in Hd.
        exact (IH _ _ Hd).
      * rewrite (create_user_new _ _ _ _ _ _ E) in Hd. simpl in Hd.
        rewrite lookup_insert in Hd. case_decide.
        -- injection Hd as <-. apply Hnew.
        -- exact (IH _ _ Hd).
    + rewrite add_tongue_record_exact in Hd. simpl in Hd.
      rewrite lookup_insert in Hd. case_decide.
      * injection Hd as <-. apply Hadd. unfold doc_or_fresh.
        destruct (s !! uid) as [d0|] eqn:E; [exact (IH _ _ E)|].
        apply Hnew.
      * exact (IH _ _ Hd).
Qed.

Lemma keys_set_In {V} (k c : str) (v : V) (d : list (str * V)) :
  In k (Dict.keys (Dict.set c v d)) <-> k = c \/ In k (Dict.keys d).
Proof.
  induction d as [|[k0 v0] d IH]; simpl.
  - intuition congruence.
  - destruct (PyStr.eqb k0 c) eqn:E; simpl.
    + apply eqb_true in E. subst k0. intuition congruence.
    + rewrite IH. tauto.
Qed.

Lemma keys_set_NoDup {V} (c : str) (v : V) (d : list (str * V)) :
  NoDup (Dict.keys d) -> NoDup (Dict.keys (Dict.set c v d)).
Proof.
  induction d as [|[k0 v0] d IH]; simpl; intros H.
  - apply NoDup_singleton.
  - apply NoDup_cons in H as [Hk Hd].
    destruct (PyStr.eqb k0 c) eqn:E; simpl.
    + apply NoDup_cons. split; assumption.
    + apply NoDup_cons. split; [|now apply IH].
      rewrite list_elem_of_In, keys_set_In. intros [->|Hin].
      * apply eqb_false in E. congruence.
      * apply Hk. now apply list_elem_of_In.
Qed.

Lemma records_with_snoc (c : str) (records : list tongue_record)
    (r : tongue_record) :
  records_with c (records ++ [r]) =
  (records_with c records +
   if PyStr.eqb (constitution r) c then 1 else 0)%nat.
Proof.
  unfold records_with. rewrite List.filter_app, length_app. simpl.
  destruct (PyStr.eqb (constitution r) c); reflexivity.
Qed.

Lemma records_with_positive (c : str) (records : list tongue_record) :
  (1 <= records_with c records)%nat <->
  In c (List.map constitution records).
Proof.
  unfold records_with. induction records as [|r records IH]; simpl.
  - split; [lia | tauto].
  - destruct (PyStr.eqb (constitution r) c) eqn:E; simpl.
    + apply eqb_true in E. split; [now left | lia].
    + apply eqb_false in E. rewrite IH. intuition congruence.
Qed.

Lemma frequency_map_is_tally_holds (s : users_t) (user_id : str) (d : user_doc) :
  reachable s ->
  s !! user_id = Some d ->
  NoDup (Dict.keys (constitution_trends d)) /\
  (forall c,
      count_of c (constitution_trends d) =
      Z.of_nat (records_with c (tongue_records d))) /\
  (forall c,
      In c (Dict.keys (constitution_trends d)) <->
      In c (List.map constitution (tongue_records d))).
Proof.
  intros Hreach Hd. revert s Hreach user_id d Hd.
  apply reachable_docs.
  - intros nm ag gd now. cbn. split; [constructor|].
    split; [reflexivity | tauto].
  - intros d r [Hnd [Hcount Hkeys]]. unfold with_record.
    cbn [tongue_records constitution_trends].
    split; [now apply keys_set_NoDup|]. split.
    + intros c. rewrite records_with_snoc.
      destruct (PyStr.eqb (constitution r) c) eqn:E.
      * apply eqb_true in E. subst c.
        rewrite count_of_set_same, Hcount. lia.
      * apply eqb_false in E.
        rewrite count_of_set_other by congruence. rewrite Hcount. lia.
    + intros c. rewrite keys_set_In, Hkeys, map_app, in_app_iff. simpl.
      intuition congruence.
Qed.

(** X3: In every store built by the operations, a user's frequency map is the
    tally of that user's records: its keys are pairwise distinct, they are
    the constitutions that occur among the records, and the count of
    every label is the number of records that carry it. *)
Theorem frequency_map_is_tally (s : users_t) (user_id : str) (d : user_doc) :
  reachable s ->
  s !! user_id = Some d ->
  NoDup (Dict.keys (constitution_trends d)) /\
  (forall c,
      count_of c (constitution_trends d) =
      Z.of_nat (records_with c (tongue_records d))) /\
  (forall c,
      In c (Dict.keys (constitution_trends d)) <->
      In c (List.map constitution (tongue_records d))).
Proof. exact (frequency_map_is_tally_holds s user_id d). Qed.

Lemma frequency_map_is_tally_witness :
  NoDup (Dict.keys (constitution_trends sample_doc_one)) /\
  (forall c,
      count_of c (constitution_trends sample_doc_one) =
      Z.of_nat (records_with c (tongue_records sample_doc_one))) /\
  (forall c,
      In c (Dict.keys (constitution_trends sample_doc_one)) <->
      In c (List.map constitution (tongue_records sample_doc_one))).
Proof.
  apply (frequency_map_is_tally sample_store_one (u "u1")).
  - exact (reachable_run_calls [sample_call_one] ∅ reachable_empty).
  - exact sample_store_one_user.
Defined.

Lemma count_of_In (k : str) (n : Z) (trends : list (str * Z)) :
  NoDup (Dict.keys trends) -> In (k, n) trends -> count_of k trends = n.
Proof.
  intros Hnd Hin. unfold count_of. now rewrite (In_get _ _ _ Hnd Hin).
Qed.

Lemma count_of_absent (k : str) (trends : list (str * Z)) :
  ~ In k (Dict.keys trends) -> count_of k trends = 0.
Proof.
  intros H. unfold count_of. apply get_None_keys in H. now rewrite H.
Qed.

Lemma most_common_is_mode_holds (s : users_t) (user_id : str) (d : user_doc) :
  reachable s ->
  s !! user_id = Some d ->
  tongue_records d <> [] ->
  exists a,
    UserHealthManager.get_constitution_analysis s user_id =
      Ok (AnalysisOf a) /\
    (1 <= records_with (most_common_constitution a) (tongue_records d))%nat /\
    (forall c,
        (records_with c (tongue_records d) <=
         records_with (most_common_constitution a) (tongue_records d))%nat).
Proof.
  intros Hreach Hd Hne.
  destruct (frequency_map_is_tally_holds s user_id d Hreach Hd)
    as [Hnd [Hcount Hkeys]].
  destruct (nonempty_snoc _ Hne) as [init [x Hx]].
  rewrite (get_constitution_analysis_records _ _ _ _ _ Hd Hx).
  eexists. split; [reflexivity|]. cbn [most_common_constitution].
  destruct (constitution_trends d) as [|item items] eqn:Et.
  { exfalso. apply (proj2 (Hkeys (constitution x))).
    rewrite Hx, map_app, in_app_iff. right. now left. }
  destruct (max_from_first_maximum snd items item)
    as [before [after [E [Hb Ha]]]].
  set (best := UserHealthManager.max_from snd item items) in *.
  assert (Hin : In (fst best, snd best) (item :: items)).
  { rewrite E, <- surjective_pairing, in_app_iff. right. now left. }
  pose proof (count_of_In _ _ _ Hnd Hin) as Hbest.
  assert (Hle : forall c, count_of c (item :: items) <= snd best).
  { intros c. destruct (Dict.get c (item :: items)) as [n|] eqn:G.
    - pose proof (get_In _ _ _ G) as Hc.
      rewrite (count_of_In _ _ _ Hnd Hc).
      rewrite E, in_app_iff in Hc. destruct Hc as [Hc | [Hc | Hc]].
      + rewrite List.Forall_forall in Hb. specialize (Hb _ Hc).
        simpl in Hb. lia.
      + rewrite Hc. simpl. lia.
      + rewrite List.Forall_forall in Ha. exact (Ha _ Hc).
    - unfold count_of. rewrite G.
      rewrite <- Hbest, Hcount. lia. }
  split.
  - apply records_with_positive, Hkeys. unfold Dict.keys.
    apply in_map_iff. exists (fst best, snd best). now split.
  - intros c. pose proof (Hle c) as H. rewrite Hcount in H.
    rewrite <- Hbest, Hcount in H. lia.
Qed.

(** X4: In every store built by the operations, for a user with records, the
    most common constitution of the analysis is a mode of the records: it
    is carried by at least one record, and no constitution is carried by
    more records than it. *)
Theorem most_common_is_mode (s : users_t) (user_id : str) (d : user_doc) :
  reachable s ->
  s !! user_id = Some d ->
  tongue_records d <> [] ->
  exists a,
    UserHealthManager.get_constitution_analysis s user_id =
      Ok (AnalysisOf a) /\
    (1 <= records_with (most_common_constitution a) (tongue_records d))%nat /\
    (forall c,
        (records_with c (tongue_records d) <=
         records_with (most_common_constitution a) (tongue_records d))%nat).
Proof. exact (most_common_is_mode_holds s user_id d). Qed.

Lemma most_common_is_mode_witness :
  exists a,
    UserHealthManager.get_constitution_analysis sample_store_one (u "u1") =
      Ok (AnalysisOf a) /\
    (1 <= records_with (most_common_constitution a)
            (tongue_records sample_doc_one))%nat /\
    (forall c,
        (records_with c (tongue_records sample_doc_one) <=
         records_with (most_common_constitution a)
           (tongue_records sample_doc_one))%nat).
Proof.
  apply (most_common_is_mode sample_store_one (u "u1") sample_doc_one).
  - exact (reachable_run_calls [sample_call_one] ∅ reachable_empty).
  - exact sample_store_one_user.
  - discriminate.
Defined.

Lemma StronglySorted_prefix {A} (R : A -> A -> Prop) (l1 l2 : list A) :
  StronglySorted R (l1 ++ l2) -> StronglySorted R l1.
Proof.
  induction l1 as [|x l1 IH]; simpl; intros H; [constructor|].
  inversion H as [|? ? Hs Hx]; subst. constructor; [now apply IH|].
  apply List.Forall_app in Hx. tauto.
Qed.

(** X5: The history of a stored user is the head of the date-sorted records:
    for a limit that is not negative it holds [min(limit, n)] records, for
    a negative limit [n + limit] of them (none when that is negative);
    it is sorted newest date first, and with the records it leaves out it
    makes up exactly the records of the user. *)
Theorem get_user_history_limit (s : users_t) (user_id : str) (d : user_doc)
    (limit : Z) :
  s !! user_id = Some d ->
  let all := UserHealthManager.sorted_by_date_desc (tongue_records d) in
  let history := UserHealthManager.get_user_history s user_id limit in
  length history = slice_length limit (length (tongue_records d)) /\
  (exists rest, all = history ++ rest /\
                Permutation (tongue_records d) (history ++ rest)) /\
  StronglySorted not_older history /\
  (forall r, In r history -> In r (tongue_records d)).
Proof.
  intros Hd all history.
  assert (Hlen : length all = length (tongue_records d)).
  { symmetry. apply Permutation_length, sorted_by_date_desc_perm. }
  assert (Hh : exists k, history = firstn k all /\
                         Nat.min k (length all) =
                         slice_length limit (length (tongue_records d))).
  { subst history. unfold UserHealthManager.get_user_history.
    rewrite Hd. fold all. unfold UserHealthManager.slice_to, slice_length.
    rewrite Hlen. destruct (limit <? 0) eqn:El.
    - eexists. split; [reflexivity|]. apply Z.ltb_lt in El. lia.
    - eexists. split; [reflexivity|]. reflexivity. }
  destruct Hh as [k [Hk Hmin]].
  split; [rewrite Hk, length_firstn; exact Hmin|].
  split.
  { exists (skipn k all). rewrite Hk, firstn_skipn.
    split; [reflexivity | apply sorted_by_date_desc_perm]. }
  split.
  { rewrite Hk. pose proof (sorted_by_date_desc_sorted (tongue_records d))
      as Hs. fold all in Hs. rewrite <- (firstn_skipn k all) in Hs.
    now apply StronglySorted_prefix in Hs. }
  intros r Hr. rewrite Hk in Hr.
  eapply Permutation_in; [symmetry; apply sorted_by_date_desc_perm|].
  fold all. rewrite <- (firstn_skipn k all). apply in_or_app. now left.
Qed.

Lemma get_user_history_limit_witness :
  length (UserHealthManager.get_user_history sample_store (u "u1") 1) =
    1%nat /\
  length (UserHealthManager.get_user_history sample_store (u "u1") 10) =
    2%nat /\
  length (UserHealthManager.get_user_history sample_store (u "u1") (-1)) =
    1%nat /\
  length (UserHealthManager.get_user_history sample_store (u "u1") (-5)) =
    0%nat.
Proof.
  split; [|split; [|split]].
  - exact (proj1 (get_user_history_limit sample_store (u "u1") _ 1
                    sample_store_user)).
  - exact (proj1 (get_user_history_limit sample_store (u "u1") _ 10
                    sample_store_user)).
  - exact (proj1 (get_user_history_limit sample_store (u "u1") _ (-1)
                    sample_store_user)).
  - exact (proj1 (get_user_history_limit sample_store (u "u1") _ (-5)
                    sample_store_user)).
Defined.

(** X6: For a stored user with records the analysis reports, as recent trend,
    the constitutions of the last [min(5, n)] records in the order they
    were appended; the trend ends with the recent constitution, which is
    that of the record appended last. *)
Theorem recent_trend_last_five (s : users_t) (user_id : str) (d : user_doc) :
  s !! user_id = Some d ->
  tongue_records d <> [] ->
  exists a earlier,
    UserHealthManager.get_constitution_analysis s user_id =
      Ok (AnalysisOf a) /\
    List.map constitution (tongue_records d) = earlier ++ recent_trend a /\
    length (recent_trend a) = Nat.min 5 (length (tongue_records d)) /\
    last (recent_trend a) = Some (recent_constitution a).
Proof.
  intros Hd Hne. destruct (nonempty_snoc _ Hne) as [init [x Hx]].
  rewrite (get_constitution_analysis_records _ _ _ _ _ Hd Hx).
  eexists.
  exists (List.map constitution
            (firstn (length (tongue_records d) - 5) (tongue_records d))).
  split; [reflexivity|]. cbn [recent_trend recent_constitution].
  unfold UserHealthManager.slice_last.
  split; [now rewrite <- map_app, firstn_skipn|].
  split; [rewrite length_map, length_skipn; lia|].
  rewrite Hx, length_app. simpl.
  destruct (decide (length init + 1 - 5 <= length init)%nat) as [Hle|Hgt];
    [|lia].
  rewrite skipn_app.
  replace (length init + 1 - 5 - length init)%nat with 0%nat by lia.
  simpl. rewrite map_app. simpl. apply last_snoc.
Qed.

Lemma recent_trend_last_five_witness :
  exists a earlier,
    UserHealthManager.get_constitution_analysis sample_store (u "u1") =
      Ok (AnalysisOf a) /\
    List.map constitution (List.map call_record sample_calls) =
      earlier ++ recent_trend a /\
    length (recent_trend a) = 2%nat /\
    last (recent_trend a) = Some (recent_constitution a).
Proof.
  apply (recent_trend_last_five sample_store (u "u1") _ sample_store_user).
  discriminate.
Defined.

(** X7: A user just created is known and has nothing yet: for an id the store
    does not hold, [create_user] returns [True], leaves every other user
    as it was, and afterwards the history of the user is empty for every
    limit and the analysis is the "no records" result, not the "no such
    user" one. *)
Theorem create_user_then_queries (s : users_t) (user_id nm : str) (ag : Z)
    (gd now : str) (limit : Z) :
  s !! user_id = None ->
  exists s',
    UserHealthManager.create_user user_id nm ag gd now s = (Ok true, s') /\
    (forall other, other <> user_id -> s' !! other = s !! other) /\
    UserHealthManager.get_user_history s' user_id limit = [] /\
    UserHealthManager.get_constitution_analysis s' user_id =
      Ok (AnalysisMessage (u "暫無記錄可供分析")).
Proof.
  intros H. rewrite (create_user_new _ _ _ _ _ _ H). eexists.
  split; [reflexivity|].
  split; [intros other Hne; now rewrite lookup_insert_ne|].
  unfold UserHealthManager.get_user_history,
    UserHealthManager.get_constitution_analysis.
  rewrite lookup_insert_eq. cbn [tongue_records].
  split; [|reflexivity].
  unfold UserHealthManager.slice_to. destruct (limit <? 0); apply firstn_nil.
Qed.

Lemma create_user_then_queries_witness :
  exists s',
    UserHealthManager.create_user (u "u2") (u "Lin") 30 (u "F")
      (u "2024-05-03T09:00:00") sample_store = (Ok true, s') /\
    (forall other, other <> u "u2" -> s' !! other = sample_store !! other) /\
    UserHealthManager.get_user_history s' (u "u2") 10 = [] /\
    UserHealthManager.get_constitution_analysis s' (u "u2") =
      Ok (AnalysisMessage (u "暫無記錄可供分析")).
Proof.
  apply (create_user_then_queries sample_store (u "u2") (u "Lin") 30 (u "F")
           (u "2024-05-03T09:00:00") 10).
  vm_compute. reflexivity.
Defined.

(** * Further properties of the tongue-analysis tool *)

Lemma first_guard_spec (input : str) :
  negb (nonempty input) ||
  negb (PyStr.contains (u "|") input) &&
  negb (Dict.mem input TONGUE_DATABASE) = true <->
  refused_at_once input.
Proof.
  unfold refused_at_once. rewrite bar_is_124.
  rewrite orb_true_iff, andb_true_iff, !negb_true_iff.
  rewrite <- (not_true_iff_false (PyStr.contains _ _)), contains_char.
  rewrite <- (not_true_iff_false (Dict.mem _ _)), mem_get.
  assert (G : (~ exists v, Dict.get input TONGUE_DATABASE = Some v) <->
              Dict.get input TONGUE_DATABASE = None).
  { destruct (Dict.get input TONGUE_DATABASE) as [q|].
    - split; [intros H; exfalso; apply H; now exists q | discriminate].
    - split; [reflexivity | intros _ [v Hv]; discriminate]. }
  rewrite G. destruct input as [|c input]; cbn [nonempty].
  - split; intros _; now left.
  - split; (intros [H | H]; [discriminate | now right]).
Qed.

(** The tool, case by case, with the text and the store it returns. *)
Lemma enhanced_tongue_analysis_cases (current_user_id : str) (e : entropy)
    (input : str) (s : users_t) :
  (refused_at_once input ->
   enhanced_tongue_analysis current_user_id e input s =
   (Ok format_error_text, s)) /\
  (~ refused_at_once input ->
   forall part0 rest,
     PyStr.split 124 input = part0 :: rest ->
     match Dict.get (PyStr.strip part0) TONGUE_DATABASE with
     | None =>
         enhanced_tongue_analysis current_user_id e input s =
         (Ok (unknown_type_text (PyStr.strip part0)), s)
     | Some p =>
         enhanced_tongue_analysis current_user_id e input s =
         (Ok (analysis_text (uuid4 e) (PyStr.strip part0) p ++
              symptom_section (parsed_symptoms rest) p ++ closing_text),
          recorded s current_user_id e (PyStr.strip part0) p
            (parsed_symptoms rest))
     end).
Proof.
  split.
  - intros H. now apply enhanced_tongue_analysis_refused.
  - intros H part0 rest Hsplit. unfold enhanced_tongue_analysis.
    rewrite <- first_guard_spec in H. apply not_true_is_false in H.
    rewrite H, Hsplit. fold (parsed_symptoms rest).
    destruct (Dict.get (PyStr.strip part0) TONGUE_DATABASE) as [p|];
      [|reflexivity].
    unfold bind, ret. rewrite add_tongue_record_exact. reflexivity.
Qed.

(** X8: The tool never raises, and it has two outcomes only: it returns a text
    that ends with the list of the keys and the store it was given, or it
    returns the analysis and a store in which exactly one record was added
    to the current user, of a type that is a key of the table and of the
    constitution the table gives for that key; no other user is touched. *)
Theorem enhanced_tongue_analysis_outcomes (current_user_id : str)
    (e : entropy) (input : str) (s : users_t) :
  (exists header,
      enhanced_tongue_analysis current_user_id e input s =
      (Ok (header ++
           PyStr.join nl (List.map bullet (Dict.keys TONGUE_DATABASE))), s)) \/
  (exists k p sy text s',
      In (k, p) TONGUE_DATABASE /\
      enhanced_tongue_analysis current_user_id e input s = (Ok text, s') /\
      records_in s' current_user_id =
        records_in s current_user_id ++
        [record_of k (info_constitution p) sy e] /\
      (forall other, other <> current_user_id -> s' !! other = s !! other)).
Proof.
  destruct (enhanced_tongue_analysis_cases current_user_id e input s)
    as [Href Hacc].
  destruct (negb (nonempty input) ||
            negb (PyStr.contains (u "|") input) &&
            negb (Dict.mem input TONGUE_DATABASE)) eqn:G.
  - left. apply first_guard_spec in G. rewrite (Href G).
    destruct format_error_text_listing as [header ->]. now exists header.
  - assert (Hn : ~ refused_at_once input).
    { rewrite <- first_guard_spec, G. discriminate. }
    destruct (PyStr.split 124 input) as [|part0 rest] eqn:Hsplit.
    { now apply split_nonempty in Hsplit. }
    specialize (Hacc Hn part0 rest eq_refl).
    destruct (Dict.get (PyStr.strip part0) TONGUE_DATABASE) as [p|] eqn:Hget.
    + right. exists (PyStr.strip part0), p, (parsed_symptoms rest).
      eexists. eexists. split; [now apply get_In|].
      split; [exact Hacc|]. unfold recorded. split.
      * unfold records_in at 1. rewrite lookup_insert_eq.
        unfold with_record, doc_or_fresh, records_in.
        cbn [tongue_records]. destruct (s !! current_user_id); reflexivity.
      * intros other Hne. now rewrite lookup_insert_ne.
    + left. rewrite Hacc.
      destruct (unknown_type_text_listing (PyStr.strip part0))
        as [header ->].
      now exists header.
Qed.

(** ** Splitting and stripping *)

Ltac no_char :=
  let H := fresh in
  intros H; apply contains_char in H; vm_compute in H; discriminate.

Lemma split_app_sep (sep : N) (a b : str) :
  ~ In sep a -> PyStr.split sep (a ++ sep :: b) = a :: PyStr.split sep b.
Proof.
  induction a as [|c a IH]; simpl; intros H.
  - now rewrite N.eqb_refl.
  - destruct (N.eqb_spec c sep) as [->|Hne]; [tauto|].
    rewrite IH by tauto. reflexivity.
Qed.

(** Splitting what was joined gives the pieces back. *)
Lemma split_join (sep : N) (l : list str) :
  l <> [] ->
  List.Forall (fun piece => ~ In sep piece) l ->
  PyStr.split sep (PyStr.join [sep] l) = l.
Proof.
  intros Hne H. induction H as [|piece l Hp H IH]; [congruence|].
  destruct l as [|piece' l].
  - simpl. now apply split_without_sep.
  - change (PyStr.join [sep] (piece :: piece' :: l))
      with (piece ++ sep :: PyStr.join [sep] (piece' :: l)).
    rewrite split_app_sep by exact Hp. rewrite IH by discriminate.
    reflexivity.
Qed.

Lemma lstrip_blank (a s : str) :
  blank a -> PyStr.lstrip (a ++ s) = PyStr.lstrip s.
Proof.
  unfold blank. induction a as [|c a IH]; simpl; [reflexivity|].
  intros H. apply andb_true_iff in H as [Hc Ha]. rewrite Hc. now apply IH.
Qed.

Lemma lstrip_suffix (s : str) :
  exists a, blank a /\ s = a ++ PyStr.lstrip s.
Proof.
  induction s as [|c s [a [Ha Hs]]]; simpl.
  - now exists [].
  - destruct (PyStr.isspace c) eqn:E.
    + exists (c :: a). split; [unfold blank in *; simpl; now rewrite E|].
      simpl. now rewrite <- Hs.
    + now exists [].
Qed.

Lemma lstrip_fixed_app (k b : str) :
  k <> [] -> PyStr.lstrip k = k -> PyStr.lstrip (k ++ b) = k ++ b.
Proof.
  destruct k as [|c k]; [congruence|]. simpl. intros _.
  destruct (PyStr.isspace c); [|reflexivity].
  intros H. exfalso.
  destruct (lstrip_suffix k) as [a [_ Ha]].
  apply (f_equal (@length N)) in H. apply (f_equal (@length N)) in Ha.
  rewrite length_app in Ha. simpl in H. lia.
Qed.

Lemma strip_fixed (k : str) :
  PyStr.strip k = k -> PyStr.lstrip k = k /\ PyStr.rstrip k = k.
Proof.
  unfold PyStr.strip, PyStr.rstrip. intros H.
  destruct (lstrip_suffix k) as [a [_ Ha]].
  destruct (lstrip_suffix (rev (PyStr.lstrip k))) as [b [_ Hb]].
  assert (L : PyStr.lstrip k = k).
  { apply (f_equal (@length N)) in H. apply (f_equal (@length N)) in Hb.
    rewrite length_app, length_rev in Hb. rewrite length_rev in H.
    destruct a as [|c a]; [exact (eq_sym Ha)|].
    apply (f_equal (@length N)) in Ha. rewrite length_app in Ha.
    simpl in Ha. lia. }
  split; [exact L|]. now rewrite L in H.
Qed.

(** Whitespace on both sides of a stripped, non-empty string is stripped
    away. *)
Lemma strip_pad (a k b : str) :
  blank a -> blank b -> k <> [] -> PyStr.strip k = k ->
  PyStr.strip (a ++ k ++ b) = k.
Proof.
  intros Ha Hb Hk Hs. destruct (strip_fixed k Hs) as [L R].
  unfold PyStr.strip. rewrite lstrip_blank by exact Ha.
  rewrite lstrip_fixed_app by assumption.
  unfold PyStr.rstrip in *. rewrite rev_app_distr.
  rewrite lstrip_blank; [exact R|].
  unfold blank in *. rewrite forallb_forall in *.
  intros x Hx. apply Hb. now apply in_rev.
Qed.

Lemma blank_no_bar (a : str) : blank a -> ~ In 124%N a.
Proof.
  unfold blank. rewrite forallb_forall. intros H Hin.
  specialize (H _ Hin). vm_compute in H. discriminate.
Qed.

(** What the table guarantees of each of its keys. *)
Lemma key_facts (k : str) (p : profile) :
  In (k, p) TONGUE_DATABASE ->
  Dict.get k TONGUE_DATABASE = Some p /\
  k <> [] /\ ~ In 124%N k /\ PyStr.strip k = k.
Proof.
  intros Hin.
  pose proof (In_get _ _ _ TONGUE_DATABASE_keys_NoDup Hin) as Hget.
  assert (Hk : In k (Dict.keys TONGUE_DATABASE)).
  { apply In_keys_get. now exists p. }
  pose proof (TONGUE_DATABASE_keys_plain k Hk) as Hplain.
  unfold plain_key in Hplain.
  apply andb_true_iff in Hplain as [Hplain Hstrip].
  apply andb_true_iff in Hplain as [Hne Hbar].
  split; [exact Hget|]. split; [|split].
  - intros ->. discriminate.
  - rewrite bar_is_124 in Hbar. apply negb_true_iff in Hbar.
    rewrite <- contains_char. now rewrite Hbar.
  - now apply eqb_true.
Qed.

(** X9: Whitespace around the description is forgiven only when a separator
    follows. For every key [k] of the table and all whitespace [a], [b]:
    the input [a k b | rest] is recorded as an observation of [k]; the
    input [a k b] without separator, unless [a] and [b] are empty, is
    refused and the store is left as it was. *)
Theorem whitespace_around_key (current_user_id : str) (e : entropy)
    (k : str) (p : profile) (a b rest : str) (s : users_t) :
  In (k, p) TONGUE_DATABASE ->
  blank a -> blank b ->
  (exists text,
      enhanced_tongue_analysis current_user_id e
        (a ++ k ++ b ++ 124%N :: rest) s =
      (Ok text,
       recorded s current_user_id e k p
         (parsed_symptoms (PyStr.split 124 rest)))) /\
  (a ++ b <> [] ->
   enhanced_tongue_analysis current_user_id e (a ++ k ++ b) s =
   (Ok format_error_text, s)).
Proof.
  intros Hin Ha Hb.
  destruct (key_facts k p Hin) as [Hget [Hk [Hbar Hstrip]]].
  pose proof (strip_pad a k b Ha Hb Hk Hstrip) as Hpad.
  assert (Hnobar : ~ In 124%N (a ++ k ++ b)).
  { rewrite !in_app_iff. intros [H | [H | H]]; [|tauto|].
    - now apply (blank_no_bar a).
    - now apply (blank_no_bar b). }
  split.
  - destruct (enhanced_tongue_analysis_cases current_user_id e
                (a ++ k ++ b ++ 124%N :: rest) s) as [_ Hacc].
    assert (Hn : ~ refused_at_once (a ++ k ++ b ++ 124%N :: rest)).
    { intros [H | [H _]].
      - destruct a; [destruct k; [congruence | discriminate] | discriminate].
      - apply H. rewrite !in_app_iff. right. right. right. now left. }
    specialize (Hacc Hn (a ++ k ++ b) (PyStr.split 124 rest)).
    rewrite Hpad, Hget in Hacc. eexists. apply Hacc.
    replace (a ++ k ++ b ++ 124%N :: rest)
      with ((a ++ k ++ b) ++ 124%N :: rest)
      by now rewrite <- !app_assoc.
    now apply split_app_sep.
  - intros Hab. apply enhanced_tongue_analysis_refused. right.
    split; [exact Hnobar|].
    destruct (Dict.get (a ++ k ++ b) TONGUE_DATABASE) as [q|] eqn:G;
      [|reflexivity].
    exfalso. apply get_In in G.
    destruct (key_facts _ _ G) as [_ [_ [_ Hfix]]].
    rewrite Hpad in Hfix. apply (f_equal (@length N)) in Hfix.
    rewrite !length_app in Hfix.
    destruct a; destruct b; simpl in *; try congruence; lia.
Qed.

Lemma whitespace_around_key_witness :
  (exists text p,
      In (u "舌苔黃厚", p) TONGUE_DATABASE /\
      enhanced_tongue_analysis (u "u1") sample_entropy
        (u " " ++ u "舌苔黃厚" ++ u "  " ++ 124%N :: u "口苦") ∅ =
      (Ok text,
       recorded ∅ (u "u1") sample_entropy (u "舌苔黃厚") p
         (parsed_symptoms (PyStr.split 124 (u "口苦"))))) /\
  enhanced_tongue_analysis (u "u1") sample_entropy
    (u " " ++ u "舌苔黃厚" ++ u "  ") ∅ =
  (Ok format_error_text, ∅).
Proof.
  destruct (whitespace_around_key (u "u1") sample_entropy (u "舌苔黃厚") _
              (u " ") (u "  ") (u "口苦") ∅
              (or_intror (or_intror (or_intror (or_intror
                 (or_introl eq_refl))))) eq_refl eq_refl)
    as [[text H1] H2].
  split.
  - exists text. eexists. split; [|exact H1].
    right. right. right. right. left. reflexivity.
  - apply H2. discriminate.
Defined.

Lemma In_join (sep : str) (l : list str) (x : N) :
  In x (PyStr.join sep l) -> In x sep \/ exists piece, In piece l /\ In x piece.
Proof.
  induction l as [|piece l IH]; [simpl; tauto|].
  destruct l as [|piece' l].
  - simpl. intros H. right. exists piece. tauto.
  - change (PyStr.join sep (piece :: piece' :: l))
      with (piece ++ sep ++ PyStr.join sep (piece' :: l)).
    rewrite !in_app_iff. intros [H | [H | H]].
    + right. exists piece. split; [now left | exact H].
    + now left.
    + destruct (IH H) as [H1 | [q [Hq Hx]]]; [now left|].
      right. exists q. split; [now right | exact Hx].
Qed.

(** X10: The symptom list is read back as written. For every key [k] of the
    table and every non-empty list of symptoms that hold neither a comma
    nor a separator, the input [k|s1,...,sn] (not empty after the
    separator) is recorded as an observation of [k] with the symptoms
    [s1], ..., [sn], each stripped. *)
Theorem symptoms_recorded_as_written (current_user_id : str) (e : entropy)
    (k : str) (p : profile) (written : list str) (s : users_t) :
  In (k, p) TONGUE_DATABASE ->
  List.Forall (fun sy => ~ In 44%N sy /\ ~ In 124%N sy) written ->
  PyStr.join [44%N] written <> [] ->
  enhanced_tongue_analysis current_user_id e
    (k ++ 124%N :: PyStr.join [44%N] written) s =
  (Ok (analysis_text (uuid4 e) k p ++
       symptom_section (List.map PyStr.strip written) p ++ closing_text),
   recorded s current_user_id e k p (List.map PyStr.strip written)).
Proof.
  intros Hin Hw Hne.
  destruct (key_facts k p Hin) as [Hget [Hk [Hbar Hstrip]]].
  assert (Hwne : written <> []) by (intros ->; now apply Hne).
  assert (Hjoin : ~ In 124%N (PyStr.join [44%N] written)).
  { intros H. apply In_join in H as [[H | []] | [piece [Hp Hx]]];
      [discriminate|].
    rewrite List.Forall_forall in Hw. now apply (Hw _ Hp). }
  destruct (enhanced_tongue_analysis_cases current_user_id e
              (k ++ 124%N :: PyStr.join [44%N] written) s) as [_ Hacc].
  assert (Hn : ~ refused_at_once (k ++ 124%N :: PyStr.join [44%N] written)).
  { intros [H | [H _]].
    - destruct k; [congruence | discriminate].
    - apply H. rewrite in_app_iff. right. now left. }
  specialize (Hacc Hn k [PyStr.join [44%N] written]).
  rewrite Hstrip, Hget in Hacc.
  assert (Hps : parsed_symptoms [PyStr.join [44%N] written] =
                List.map PyStr.strip written).
  { unfold parsed_symptoms.
    destruct (PyStr.join [44%N] written) as [|c j] eqn:Ej; [congruence|].
    cbn [nonempty]. rewrite <- Ej. f_equal. apply split_join; [exact Hwne|].
    eapply List.Forall_impl; [|exact Hw]. cbv beta. intros ? [? ?].
    assumption. }
  rewrite Hps in Hacc. apply Hacc.
  rewrite split_app_sep by exact Hbar.
  now rewrite split_without_sep.
Qed.

Lemma symptoms_recorded_as_written_witness :
  exists p,
    In (u "舌苔黃厚", p) TONGUE_DATABASE /\
    enhanced_tongue_analysis (u "u1") sample_entropy
      (u "舌苔黃厚" ++ 124%N :: PyStr.join [44%N] [u "口苦"; u " 口乾 "]) ∅ =
    (Ok (analysis_text (uuid4 sample_entropy) (u "舌苔黃厚") p ++
         symptom_section (List.map PyStr.strip [u "口苦"; u " 口乾 "]) p ++
         closing_text),
     recorded ∅ (u "u1") sample_entropy (u "舌苔黃厚") p
       (List.map PyStr.strip [u "口苦"; u " 口乾 "])).
Proof.
  eexists. split.
  - right. right. right. right. left. reflexivity.
  - apply symptoms_recorded_as_written.
    + right. right. right. right. left. reflexivity.
    + repeat constructor; no_char.
    + discriminate.
Defined.

(** X11: Only the first two parts of the input are read: whatever follows a
    second separator changes neither the text returned nor the store. *)
Theorem text_after_second_separator_ignored (current_user_id : str)
    (e : entropy) (a b c : str) (s : users_t) :
  ~ In 124%N a -> ~ In 124%N b ->
  enhanced_tongue_analysis current_user_id e
    (a ++ 124%N :: b ++ 124%N :: c) s =
  enhanced_tongue_analysis current_user_id e (a ++ 124%N :: b) s.
Proof.
  intros Ha Hb.
  assert (N1 : ~ refused_at_once (a ++ 124%N :: b ++ 124%N :: c)).
  { intros [H | [H _]].
    - destruct a; discriminate.
    - apply H. rewrite in_app_iff. right. now left. }
  assert (N2 : ~ refused_at_once (a ++ 124%N :: b)).
  { intros [H | [H _]].
    - destruct a; discriminate.
    - apply H. rewrite in_app_iff. right. now left. }
  pose proof (proj2 (enhanced_tongue_analysis_cases current_user_id e
                       (a ++ 124%N :: b ++ 124%N :: c) s) N1
                a (b :: PyStr.split 124 c)) as H1.
  pose proof (proj2 (enhanced_tongue_analysis_cases current_user_id e
                       (a ++ 124%N :: b) s) N2 a [b]) as H2.
  rewrite split_app_sep, split_app_sep in H1 by assumption.
  rewrite split_app_sep, split_without_sep in H2 by assumption.
  specialize (H1 eq_refl). specialize (H2 eq_refl).
  destruct (Dict.get (PyStr.strip a) TONGUE_DATABASE) as [p|].
  - rewrite H1, H2. reflexivity.
  - now rewrite H1, H2.
Qed.

Lemma text_after_second_separator_ignored_witness :
  enhanced_tongue_analysis (u "u1") sample_entropy
    (u "舌苔黃厚" ++ 124%N :: u "口苦" ++ 124%N :: u "失眠") ∅ =
  enhanced_tongue_analysis (u "u1") sample_entropy
    (u "舌苔黃厚" ++ 124%N :: u "口苦") ∅.
Proof.
  apply text_after_second_separator_ignored; no_char.
Defined.

(** X12: A key followed by a separator and nothing more is read like the key
    alone: the same text, without symptom section, and the same record,
    without symptoms. *)
Theorem trailing_separator_same_as_key (current_user_id : str) (e : entropy)
    (k : str) (p : profile) (s : users_t) :
  In (k, p) TONGUE_DATABASE ->
  enhanced_tongue_analysis current_user_id e (k ++ [124%N]) s =
    enhanced_tongue_analysis current_user_id e k s /\
  enhanced_tongue_analysis current_user_id e k s =
    (Ok (analysis_text (uuid4 e) k p ++ closing_text),
     recorded s current_user_id e k p []).
Proof.
  intros Hin.
  destruct (key_facts k p Hin) as [Hget [Hk [Hbar Hstrip]]].
  assert (E2 : enhanced_tongue_analysis current_user_id e k s =
               (Ok (analysis_text (uuid4 e) k p ++ closing_text),
                recorded s current_user_id e k p [])).
  { rewrite (enhanced_tongue_analysis_key _ _ _ _ _ Hin).
    now rewrite add_tongue_record_exact. }
  split; [|exact E2]. rewrite E2.
  destruct (enhanced_tongue_analysis_cases current_user_id e
              (k ++ [124%N]) s) as [_ Hacc].
  assert (Hn : ~ refused_at_once (k ++ [124%N])).
  { intros [H | [H _]].
    - destruct k; discriminate.
    - apply H. rewrite in_app_iff. right. now left. }
  specialize (Hacc Hn k [[]]). rewrite Hstrip, Hget in Hacc.
  change (parsed_symptoms [[]]) with (@nil str) in Hacc.
  change (symptom_section [] p) with (@nil N) in Hacc.
  rewrite app_nil_l in Hacc.
  apply Hacc. now rewrite split_app_sep.
Qed.

Lemma trailing_separator_same_as_key_witness :
  enhanced_tongue_analysis (u "u1") sample_entropy
    (u "舌苔黃厚" ++ [124%N]) ∅ =
  enhanced_tongue_analysis (u "u1") sample_entropy (u "舌苔黃厚") ∅.
Proof.
  eapply (proj1 (trailing_separator_same_as_key (u "u1") sample_entropy
                   (u "舌苔黃厚") _ ∅ _)).
  Unshelve.
  2:{ right. right. right. right. left. reflexivity. }
Defined.

Lemma contains_refl (s : str) : PyStr.contains s s = true.
Proof. apply contains_spec. exists [], []. now rewrite app_nil_r. Qed.

Lemma contains_empty (s : str) : PyStr.contains [] s = true.
Proof. apply contains_spec. now exists [], s. Qed.

(** X13: The reconciliation sorts every symptom into exactly one of the two
    lists and keeps the order of the input in each. A symptom equal to a
    symptom of the profile is matched; so is the empty symptom (left by
    two commas in a row) whenever the profile has a symptom at all. *)
Theorem symptoms_partitioned (symptoms : list str) (tongue_info : profile) :
  let matched := matched_symptoms symptoms tongue_info in
  let unmatched := unmatched_symptoms symptoms tongue_info in
  Permutation symptoms (matched ++ unmatched) /\
  (length matched + length unmatched = length symptoms)%nat /\
  (forall s, In s symptoms -> (In s matched <-> ~ In s unmatched)) /\
  (forall s, In s symptoms -> In s (info_symptoms tongue_info) ->
             In s matched) /\
  (In [] symptoms -> info_symptoms tongue_info <> [] -> In [] matched) /\
  (exists keep : str -> bool,
      matched = List.filter keep symptoms /\
      unmatched = List.filter (fun s => negb (keep s)) symptoms).
Proof.
  intros matched unmatched. subst matched unmatched.
  unfold matched_symptoms, unmatched_symptoms.
  assert (P : Permutation symptoms
                (List.filter (matches_profile tongue_info) symptoms ++
                 List.filter (fun s => negb (matches_profile tongue_info s))
                   symptoms)).
  { induction symptoms as [|s l IH]; simpl; [reflexivity|].
    destruct (matches_profile tongue_info s); simpl.
    - now apply perm_skip.
    - rewrite <- Permutation_middle. now apply perm_skip. }
  split; [exact P|].
  split; [rewrite <- length_app; symmetry; now apply Permutation_length|].
  split.
  { intros s Hs. rewrite !filter_In. rewrite negb_true_iff.
    destruct (matches_profile tongue_info s); intuition congruence. }
  split.
  { intros s Hs Hp. apply filter_In. split; [exact Hs|].
    unfold matches_profile. apply existsb_exists. exists s.
    split; [exact Hp | apply contains_refl]. }
  split.
  { intros Hs Hne. apply filter_In. split; [exact Hs|].
    unfold matches_profile. destruct (info_symptoms tongue_info) as [|x l];
      [congruence|].
    simpl. now rewrite contains_empty. }
  exists (matches_profile tongue_info). split; reflexivity.
Qed.

(** ** Stores built in a session *)

Lemma session_step_keeps (s s' : users_t) :
  reachable s /\
  (forall user_id d, s !! user_id = Some d ->
                     List.Forall from_table (tongue_records d)) ->
  session_step s s' ->
  reachable s' /\
  (forall user_id d, s' !! user_id = Some d ->
                     List.Forall from_table (tongue_records d)).
Proof.
  intros [Hreach Hrec] [user_id nm ag gd now | uid e input].
  - split.
    { eapply reachable_step; [exact Hreach | constructor]. }
    destruct (s !! user_id) as [d0|] eqn:E.
    + now rewrite (create_user_existing _ _ _ _ _ _ _ E).
    + rewrite (create_user_new _ _ _ _ _ _ E). simpl.
      intros k d. rewrite lookup_insert. case_decide.
      * intros [= <-]. constructor.
      * apply Hrec.
  - destruct (enhanced_tongue_analysis_cases uid e input s) as [Href Hacc].
    destruct (negb (nonempty input) ||
              negb (PyStr.contains (u "|") input) &&
              negb (Dict.mem input TONGUE_DATABASE)) eqn:G.
    { apply first_guard_spec in G. rewrite (Href G). now split. }
    assert (Hn : ~ refused_at_once input).
    { rewrite <- first_guard_spec, G. discriminate. }
    destruct (PyStr.split 124 input) as [|part0 rest] eqn:Hsplit.
    { now apply split_nonempty in Hsplit. }
    specialize (Hacc Hn part0 rest eq_refl).
    destruct (Dict.get (PyStr.strip part0) TONGUE_DATABASE) as [p|] eqn:Hg;
      rewrite Hacc; [|now split].
    cbn [snd]. split.
    + eapply reachable_step; [exact Hreach|].
      replace (recorded s uid e (PyStr.strip part0) p (parsed_symptoms rest))
        with (snd (UserHealthManager.add_tongue_record uid
                     (PyStr.strip part0) (info_constitution p)
                     (parsed_symptoms rest) e s))
        by now rewrite add_tongue_record_exact.
      constructor.
    + unfold recorded. intros k d. rewrite lookup_insert. case_decide.
      * intros [= <-]. unfold with_record. cbn [tongue_records].
        apply List.Forall_app. split.
        -- unfold doc_or_fresh. destruct (s !! uid) as [d0|] eqn:E.
           ++ exact (Hrec _ _ E).
           ++ constructor.
        -- constructor; [|constructor]. exists p.
           split; [apply get_In; exact Hg | reflexivity].
      * apply Hrec.
Qed.

Lemma session_records_from_table_holds (s : users_t) :
  rtc session_step ∅ s ->
  reachable s /\
  (forall user_id d, s !! user_id = Some d ->
                     List.Forall from_table (tongue_records d)).
Proof.
  revert s. apply rtc_ind_r.
  - split; [constructor|]. intros user_id d Hd.
    rewrite lookup_empty in Hd. discriminate.
  - intros s s' _ Hstep IH. exact (session_step_keeps s s' IH Hstep).
Qed.

(** X14: Whatever is typed in a session, the store only ever holds
    observations of the table: in a store built from the empty one by
    [create_user] and the tongue-analysis tool, every record has a key of
    the table as type and the constitution the table gives for that key;
    such a store is also one the store operations can build. *)
Theorem session_records_from_table (s : users_t) :
  rtc session_step ∅ s ->
  reachable s /\
  (forall user_id d, s !! user_id = Some d ->
                     List.Forall from_table (tongue_records d)).
Proof. exact (session_records_from_table_holds s). Qed.

Lemma session_records_from_table_witness :
  reachable
    (snd (enhanced_tongue_analysis (u "u1") sample_entropy
            (u "舌苔黃厚|口苦") ∅)) /\
  (forall user_id d,
      snd (enhanced_tongue_analysis (u "u1") sample_entropy
             (u "舌苔黃厚|口苦") ∅) !! user_id = Some d ->
      List.Forall from_table (tongue_records d)).
Proof.
  apply session_records_from_table.
  eapply rtc_l; [|apply rtc_refl].
  exact (session_analysis ∅ (u "u1") sample_entropy (u "舌苔黃厚|口苦")).
Defined.

(** * Properties of the personalized advice *)

Lemma key_of_constitution_In (c k : str) (table : list (str * profile)) :
  key_of_constitution c table = Some k ->
  exists p, In (k, p) table /\ info_constitution p = c.
Proof.
  induction table as [|[k0 v0] table IH]; simpl; [discriminate|].
  destruct (PyStr.eqb (info_constitution v0) c) eqn:E.
  - intros [= <-]. apply eqb_true in E. exists v0. split; [now left | exact E].
  - intros H. destruct (IH H) as [p [Hp Hc]]. exists p.
    split; [now right | exact Hc].
Qed.


Lemma two_remedies (k : str) (p : profile) :
  In (k, p) TONGUE_DATABASE ->
  exists r0 r1 more, info_remedies p = r0 :: r1 :: more.
Proof.
  intros Hin.
  assert (H : forallb
                (fun kp => (2 <=? length (info_remedies (snd kp)))%nat)
                TONGUE_DATABASE = true) by (vm_compute; reflexivity).
  rewrite forallb_forall in H. specialize (H _ Hin). cbn [snd] in H.
  destruct (info_remedies p) as [|r0 [|r1 more]]; try discriminate H.
  now exists r0, r1, more.
Qed.

Lemma main_direction_entry (k : str) (p : profile) :
  In (k, p) TONGUE_DATABASE ->
  exists before after,
    main_direction (Some k) = Ok (before ++ info_advice p ++ after) /\
    before <> [].
Proof.
  intros Hin. destruct (key_facts k p Hin) as [Hget [Hk _]].
  destruct (two_remedies k p Hin) as [r0 [r1 [more Hr]]].
  unfold main_direction.
  assert (Hmem : Dict.mem k TONGUE_DATABASE = true).
  { apply mem_get. now exists p. }
  destruct k as [|c k]; [congruence|]. cbn [nonempty andb].
  rewrite Hmem, Hget, Hr. cbn [item nth_error].
  eexists. eexists. split; [reflexivity | discriminate].
Qed.

Lemma main_direction_total (c : str) :
  exists direction,
    main_direction (key_of_constitution c TONGUE_DATABASE) = Ok direction.
Proof.
  destruct (key_of_constitution c TONGUE_DATABASE) as [k|] eqn:E.
  - destruct (key_of_constitution_In _ _ _ E) as [p [Hp _]].
    destruct (main_direction_entry k p Hp) as [before [after [H _]]].
    rewrite H. eauto.
  - simpl. eauto.
Qed.

Lemma change_notice_total (a : analysis) (c : str) :
  exists notice,
    change_notice a (key_of_constitution c TONGUE_DATABASE) = Ok notice.
Proof.
  unfold change_notice.
  destruct (key_of_constitution c TONGUE_DATABASE) as [k|] eqn:E.
  - destruct (key_of_constitution_In _ _ _ E) as [p [Hp _]].
    destruct (key_facts k p Hp) as [Hget _]. rewrite Hget.
    destruct (negb _ && _); eauto.
  - rewrite andb_false_r. eauto.
Qed.

Lemma get_personalized_advice_total_holds (s : users_t) (current_user_id : str) :
  exists text,
    get_personalized_advice s current_user_id = Ok text /\
    (text = advice_needs_analysis <->
     records_in s current_user_id = []).
Proof.
  unfold get_personalized_advice, records_in, advice_needs_analysis.
  destruct (s !! current_user_id) as [d|] eqn:Hd.
  - destruct (tongue_records d) as [|r rs] eqn:Hr.
    + unfold UserHealthManager.get_constitution_analysis. rewrite Hd, Hr.
      eexists. split; [reflexivity|]. split; intros _; reflexivity.
    + assert (Hne : tongue_records d <> []) by (rewrite Hr; discriminate).
      destruct (nonempty_snoc _ Hne) as [init [x Hx]].
      rewrite (get_constitution_analysis_records _ _ _ _ _ Hd Hx).
      cbv zeta. cbn [recent_constitution most_common_constitution
                     total_records].
      match goal with
      | |- context [main_direction (key_of_constitution ?c _)] =>
          destruct (main_direction_total c) as [direction ->]
      end.
      match goal with
      | |- context [change_notice ?a (key_of_constitution ?c _)] =>
          destruct (change_notice_total a c) as [notice ->]
      end.
      eexists. split; [reflexivity|].
      split; [|discriminate]. intros H. exfalso.
      apply (f_equal (hd 0%N)) in H. vm_compute in H. discriminate.
  - unfold UserHealthManager.get_constitution_analysis. rewrite Hd.
    eexists. split; [reflexivity|]. split; intros _; reflexivity.
Qed.

(** X15: The advice tool never raises, whatever the store holds: every profile
    of the table has the two remedies the text quotes. To a user that is
    unknown or has no records it returns the request to run an analysis
    first; to a user with records it returns another text. *)
Theorem get_personalized_advice_total (s : users_t) (current_user_id : str) :
  exists text,
    get_personalized_advice s current_user_id = Ok text /\
    (text = advice_needs_analysis <->
     records_in s current_user_id = []).
Proof. exact (get_personalized_advice_total_holds s current_user_id). Qed.







(** * Properties of the trend report *)

Lemma occurs_in_app (x pre s post : str) :
  occurs_in x s -> occurs_in x (pre ++ s ++ post).
Proof.
  intros [a [b ->]]. exists (pre ++ a), (b ++ post).
  now rewrite <- !app_assoc.
Qed.

Lemma app_prefix5 {A} (a b c d e r t : list A) :
  (a ++ b ++ c ++ d ++ e ++ r) ++ t = [] ++ (a ++ b ++ c ++ d ++ e) ++ r ++ t.
Proof. now rewrite app_nil_l, <- !app_assoc. Qed.

Lemma distribution_lines_total (format_percentage : Z -> Z -> str)
    (a : analysis) (items : list (str * Z)) :
  total_records a <> 0 ->
  exists distribution,
    distribution_lines format_percentage a items = Returned distribution /\
    forall c n,
      In (c, n) items ->
      occurs_in (u "• " ++ c ++ u ": " ++ str_of_int n ++ u "次 (")
        distribution.
Proof.
  intros Ht. apply Z.eqb_neq in Ht.
  induction items as [|[c0 n0] items [dist [Hd Hocc]]].
  - exists []. split; [reflexivity|]. intros c n [].
  - cbn [distribution_lines]. rewrite Ht, Hd. eexists.
    split; [reflexivity|]. intros c n [H | H].
    + injection H as -> ->. exists []. eexists. apply app_prefix5.
    + destruct (Hocc c n H) as [x [y ->]].
      eexists. exists y. apply app_assoc.
Qed.

Lemma get_user_health_trends_total_holds (format_percentage : Z -> Z -> str)
    (s : users_t) (current_user_id : str) :
  exists text,
    get_user_health_trends format_percentage s current_user_id =
      Returned text /\
    (s !! current_user_id = None -> text = u "用戶不存在") /\
    (forall d,
        s !! current_user_id = Some d -> tongue_records d = [] ->
        text = u "暫無記錄可供分析") /\
    (forall d c n,
        s !! current_user_id = Some d -> tongue_records d <> [] ->
        In (c, n) (constitution_trends d) ->
        occurs_in (u "• " ++ c ++ u ": " ++ str_of_int n ++ u "次 (") text).
Proof.
  unfold get_user_health_trends.
  destruct (s !! current_user_id) as [d|] eqn:Hd.
  - destruct (tongue_records d) as [|r rs] eqn:Hr.
    + unfold UserHealthManager.get_constitution_analysis. rewrite Hd, Hr.
      eexists. split; [reflexivity|].
      split; [discriminate|]. split; [reflexivity|].
      intros d' c n [= <-] Hne. congruence.
    + assert (Hne : tongue_records d <> []) by (rewrite Hr; discriminate).
      destruct (nonempty_snoc _ Hne) as [init [x Hx]].
      rewrite (get_constitution_analysis_records _ _ _ _ _ Hd Hx).
      cbv zeta. cbn [constitution_frequency].
      match goal with
      | |- context [distribution_lines _ ?a ?items] =>
          destruct (distribution_lines_total format_percentage a items)
            as [dist [Hdist Hocc]]
      end.
      { cbn [total_records]. rewrite Hr. simpl length. lia. }
      rewrite Hdist. eexists. split; [reflexivity|].
      split; [discriminate|]. split.
      { intros d' [= <-] H. congruence. }
      intros d' c n [= <-] _ Hin.
      apply occurs_in_app. now apply Hocc.
  - unfold UserHealthManager.get_constitution_analysis. rewrite Hd.
    eexists. split; [reflexivity|]. split; [reflexivity|].
    split; intros; discriminate.
Qed.

(** X17: The trend report never raises: the division by the total only happens
    for a user with records, where the total is not zero. An unknown user
    gets the "no such user" text, a user without records the "no records"
    text; for a user with records, every entry of the frequency map has
    its line, with label and count, in the report. *)
Theorem get_user_health_trends_total (format_percentage : Z -> Z -> str)
    (s : users_t) (current_user_id : str) :
  exists text,
    get_user_health_trends format_percentage s current_user_id =
      Returned text /\
    (s !! current_user_id = None -> text = u "用戶不存在") /\
    (forall d,
        s !! current_user_id = Some d -> tongue_records d = [] ->
        text = u "暫無記錄可供分析") /\
    (forall d c n,
        s !! current_user_id = Some d -> tongue_records d <> [] ->
        In (c, n) (constitution_trends d) ->
        occurs_in (u "• " ++ c ++ u ": " ++ str_of_int n ++ u "次 (") text).
Proof. exact (get_user_health_trends_total_holds format_percentage s current_user_id). Qed.

(** * Further properties of the weather advice *)

Ltac block_cases :=
  cbn [app In length]; repeat split; unfold not; intros;
  repeat match goal with
         | H : _ \/ _ |- _ => destruct H
         | H : _ /\ _ |- _ => destruct H
         | H : False |- _ => destruct H
         end;
  try discriminate; try lia; auto.

(** X18: The blocks of an advice always open with the title, the conditions
    and the theory and close with the closing line. In between come at
    most the dampness block, one constitution clause and one temperature
    block: a constitution clause only follows the dampness block, the two
    clauses never come together, nor do the heat and the cold block. *)
Theorem advice_blocks_shape (humidity temperature : Q) (constitution : str) :
  let blocks := advice_blocks humidity temperature constitution in
  (exists middle,
      blocks = [Title; Conditions; Theory] ++ middle ++ [Closing] /\
      (length middle <= 3)%nat /\
      ~ In Title middle /\ ~ In Conditions middle /\ ~ In Theory middle /\
      ~ In Closing middle) /\
  (In SpleenDampClause blocks \/ In DampHeatClause blocks ->
   In Dampness blocks) /\
  ~ (In SpleenDampClause blocks /\ In DampHeatClause blocks) /\
  ~ (In Heat blocks /\ In Cold blocks).
Proof.
  cbv zeta. unfold advice_blocks. split.
  - eexists (_ ++ _). split; [now rewrite <- app_assoc|].
    destruct (Qgtb humidity (75 # 1));
      destruct (PyStr.eqb constitution (u "脾虛濕重"));
      destruct (PyStr.eqb constitution (u "濕熱體質"));
      destruct (Qgtb temperature (30 # 1));
      destruct (Qltb temperature (15 # 1)); block_cases.
  - destruct (Qgtb humidity (75 # 1));
      destruct (PyStr.eqb constitution (u "脾虛濕重"));
      destruct (PyStr.eqb constitution (u "濕熱體質"));
      destruct (Qgtb temperature (30 # 1));
      destruct (Qltb temperature (15 # 1)); block_cases.
Qed.

Lemma weather_advice_outcomes_holds (OPENWEATHER_API_KEY : option str)
    (get_weather_cached : str -> weather_json) (format_number : Q -> str)
    (s : users_t) (current_user_id city : str) :
  let res :=
    get_weather_cached
      match Dict.get (PyStr.strip city) CITY_NAME_MAP with
      | Some q => q
      | None => PyStr.strip city
      end in
  exists text,
    weather_constitution_advice OPENWEATHER_API_KEY get_weather_cached
      format_number s current_user_id city = Ok text /\
    (OPENWEATHER_API_KEY = None \/ OPENWEATHER_API_KEY = Some [] ->
     text = u "❌ 缺少 OpenWeather API 金鑰，無法查詢天氣。") /\
    (forall key,
        OPENWEATHER_API_KEY = Some key -> key <> [] ->
        cod res <> Some 200 ->
        text =
        u "⚠️ 天氣資訊查詢失敗：" ++
        (match message res with Some m => m | None => u "未知錯誤" end) ++
        nl ++ u "請檢查城市名稱或網路連線狀態") /\
    (forall key,
        OPENWEATHER_API_KEY = Some key -> key <> [] ->
        cod res = Some 200 ->
        exists shown,
          text =
          concat
            (List.map
               (render_block format_number city (weather_description res)
                  shown (main_humidity res) (main_temp res))
               (advice_blocks (main_humidity res) (main_temp res) shown)) /\
          shown =
          match last (records_in s current_user_id) with
          | Some x => constitution x
          | None => u "未知"
          end /\
          (records_in s current_user_id = [] ->
           ~ In SpleenDampClause
               (advice_blocks (main_humidity res) (main_temp res) shown) /\
           ~ In DampHeatClause
               (advice_blocks (main_humidity res) (main_temp res) shown))).
Proof.
  intros res. unfold weather_constitution_advice.
  destruct OPENWEATHER_API_KEY as [[|c key]|].
  - eexists. split; [reflexivity|]. split; [reflexivity|].
    split; intros key [= <-] H; congruence.
  - fold res.
    destruct (shown_constitution s current_user_id) as [r [Hr Hshown]].
    destruct (bool_decide (cod res = Some 200)) eqn:E.
    + apply bool_decide_eq_true in E. cbn [negb]. rewrite Hr.
      eexists. split; [reflexivity|].
      split; [intros [H | H]; discriminate|].
      split; [intros key' _ _ H; congruence|].
      intros key' _ _ _. eexists. split; [reflexivity|].
      split; [exact Hshown|].
      intros Hnone. rewrite Hshown, Hnone. cbn [last].
      destruct (advice_blocks_spec (main_humidity res) (main_temp res)
                  (u "未知")) as [_ [_ [_ [B4 B5]]]].
      split.
      * rewrite B5. intros [_ H]. vm_compute in H. discriminate.
      * rewrite B4. intros [_ H]. vm_compute in H. discriminate.
    + apply bool_decide_eq_false in E. cbn [negb].
      eexists. split; [reflexivity|].
      split; [intros [H | H]; discriminate|].
      split; [reflexivity|].
      intros key' _ _ H. congruence.
  - eexists. split; [reflexivity|]. split; [reflexivity|].
    split; intros key H; discriminate.
Qed.

(** X19: The weather tool never raises and has three outcomes: without
    credential, the refusal; with a credential and an answer of the
    service whose code is not 200, the failure text carrying the message
    of the service (a default when it has none); otherwise the advice,
    the concatenation of the blocks for the readings and for the
    constitution of the record appended last. For a user that is unknown
    or has no records the constitution shown is "未知" and no constitution
    clause is appended. *)
Theorem weather_advice_outcomes (OPENWEATHER_API_KEY : option str)
    (get_weather_cached : str -> weather_json) (format_number : Q -> str)
    (s : users_t) (current_user_id city : str) :
  let res :=
    get_weather_cached
      match Dict.get (PyStr.strip city) CITY_NAME_MAP with
      | Some q => q
      | None => PyStr.strip city
      end in
  exists text,
    weather_constitution_advice OPENWEATHER_API_KEY get_weather_cached
      format_number s current_user_id city = Ok text /\
    (OPENWEATHER_API_KEY = None \/ OPENWEATHER_API_KEY = Some [] ->
     text = u "❌ 缺少 OpenWeather API 金鑰，無法查詢天氣。") /\
    (forall key,
        OPENWEATHER_API_KEY = Some key -> key <> [] ->
        cod res <> Some 200 ->
        text =
        u "⚠️ 天氣資訊查詢失敗：" ++
        (match message res with Some m => m | None => u "未知錯誤" end) ++
        nl ++ u "請檢查城市名稱或網路連線狀態") /\
    (forall key,
        OPENWEATHER_API_KEY = Some key -> key <> [] ->
        cod res = Some 200 ->
        exists shown,
          text =
          concat
            (List.map
               (render_block format_number city (weather_description res)
                  shown (main_humidity res) (main_temp res))
               (advice_blocks (main_humidity res) (main_temp res) shown)) /\
          shown =
          match last (records_in s current_user_id) with
          | Some x => constitution x
          | None => u "未知"
          end /\
          (records_in s current_user_id = [] ->
           ~ In SpleenDampClause
               (advice_blocks (main_humidity res) (main_temp res) shown) /\
           ~ In DampHeatClause
               (advice_blocks (main_humidity res) (main_temp res) shown))).
Proof. exact (weather_advice_outcomes_holds OPENWEATHER_API_KEY get_weather_cached format_number s current_user_id city). Qed.

(** * Properties of the interactive loop *)

Lemma remember_length (h : list chat_message) (i a : str) :
  length (remember h i a) = Nat.min 10 (length h + 2).
Proof.
  unfold remember, UserHealthManager.slice_last. cbv zeta.
  pose proof (length_app h [HumanMessage i; AIMessage a]) as L.
  cbn [length] in L.
  destruct (Nat.ltb_spec 10 (length (h ++ [HumanMessage i; AIMessage a])))
    as [H | H].
  - rewrite length_skipn. lia.
  - lia.
Qed.

Lemma remember_suffix (h : list chat_message) (i a : str) :
  (exists dropped,
      h ++ [HumanMessage i; AIMessage a] = dropped ++ remember h i a) /\
  (exists kept, remember h i a = kept ++ [HumanMessage i; AIMessage a]).
Proof.
  unfold remember, UserHealthManager.slice_last. cbv zeta.
  pose proof (length_app h [HumanMessage i; AIMessage a]) as L.
  cbn [length] in L.
  destruct (Nat.ltb_spec 10 (length (h ++ [HumanMessage i; AIMessage a])))
    as [H | H].
  - split.
    + eexists. symmetry. apply firstn_skipn.
    + rewrite skipn_app.
      replace (length (h ++ [HumanMessage i; AIMessage a]) - 10 - length h)%nat
        with 0%nat by lia.
      eexists. reflexivity.
  - split; [now exists [] | now exists h].
Qed.

Lemma answered_Stay (r : tool_result str) (users : users_t)
    (h : list chat_message) (i : str) (printed : list str)
    (users' : users_t) (h' : list chat_message) :
  answered r users h i = Stay printed users' h' ->
  users' = users /\
  exists answer, r = Returned answer /\ h' = remember h i answer /\
                 printed = [answer_line answer].
Proof.
  unfold answered. destruct r as [answer | x]; [|discriminate].
  intros [= <- <- <-]. split; [reflexivity|]. now exists answer.
Qed.

Lemma enhanced_tongue_analysis_ok (current_user_id : str) (e : entropy)
    (input : str) (s : users_t) :
  exists text s',
    enhanced_tongue_analysis current_user_id e input s = (Ok text, s').
Proof.
  destruct (enhanced_tongue_analysis_cases current_user_id e input s)
    as [Href Hacc].
  destruct (negb (nonempty input) ||
            negb (PyStr.contains (u "|") input) &&
            negb (Dict.mem input TONGUE_DATABASE)) eqn:G.
  - apply first_guard_spec in G. rewrite (Href G). eauto.
  - assert (Hn : ~ refused_at_once input).
    { rewrite <- first_guard_spec, G. discriminate. }
    destruct (PyStr.split 124 input) as [|part0 rest] eqn:Hsplit.
    { now apply split_nonempty in Hsplit. }
    specialize (Hacc Hn part0 rest eq_refl).
    destruct (Dict.get (PyStr.strip part0) TONGUE_DATABASE);
      rewrite Hacc; eauto.
Qed.

Section MainFacts.

Variable lower : str -> str.
Variable format_date : str -> str.
Variable format_percentage : Z -> Z -> str.
Variable OPENWEATHER_API_KEY : option str.
Variable get_weather_cached : str -> weather_json.
Variable format_number : Q -> str.
Variable agent_executor :
  list chat_message -> users_t -> agent_outcome * users_t.

Let turn :=
  main_turn lower format_date format_percentage OPENWEATHER_API_KEY
    get_weather_cached format_number agent_executor.

(** What one pass of the loop can end in. *)
Lemma main_turn_cases (current_user_id : str) (e : entropy) (raw : str)
    (users : users_t) (h : list chat_message) :
  (exists printed, turn current_user_id e raw users h = Leave printed) \/
  (exists printed, turn current_user_id e raw users h = Stay printed users h) \/
  (exists answer,
      turn current_user_id e raw users h =
      Stay [answer_line answer] users
        (remember h (PyStr.strip raw) answer)) \/
  (exists answer,
      turn current_user_id e raw users h =
      Stay [answer_line answer]
        (snd (enhanced_tongue_analysis current_user_id e
                (PyStr.strip raw) users))
        (remember h (PyStr.strip raw) answer)) \/
  (exists printed,
      turn current_user_id e raw users h =
      Stay printed
        (snd (agent_executor (agent_messages h (PyStr.strip raw)) users))
        h) \/
  (exists answer,
      turn current_user_id e raw users h =
      Stay [answer_line answer]
        (snd (agent_executor (agent_messages h (PyStr.strip raw)) users))
        (remember h (PyStr.strip raw) answer)).
Proof.
  unfold turn, main_turn. cbv zeta.
  destruct (existsb _ [u "q"; u "quit"]); [left; eauto|].
  destruct (negb (nonempty (PyStr.strip raw))); [right; left; eauto|].
  destruct (PyStr.eqb (PyStr.strip raw) _).
  { destruct (get_user_health_trends_total_holds format_percentage users
                current_user_id) as [text [-> _]].
    right. right. left. now exists text. }
  destruct (PyStr.eqb (PyStr.strip raw) _).
  { right. right. left. eexists. reflexivity. }
  destruct (PyStr.eqb (PyStr.strip raw) _).
  { destruct (get_personalized_advice_total_holds users current_user_id)
      as [text [-> _]].
    right. right. left. now exists text. }
  destruct (PyStr.startswith _ (PyStr.strip raw)).
  { destruct (negb (nonempty _)); [right; left; eauto|].
    match goal with
    | |- context [weather_constitution_advice ?k ?g ?f ?s ?uid ?c] =>
        destruct (weather_advice_outcomes_holds k g f s uid c)
          as [text [-> _]]
    end.
    right. right. left. now exists text. }
  destruct (existsb _ (Dict.keys TONGUE_DATABASE)).
  { destruct (enhanced_tongue_analysis_ok current_user_id e
                (PyStr.strip raw) users) as [text [s' ->]].
    right. right. right. left. now exists text. }
  fold (agent_messages h (PyStr.strip raw)).
  destruct (agent_executor (agent_messages h (PyStr.strip raw)) users)
    as [[answer | text] s'].
  - right. right. right. right. right. now exists answer.
  - right. right. right. right. left. eexists. reflexivity.
Qed.

(** X20: A pass of the loop never stops on an exception: the tools it calls
    directly all return. It ends the loop exactly on the lines that ask
    to leave. On any other line it stays, and the store it leaves is
    fixed by the line: the store as it was for an empty line, a report
    command or the weather command; else the store the tongue-analysis
    tool leaves on that line when the line starts with a key of the
    table; else the store the agent leaves on the conversation extended
    by that line. *)
Theorem main_turn_never_crashes (current_user_id : str) (e : entropy)
    (raw : str) (users : users_t) (h : list chat_message) :
  let user_input := PyStr.strip raw in
  (asks_to_leave lower user_input = true /\
   exists printed, turn current_user_id e raw users h = Leave printed) \/
  (asks_to_leave lower user_input = false /\
   exists printed users' h',
     turn current_user_id e raw users h = Stay printed users' h' /\
     users' =
       (if reads_only user_input then users
        else if key_prefixed user_input then
          snd (enhanced_tongue_analysis current_user_id e user_input users)
        else
          snd (agent_executor (agent_messages h user_input) users)) /\
     (users' = users \/
      users' =
        snd (enhanced_tongue_analysis current_user_id e user_input users) \/
      users' =
        snd (agent_executor (agent_messages h user_input) users))).
Proof.
  cbv zeta.
  unfold asks_to_leave, reads_only, key_prefixed, turn, main_turn. cbv zeta.
  destruct (existsb _ [u "q"; u "quit"]);
    [left; split; [reflexivity | eauto] | right; split; [reflexivity|]].
  destruct (negb (nonempty (PyStr.strip raw))).
  { cbn [orb]. exists [], users, h. auto. }
  destruct (PyStr.eqb (PyStr.strip raw) _).
  { cbn [orb].
    destruct (get_user_health_trends_total_holds format_percentage users
                current_user_id) as [text [-> _]].
    exists [answer_line text], users, (remember h (PyStr.strip raw) text).
    auto. }
  destruct (PyStr.eqb (PyStr.strip raw) _).
  { cbn [orb]. eexists _, users, _. split; [reflexivity | auto]. }
  destruct (PyStr.eqb (PyStr.strip raw) _).
  { cbn [orb].
    destruct (get_personalized_advice_total_holds users current_user_id)
      as [text [-> _]].
    exists [answer_line text], users, (remember h (PyStr.strip raw) text).
    auto. }
  destruct (PyStr.startswith _ (PyStr.strip raw)).
  { cbn [orb]. destruct (negb (nonempty _)).
    { eexists _, users, h. split; [reflexivity | auto]. }
    match goal with
    | |- context [weather_constitution_advice ?k ?g ?f ?s ?uid ?c] =>
        destruct (weather_advice_outcomes_holds k g f s uid c)
          as [text [-> _]]
    end.
    exists [answer_line text], users, (remember h (PyStr.strip raw) text).
    auto. }
  cbn [orb].
  destruct (existsb _ (Dict.keys TONGUE_DATABASE)).
  { destruct (enhanced_tongue_analysis_ok current_user_id e
                (PyStr.strip raw) users) as [text [s' ->]].
    exists [answer_line text], s', (remember h (PyStr.strip raw) text).
    auto. }
  fold (agent_messages h (PyStr.strip raw)).
  destruct (agent_executor (agent_messages h (PyStr.strip raw)) users)
    as [[answer | text] s'].
  - exists [answer_line answer], s',
      (remember h (PyStr.strip raw) answer). auto.
  - eexists _, s', h. split; [reflexivity | auto].
Qed.

(** X21: The conversation kept for the agent never grows past ten messages:
    after a pass that stays in the loop it is either what it was or what
    it was with the question and the answer added and then cut to its
    last ten messages, so it ends with that question and answer. *)
Theorem chat_history_bounded (current_user_id : str) (e : entropy)
    (raw : str) (users : users_t) (h : list chat_message)
    (printed : list str) (users' : users_t) (h' : list chat_message) :
  turn current_user_id e raw users h = Stay printed users' h' ->
  (h' = h \/
   exists answer,
     h' = remember h (PyStr.strip raw) answer /\
     length h' = Nat.min 10 (length h + 2) /\
     (exists dropped,
         h ++ [HumanMessage (PyStr.strip raw); AIMessage answer] =
         dropped ++ h') /\
     (exists kept,
         h' = kept ++ [HumanMessage (PyStr.strip raw); AIMessage answer])) /\
  ((length h <= 10)%nat -> (length h' <= 10)%nat).
Proof.
  intros Hturn.
  assert (H : h' = h \/
              exists answer, h' = remember h (PyStr.strip raw) answer).
  { destruct (main_turn_cases current_user_id e raw users h)
      as [[p H] | [[p H] | [[a H] | [[a H] | [[p H] | [a H]]]]]];
      rewrite H in Hturn; try discriminate;
      injection Hturn as _ _ <-; eauto. }
  destruct H as [-> | [answer ->]].
  - split; [now left | tauto].
  - split.
    + right. exists answer. split; [reflexivity|].
      split; [apply remember_length|]. apply remember_suffix.
    + intros _. rewrite remember_length. lia.
Qed.

End MainFacts.

Lemma chat_history_bounded_witness :
  exists printed users' h',
    main_turn (fun s => s) (fun d => d) (fun _ _ => []) None
      (fun _ => sample_weather) sample_format_number
      (fun _ s => (FinalAnswer (u "ok"), s))
      (u "u1") sample_entropy (u "歷史記錄") sample_store [] =
      Stay printed users' h' /\
    (length h' <= 10)%nat.
Proof.
  eexists. eexists. eexists.
  assert (E : main_turn (fun s => s) (fun d => d) (fun _ _ => []) None
      (fun _ => sample_weather) sample_format_number
      (fun _ s => (FinalAnswer (u "ok"), s))
      (u "u1") sample_entropy (u "歷史記錄") sample_store [] =
      Stay [answer_line
              (get_user_history_formatted (fun d => d) sample_store (u "u1"))]
        sample_store
        (remember [] (PyStr.strip (u "歷史記錄"))
           (get_user_history_formatted (fun d => d) sample_store (u "u1"))))
    by reflexivity.
  split; [exact E|].
  refine (proj2 (chat_history_bounded _ _ _ _ _ _ _ _ _ _ _ _ _ _ _ E) _).
  simpl. lia.
Defined.

(** No key of the table begins another key, and none begins a command of
    the loop. *)
Lemma key_prefix_of_key (k k' : str) :
  In k (Dict.keys TONGUE_DATABASE) -> In k' (Dict.keys TONGUE_DATABASE) ->
  PyStr.startswith k k' = true -> k = k'.
Proof.
  intros Hk Hk' Hs.
  assert (H : forallb
                (fun a =>
                   forallb
                     (fun b => negb (PyStr.startswith a b) || PyStr.eqb a b)
                     (Dict.keys TONGUE_DATABASE))
                (Dict.keys TONGUE_DATABASE) = true)
    by (vm_compute; reflexivity).
  rewrite forallb_forall in H. specialize (H _ Hk).
  rewrite forallb_forall in H. specialize (H _ Hk').
  rewrite Hs in H. now apply eqb_true in H.
Qed.

Lemma key_head (k : str) :
  In k (Dict.keys TONGUE_DATABASE) ->
  exists c k', k = c :: k' /\ (c = 33292%N \/ c = 28129%N).
Proof.
  intros Hk.
  assert (H : forallb
                (fun a =>
                   match a with
                   | c :: _ => (c =? 33292)%N || (c =? 28129)%N
                   | [] => false
                   end)
                (Dict.keys TONGUE_DATABASE) = true)
    by (vm_compute; reflexivity).
  rewrite forallb_forall in H. specialize (H _ Hk).
  destruct k as [|c k']; [discriminate|]. exists c, k'.
  split; [reflexivity|].
  apply orb_true_iff in H as [H | H]; apply N.eqb_eq in H; auto.
Qed.

Lemma key_prefixed_not_command (k input : str) :
  In k (Dict.keys TONGUE_DATABASE) ->
  PyStr.startswith k input = true ->
  nonempty input = true /\
  PyStr.eqb input (u "健康趨勢") = false /\
  PyStr.eqb input (u "歷史記錄") = false /\
  PyStr.eqb input (u "個性化建議") = false /\
  PyStr.startswith (u "天氣") input = false.
Proof.
  intros Hk Hs. destruct (key_head k Hk) as [c [k' [-> Hc]]].
  apply startswith_spec in Hs as [post ->]. simpl app.
  split; [reflexivity|].
  repeat split; try (apply eqb_false; intros H; apply (f_equal (hd 0%N)) in H;
                     vm_compute in H; destruct Hc; subst; discriminate).
  apply not_true_iff_false. intros H.
  apply startswith_spec in H as [post' H]. apply (f_equal (hd 0%N)) in H.
  vm_compute in H. destruct Hc; subst; discriminate.
Qed.

(** X22: Every line that starts with a key of the table goes to the
    tongue-analysis tool, whole. So a key followed by anything but a
    separator is refused: the tool answers with the list of the keys and
    the store is left as it was. *)
Theorem key_prefixed_input_goes_to_analysis
    (lower : str -> str) (format_date : str -> str)
    (format_percentage : Z -> Z -> str) (OPENWEATHER_API_KEY : option str)
    (get_weather_cached : str -> weather_json) (format_number : Q -> str)
    (agent_executor : list chat_message -> users_t -> agent_outcome * users_t)
    (current_user_id : str) (e : entropy) (raw : str) (users : users_t)
    (h : list chat_message) (k : str) :
  let user_input := PyStr.strip raw in
  existsb (PyStr.eqb (lower user_input)) [u "q"; u "quit"] = false ->
  In k (Dict.keys TONGUE_DATABASE) ->
  PyStr.startswith k user_input = true ->
  exists answer users',
    enhanced_tongue_analysis current_user_id e user_input users =
      (Ok answer, users') /\
    main_turn lower format_date format_percentage OPENWEATHER_API_KEY
      get_weather_cached format_number agent_executor
      current_user_id e raw users h =
      Stay [answer_line answer] users' (remember h user_input answer) /\
    (user_input <> k -> ~ In 124%N user_input ->
     users' = users /\ answer = format_error_text).
Proof.
  intros user_input Hq Hk Hs.
  destruct (key_prefixed_not_command k user_input Hk Hs)
    as [Hne [C1 [C2 [C3 C4]]]].
  destruct (enhanced_tongue_analysis_ok current_user_id e user_input users)
    as [answer [users' Hrun]].
  exists answer, users'. split; [exact Hrun|]. split.
  - unfold main_turn. cbv zeta. fold user_input.
    rewrite Hq, Hne, C1, C2, C3, C4. cbn [negb].
    assert (Hex : existsb (fun t => PyStr.startswith t user_input)
                    (Dict.keys TONGUE_DATABASE) = true).
    { apply existsb_exists. now exists k. }
    rewrite Hex, Hrun. reflexivity.
  - intros Hneq Hbar.
    assert (Href : enhanced_tongue_analysis current_user_id e user_input
                     users = (Ok format_error_text, users)).
    { apply enhanced_tongue_analysis_refused. right. split; [exact Hbar|].
      destruct (Dict.get user_input TONGUE_DATABASE) as [q|] eqn:G;
        [|reflexivity].
      exfalso. apply Hneq. symmetry. apply key_prefix_of_key; try assumption.
      apply In_keys_get. now exists q. }
    rewrite Href in Hrun. injection Hrun as <- <-. now split.
Qed.

Lemma key_prefixed_input_goes_to_analysis_witness :
  exists answer users',
    enhanced_tongue_analysis (u "u1") sample_entropy
      (PyStr.strip (u " 舌苔黃厚 很厚 ")) sample_store = (Ok answer, users') /\
    main_turn (fun s => s) (fun d => d) (fun _ _ => []) None
      (fun _ => sample_weather) sample_format_number
      (fun _ s => (FinalAnswer (u "ok"), s))
      (u "u1") sample_entropy (u " 舌苔黃厚 很厚 ") sample_store [] =
      Stay [answer_line answer] users'
        (remember [] (PyStr.strip (u " 舌苔黃厚 很厚 ")) answer) /\
    users' = sample_store /\ answer = format_error_text.
Proof.
  destruct (key_prefixed_input_goes_to_analysis (fun s => s) (fun d => d)
              (fun _ _ => []) None (fun _ => sample_weather)
              sample_format_number (fun _ s => (FinalAnswer (u "ok"), s))
              (u "u1") sample_entropy (u " 舌苔黃厚 很厚 ") sample_store []
              (u "舌苔黃厚"))
    as [answer [users' [H1 [H2 H3]]]].
  - reflexivity.
  - right. right. right. right. left. reflexivity.
  - reflexivity.
  - exists answer, users'. split; [exact H1|]. split; [exact H2|].
    apply H3.
    + intros H. vm_compute in H. discriminate.
    + no_char.
Defined.

(** X23: After the start of a session the current user is stored: a blank line
    selects "default_user", any other line its stripped text; the user is
    created when new, and what the store already held is kept. So no
    query of the session can answer "no such user" about the current
    user's analysis. *)
Theorem start_session_registers_user (raw now : str) (users : users_t) :
  exists current_user_id users' greeting d,
    start_session raw now users = (current_user_id, users', greeting) /\
    current_user_id =
      (if nonempty (PyStr.strip raw) then PyStr.strip raw
       else u "default_user") /\
    current_user_id <> [] /\
    users' !! current_user_id = Some d /\
    (forall other d0, users !! other = Some d0 ->
                      users' !! other = Some d0) /\
    (forall msg,
        UserHealthManager.get_constitution_analysis users' current_user_id <>
        Ok (AnalysisError msg)).
Proof.
  unfold start_session. cbv zeta.
  set (uid := if nonempty (PyStr.strip raw) then PyStr.strip raw
              else u "default_user").
  assert (Hne : uid <> []).
  { subst uid. destruct (PyStr.strip raw); [discriminate | discriminate]. }
  assert (Hno : forall (s : users_t) d, s !! uid = Some d -> forall msg,
            UserHealthManager.get_constitution_analysis s uid <>
            Ok (AnalysisError msg)).
  { intros s d Hd msg. unfold UserHealthManager.get_constitution_analysis.
    rewrite Hd. destruct (tongue_records d) as [|r rs] eqn:Hr;
      [discriminate|].
    assert (Hnn : tongue_records d <> []) by (rewrite Hr; discriminate).
    destruct (nonempty_snoc _ Hnn) as [init [x Hx]].
    rewrite <- Hr, Hx, last_item_snoc.
    destruct (constitution_trends d); discriminate. }
  destruct (users !! uid) as [d|] eqn:Hd.
  - rewrite (create_user_existing _ _ _ _ _ _ _ Hd).
    eexists. eexists. eexists. exists d. split; [reflexivity|].
    split; [reflexivity|]. split; [exact Hne|]. split; [exact Hd|].
    split; [auto | exact (Hno _ _ Hd)].
  - rewrite (create_user_new _ _ _ _ _ _ Hd).
    eexists. eexists. eexists. eexists. split; [reflexivity|].
    split; [reflexivity|]. split; [exact Hne|].
    split; [apply lookup_insert_eq|]. split.
    + intros other d0 H. rewrite lookup_insert_ne; [exact H|].
      intros ->. congruence.
    + apply (Hno _ _ (lookup_insert_eq _ _ _)).
Qed.

(** * Further properties of the history report *)

Lemma history_lines_line (format_date : str -> str) (l : list tongue_record)
    (start i : nat) (r : tongue_record) :
  nth_error l i = Some r ->
  occurs_in (history_line format_date (start + i) r)
    (history_lines format_date start l).
Proof.
  revert start i. induction l as [|x l IH]; intros start i H.
  - destruct i; discriminate.
  - destruct i as [|i]; simpl in H.
    + injection H as ->. rewrite Nat.add_0_r. exists []. eexists.
      cbn [history_lines]. reflexivity.
    + destruct (IH (S start) i H) as [a [b Hab]].
      exists (history_line format_date start x ++ a), b.
      cbn [history_lines].
      replace (start + S i)%nat with (S start + i)%nat by lia.
      rewrite Hab, <- !app_assoc. reflexivity.
Qed.

Lemma history_lines_concat (format_date : str -> str)
    (l : list tongue_record) (start : nat) :
  history_lines format_date start l =
  concat
    (List.map (fun ir => history_line format_date (fst ir) (snd ir))
       (combine (seq start (length l)) l)).
Proof.
  revert start. induction l as [|x l IH]; intros start.
  - reflexivity.
  - cbn [history_lines length seq combine List.map concat fst snd].
    now rewrite IH.
Qed.

Lemma get_user_history_length (s : users_t) (user_id : str) :
  (length (UserHealthManager.get_user_history s user_id 10) <= 10)%nat.
Proof.
  unfold UserHealthManager.get_user_history.
  destruct (s !! user_id); [|simpl; lia].
  unfold UserHealthManager.slice_to.
  change (10 <? 0) with false. cbv iota.
  rewrite length_firstn. change (Z.to_nat 10) with 10%nat. lia.
Qed.

(** X24: The history report is made of the records of the history asked
    with limit 10, at most ten: when there are none it is the text that
    says so; otherwise it is the heading followed by exactly one line for
    each record, in the order of the history and numbered from 1, 2, ...:
    the line of a record carries its number, the formatted date, the type
    and the constitution. So the line of the record at position [i]
    (from 0) carries the number [i + 1] and occurs in the report. *)
Theorem history_report_lines (format_date : str -> str) (s : users_t)
    (current_user_id : str) :
  let history := UserHealthManager.get_user_history s current_user_id 10 in
  let report := get_user_history_formatted format_date s current_user_id in
  let line (ir : nat * tongue_record) :=
    format_2d (fst ir) ++ u ". " ++ format_date (date (snd ir)) ++ u " | " ++
    tongue_type (snd ir) ++ u " → " ++ constitution (snd ir) ++ nl in
  (length history <= 10)%nat /\
  (history = [] -> report = u "📭 暫無歷史記錄") /\
  (history <> [] ->
   report =
   (u "📚 【歷史記錄】" ++ nl ++ u "━━━━━━━━━━━━━━━━━━━━" ++ nl) ++
   concat (List.map line (combine (seq 1 (length history)) history))) /\
  (forall i r,
      nth_error history i = Some r ->
      (i < 10)%nat /\ occurs_in (line (S i, r)) report).
Proof.
  cbv zeta.
  pose proof (get_user_history_length s current_user_id) as L.
  split; [exact L|].
  unfold get_user_history_formatted. cbv zeta.
  destruct (UserHealthManager.get_user_history s current_user_id 10)
    as [|x l] eqn:E.
  - split; [reflexivity|]. split; [congruence|].
    intros i r H. destruct i; discriminate.
  - cbn [nonempty]. split; [discriminate|]. split.
    + intros _. rewrite history_lines_concat. reflexivity.
    + intros i r H. split.
      * assert (B : (i < length (x :: l))%nat).
        { apply nth_error_Some. rewrite H. discriminate. }
        lia.
      * destruct (history_lines_line format_date (x :: l) 1 i r H)
          as [a [b Hab]].
        change (1 + i)%nat with (S i) in Hab. unfold history_line in Hab.
        cbn [fst snd]. rewrite Hab. eexists. exists b. apply app_assoc.
Qed.

Lemma history_report_lines_witness :
  occurs_in
    (format_2d 1 ++ u ". " ++ date (call_record sample_call_two) ++ u " | " ++
     tongue_type (call_record sample_call_two) ++ u " → " ++
     constitution (call_record sample_call_two) ++ nl)
    (get_user_history_formatted (fun d => d) sample_store (u "u1")).
Proof.
  refine (proj2 (proj2 (proj2 (proj2
            (history_report_lines (fun d => d) sample_store (u "u1"))))
            0%nat (call_record sample_call_two) _)).
  vm_compute. reflexivity.
Defined.
